(** * The Pool Shop: inventory and invoicing

    A shallow embedding of the stock and invoice logic of the Django
    application [inventory] ([models.py], [views.py]) and the properties
    of its invoice finalisation, totals, stock operations, invoice
    numbers and stock ledger.

    The database is an explicit value of type [DB]; a model method or a
    view is a function that threads the database and either returns or
    raises.  [transaction.atomic()] restores the database on an
    exception. *)

From Stdlib Require Import ZArith QArith Qpower Qabs String Ascii List Bool Lia.
From Stdlib Require Import DecimalString DecimalN.
From stdpp Require Import base option list gmap.

Import ListNotations.
Local Open Scope string_scope.
Local Open Scope list_scope.
Local Open Scope Z_scope.

(** ** Python built-ins used by the application *)

Module py.

(** [str(n)] for an [int]. *)
Definition str_nat (n : N) : string :=
  NilEmpty.string_of_uint (N.to_uint n).

Definition str (n : Z) : string :=
  if n <? 0 then String "-" (str_nat (Z.abs_N n)) else str_nat (Z.abs_N n).

(** [s * k] for a one-character string. *)
Fixpoint repeat_char (c : ascii) (k : nat) : string :=
  match k with
  | O => EmptyString
  | S k' => String c (repeat_char c k')
  end.

(** [s.rjust(width, "0")] on the digits of a number. *)
Definition zfill (width : nat) (digits : string) : string :=
  (repeat_char "0" (width - String.length digits) ++ digits)%string.

(** [f"{n:04d}"]: the sign, then the digits padded with zeros so that
    the whole field is at least four characters wide. *)
Definition format_04d (n : Z) : string :=
  if n <? 0 then String "-" (zfill 3 (str_nat (Z.abs_N n)))
  else zfill 4 (str_nat (Z.abs_N n)).

(** [f"{n:02d}"], as [strftime] prints months and days. *)
Definition format_02d (n : Z) : string :=
  if n <? 0 then String "-" (zfill 1 (str_nat (Z.abs_N n)))
  else zfill 2 (str_nat (Z.abs_N n)).

Definition is_digit (c : ascii) : bool :=
  (48 <=? N_of_ascii c)%N && (N_of_ascii c <=? 57)%N.

Fixpoint all_digits (s : string) : bool :=
  match s with
  | EmptyString => true
  | String c s' => is_digit c && all_digits s'
  end.

(** [int(s)] on a plain decimal numeral (leading zeros allowed).  On
    any other text the model answers [None], Python's [ValueError].
    The signs, blanks and underscores that [int] also reads are not
    modelled: no number made by the generator has them. *)
Definition int (s : string) : option Z :=
  match s with
  | EmptyString => None
  | _ => (fun d => Z.of_N (N.of_uint d)) <$> NilEmpty.uint_of_string s
  end.

(** [s.split(sep)] for a one-character separator. *)
Fixpoint split (sep : ascii) (s : string) : list string :=
  match s with
  | EmptyString => [EmptyString]
  | String c s' =>
      if Ascii.eqb c sep then EmptyString :: split sep s'
      else match split sep s' with
           | [] => [String c EmptyString]
           | w :: ws => String c w :: ws
           end
  end.

(** [l[-1]] on the result of [split], which is never empty. *)
Definition last_of (l : list string) : string := List.last l EmptyString.

(** [s.startswith(p)], also the test of the lookup [__startswith]
    (SQLite, which compares without regard to case, apart). *)
Definition startswith (s p : string) : bool := String.prefix p s.

(** [max] of two strings in code-point order, the order of the
    aggregate [Max] on a text column under a binary collation. *)
Definition str_max (a b : string) : string :=
  if String.leb a b then b else a.

(** [Max] over a column: [None] on no rows. *)
Definition max_of (l : list string) : option string :=
  match l with
  | [] => None
  | x :: xs => Some (fold_left str_max xs x)
  end.

End py.

(** ** The arithmetic of [decimal.Decimal]

    A finite decimal is a coefficient and an exponent; every operation
    computes the exact result and then rounds it to the 28 significant
    digits of the default context, half to even.  Signed zeros, NaN,
    infinities and the limits on the exponent are outside the model. *)

Module decimal.

Record Decimal : Type := Dec { coef : Z; expo : Z }.

Definition prec : Z := 28.


(** Number of decimal digits of a natural number. *)
Definition ndigits (m : Z) : Z :=
  Z.of_nat (String.length (py.str_nat (Z.abs_N m))).

(** Drop the last [k] digits of [m >= 0], rounding half to even. *)
Definition round_half_even (m k : Z) : Z :=
  let q := m / 10 ^ k in
  let r := m mod 10 ^ k in
  if (10 ^ k <? 2 * r) || ((2 * r =? 10 ^ k) && Z.odd q) then q + 1 else q.

(** [Decimal._fix]: leave a coefficient of at most [prec] digits alone,
    round a longer one to [prec] digits. *)
Definition _fix (d : Decimal) : Decimal :=
  let m := Z.abs (coef d) in
  if m <? 10 ^ prec then d
  else
    let k := ndigits m - prec in
    let q := round_half_even m k in
    if q <? 10 ^ prec then Dec (Z.sgn (coef d) * q) (expo d + k)
    else Dec (Z.sgn (coef d) * (q / 10)) (expo d + k + 1).

(** [Decimal(n)] for an [int]: exact. *)
Definition of_int (n : Z) : Decimal := Dec n 0.

(** [a * b]. *)
Definition mul (a b : Decimal) : Decimal :=
  _fix (Dec (coef a * coef b) (expo a + expo b)).

(** [a + b]: both operands are brought to the smaller exponent. *)
Definition add (a b : Decimal) : Decimal :=
  let e := Z.min (expo a) (expo b) in
  _fix (Dec (coef a * 10 ^ (expo a - e) + coef b * 10 ^ (expo b - e)) e).

(** One step of the loop that brings an exact quotient back towards the
    ideal exponent: a trailing zero of the coefficient is removed. *)
Definition strip_zero (ideal : Z) (d : Decimal) : Decimal :=
  if (expo d <? ideal) && (coef d mod 10 =? 0)
  then Dec (coef d / 10) (expo d + 1) else d.

(** [a / Decimal('100')]: the quotient by one hundred is always exact;
    its exponent is two below that of [a], less the trailing zeros that
    can be removed without passing the exponent of [a]. *)
Definition div_100 (a : Decimal) : Decimal :=
  _fix (strip_zero (expo a) (strip_zero (expo a) (Dec (coef a) (expo a - 2)))).

(** [sum(xs)]: a left fold that starts from the [int] zero. *)
Definition sum (xs : list Decimal) : Decimal :=
  fold_left add xs (of_int 0).

End decimal.

Export decimal.

(** What a [DecimalField(max_digits, decimal_places)] column keeps of a
    value that is handed to it.  Django's [format_number] quantizes the
    value to [decimal_places] places, half to even, in a context of
    [max_digits] digits; when the result would have more than
    [max_digits] digits the quantize signals [decimal.InvalidOperation]
    and the write fails.  [None] is that failure. *)
Definition column (max_digits decimal_places : Z) (d : Decimal) : option Decimal :=
  let k := - decimal_places - expo d in
  let m := Z.abs (coef d) in
  let c := if 0 <? k then round_half_even m k else m * 10 ^ (- k) in
  if c <? 10 ^ max_digits
  then Some (Dec (Z.sgn (coef d) * c) (- decimal_places))
  else None.

(** ** The data model ([models.py])

    A row holds the fields of its model; the primary key is the key under
    which the table keeps it.  Fields that no stock or invoice operation
    reads (descriptions, images, the automatic [created_at] and
    [updated_at] stamps) are left out.  A decimal column keeps the
    [Decimal] that the code hands to it; how a database backend cuts a
    value to the decimal places of the column is not part of the
    application. *)

(** Primary key of a [django.contrib.auth] user. *)
Definition User : Type := Z.

(** A point in time, as [timezone.now()] returns it. *)
Record DateTime : Type := mkDateTime {
  year : Z; month : Z; day : Z; hour : Z; minute : Z; second : Z
}.

(** [t.strftime('%Y%m%d')]; the year is printed as it is (four digits
    from the year 1000 on). *)
Definition strftime_Ymd (t : DateTime) : string :=
  (py.str (year t) ++ py.format_02d (month t) ++ py.format_02d (day t))%string.

Module Product.
Record t : Type := mk {
  sku : string;
  name : string;
  quantity : Z;
  cost_price : Decimal;
  selling_price : Decimal;
  low_stock_threshold : Z;
  is_active : bool
}.

Definition set_quantity (p : t) (q : Z) : t :=
  mk (sku p) (name p) q (cost_price p) (selling_price p)
     (low_stock_threshold p) (is_active p).

Definition is_low_stock (p : t) : bool := quantity p <=? low_stock_threshold p.

Definition stock_value (p : t) : Decimal := mul (of_int (quantity p)) (cost_price p).
End Product.

Module Invoice.
Record t : Type := mk {
  invoice_number : string;
  customer : option Z;
  created_by : option User;
  date_created : DateTime;
  subtotal : Decimal;
  tax_rate : Decimal;
  tax_amount : Decimal;
  total_amount : Decimal;
  is_paid : bool;
  paid_at : option DateTime;
  notes : string
}.

Definition set_invoice_number (i : t) (n : string) : t :=
  mk n (customer i) (created_by i) (date_created i) (subtotal i) (tax_rate i)
     (tax_amount i) (total_amount i) (is_paid i) (paid_at i) (notes i).

Definition set_totals (i : t) (sub tax total : Decimal) : t :=
  mk (invoice_number i) (customer i) (created_by i) (date_created i) sub
     (tax_rate i) tax total (is_paid i) (paid_at i) (notes i).

Definition set_paid (i : t) (now : DateTime) : t :=
  mk (invoice_number i) (customer i) (created_by i) (date_created i)
     (subtotal i) (tax_rate i) (tax_amount i) (total_amount i) true (Some now)
     (notes i).

(** The row that the table keeps of an instance: the amounts go through
    columns of twelve digits and two places, the rate through one of
    five digits and two places.  [None]: a column does not take its
    value. *)
Definition kept (i : t) : option t :=
  match column 12 2 (subtotal i), column 5 2 (tax_rate i),
        column 12 2 (tax_amount i), column 12 2 (total_amount i) with
  | Some sub, Some rate, Some tax, Some total =>
      Some (mk (invoice_number i) (customer i) (created_by i) (date_created i) sub
              rate tax total (is_paid i) (paid_at i) (notes i))
  | _, _, _, _ => None
  end.
End Invoice.

Module InvoiceItem.
Record t : Type := mk {
  invoice : Z;
  product : Z;
  quantity : Z;
  unit_price : Decimal
}.

(** The property [line_total]: [self.quantity * self.unit_price]. *)
Definition line_total (it : t) : Decimal :=
  mul (of_int (quantity it)) (unit_price it).
End InvoiceItem.

Inductive TransactionType : Type := IN | OUT | ADJ.

Module StockHistory.
Record t : Type := mk {
  product : Z;
  transaction_type : TransactionType;
  quantity : Z;
  note : string;
  created_by : option User
}.

Definition set_quantity (h : t) (q : Z) : t :=
  mk (product h) (transaction_type h) q (note h) (created_by h).

(** [StockHistory.clean]: the sign of the quantity is made to agree
    with the kind of the entry.  Django calls [clean] when a form or
    [full_clean] validates the entry; [objects.create] and [save] do
    not call it. *)
Definition clean (h : t) : t :=
  match transaction_type h with
  | OUT => if 0 <? quantity h then set_quantity h (- quantity h) else h
  | IN | ADJ => if quantity h <? 0 then set_quantity h (Z.abs (quantity h)) else h
  end.
End StockHistory.

(** ** The database *)

Record DB : Type := mkDB {
  products : gmap Z Product.t;
  invoices : gmap Z Invoice.t;
  (** rows of [InvoiceItem] with their keys, in the order of insertion *)
  invoice_items : list (Z * InvoiceItem.t);
  (** rows of [StockHistory], in the order of insertion *)
  stock_history : list StockHistory.t
}.

Definition set_products (db : DB) (ps : gmap Z Product.t) : DB :=
  mkDB ps (invoices db) (invoice_items db) (stock_history db).

Definition set_invoices (db : DB) (ivs : gmap Z Invoice.t) : DB :=
  mkDB (products db) ivs (invoice_items db) (stock_history db).

Definition set_invoice_items (db : DB) (its : list (Z * InvoiceItem.t)) : DB :=
  mkDB (products db) (invoices db) its (stock_history db).

Definition set_stock_history (db : DB) (hs : list StockHistory.t) : DB :=
  mkDB (products db) (invoices db) (invoice_items db) hs.

(** ** Computations on the database that may raise *)

Inductive Exn : Type :=
| ValueError (msg : string)
| UnboundLocalError (variable : string)
| DoesNotExist (model : string)
| IntegrityError (column : string)
| InvalidOperation.

Inductive Outcome (A : Type) : Type :=
| Ok (a : A)
| Raise (e : Exn).
Arguments Ok {A} a.
Arguments Raise {A} e.

Definition M (A : Type) : Type := DB -> DB * Outcome A.

Definition ret {A} (a : A) : M A := fun db => (db, Ok a).

Definition raise {A} (e : Exn) : M A := fun db => (db, Raise e).

Definition bind {A B} (m : M A) (k : A -> M B) : M B :=
  fun db =>
    match m db with
    | (db', Ok a) => k a db'
    | (db', Raise e) => (db', Raise e)
    end.

Notation "x <- m ;; k" := (bind m (fun x => k))
  (at level 100, m at next level, right associativity).
Notation "m ;;; k" := (bind m (fun _ => k))
  (at level 100, right associativity).

Definition get_db : M DB := fun db => (db, Ok db).

Definition modify (f : DB -> DB) : M unit := fun db => (f db, Ok tt).

(** [with transaction.atomic(): m]: when [m] raises, every write it made
    is undone and the exception goes on. *)
Definition atomic {A} (m : M A) : M A :=
  fun db =>
    match m db with
    | (db', Ok a) => (db', Ok a)
    | (_, Raise e) => (db, Raise e)
    end.

(** ** Queries and writes of the object-relational mapper *)

(** [Product.objects.get(pk=k)], also the load behind [item.product]. *)
Definition get_product (k : Z) : M Product.t :=
  fun db =>
    match products db !! k with
    | Some p => (db, Ok p)
    | None => (db, Raise (DoesNotExist "Product"))
    end.

(** [product.save()] for the product kept under key [k]. *)
Definition save_product (k : Z) (p : Product.t) : M unit :=
  modify (fun db => set_products db (<[k := p]> (products db))).

(** [StockHistory.objects.create(...)]: the entry is inserted as given. *)
Definition create_stock_history (h : StockHistory.t) : M unit :=
  modify (fun db => set_stock_history db (stock_history db ++ [h])).

(** [invoice.items.all()] for the invoice kept under key [k]. *)
Definition items_of (k : Z) (db : DB) : list (Z * InvoiceItem.t) :=
  filter (fun r => InvoiceItem.invoice (snd r) = k) (invoice_items db).

(** The key an automatic primary key column gives to a new row. *)
Definition next_key (keys : list Z) : Z := 1 + fold_right Z.max 0 keys.

(** Whether a row of the invoices carries the number. *)
Definition number_taken (number : string) (db : DB) : bool :=
  existsb (fun r => String.eqb (Invoice.invoice_number (snd r)) number)
    (map_to_list (invoices db)).

(** [super().save()] of an invoice: a write under its key when the
    instance has one, an insert under a new key otherwise.  The fields
    go through their columns, and [decimal.InvalidOperation] is raised
    when a column does not take its value.  The column of the number is
    unique: the insert is refused when a row of the table carries the
    number already.  (A write under a key keeps, in every call of the
    application, the number that the row has.)  Nothing has been
    written when one of these is raised. *)
Definition super_save (pk : option Z) (self : Invoice.t) : M Z :=
  fun db =>
    match Invoice.kept self with
    | None => (db, Raise InvalidOperation)
    | Some row =>
        match pk with
        | Some k => (set_invoices db (<[k := row]> (invoices db)), Ok k)
        | None =>
            if number_taken (Invoice.invoice_number self) db
            then (db, Raise (IntegrityError "invoice_number"))
            else
              let k := next_key (fst <$> map_to_list (invoices db)) in
              (set_invoices db (<[k := row]> (invoices db)), Ok k)
        end
    end.

(** [Invoice.objects.filter(pk=k).update(subtotal=, tax_amount=,
    total_amount=)]: the three amounts go through their columns of
    twelve digits and two places, and nothing is written when one of
    them does not take its value. *)
Definition update_totals (k : Z) (sub tax total : Decimal) : M unit :=
  match column 12 2 sub, column 12 2 tax, column 12 2 total with
  | Some sub', Some tax', Some total' =>
      modify (fun db =>
        set_invoices db
          (alter (fun i => Invoice.set_totals i sub' tax' total') k (invoices db)))
  | _, _, _ => raise InvalidOperation
  end.

(** ** [Invoice] methods *)

(** [Invoice._generate_invoice_number]. *)
Definition _generate_invoice_number (now : DateTime) : M string :=
  db <- get_db ;;
  let today := strftime_Ymd now in
  let prefix := ("INV-" ++ today ++ "-")%string in
  let numbers := (fun r => Invoice.invoice_number (snd r)) <$> map_to_list (invoices db) in
  let last := py.max_of (filter (fun n => py.startswith n prefix = true) numbers) in
  match last with
  | Some (String c l) =>
      let text := py.last_of (py.split "-" (String c l)) in
      match py.int text with
      | Some n => ret (prefix ++ py.format_04d (n + 1))%string
      | None =>
          raise (ValueError ("invalid literal for int() with base 10: '" ++ text ++ "'")%string)
      end
  | _ => ret (prefix ++ py.format_04d 1)%string
  end.

(** [Invoice.save]: a number is generated when there is none, the row
    is written, the totals are computed from the rows of the items and
    written with [update].  The field [tax_rate] holds the decimal that
    [Decimal(str(self.tax_rate))] makes of it: the rate itself when it
    was loaded from its column, [Dec 150 (-1)] for the default [15.00]
    of a new instance, whose text is "15.0". *)
Definition Invoice_save (pk : option Z) (self : Invoice.t) (now : DateTime)
  : M (Z * Invoice.t) :=
  number <- (if String.eqb (Invoice.invoice_number self) ""
             then _generate_invoice_number now
             else ret (Invoice.invoice_number self)) ;;
  let self := Invoice.set_invoice_number self number in
  k <- super_save pk self ;;
  db <- get_db ;;
  let subtotal := decimal.sum ((fun r => InvoiceItem.line_total (snd r)) <$> items_of k db) in
  let tax_rate_decimal := Invoice.tax_rate self in
  let tax_amount := mul subtotal (div_100 tax_rate_decimal) in
  let total_amount := add subtotal tax_amount in
  let self := Invoice.set_totals self subtotal tax_amount total_amount in
  update_totals k subtotal tax_amount total_amount ;;;
  ret (k, self).

(** The body of the loop of [finalize_and_pay] over the items. *)
Fixpoint finalize_items (invoice_number : string) (paid_by_user : option User)
    (items : list (Z * InvoiceItem.t)) : M unit :=
  match items with
  | [] => ret tt
  | (_, item) :: rest =>
      product <- get_product (InvoiceItem.product item) ;;
      if Product.quantity product <? InvoiceItem.quantity item
      then raise (ValueError ("Insufficient stock: " ++ Product.name product)%string)
      else
        save_product (InvoiceItem.product item)
          (Product.set_quantity product
             (Product.quantity product - InvoiceItem.quantity item)) ;;;
        create_stock_history
          (StockHistory.mk (InvoiceItem.product item) OUT
             (- InvoiceItem.quantity item)
             ("Sold via " ++ invoice_number)%string paid_by_user) ;;;
        finalize_items invoice_number paid_by_user rest
  end.

(** [Invoice.finalize_and_pay] on the saved invoice with key [k]; the
    result is the instance as the method leaves it. *)
Definition finalize_and_pay (k : Z) (self : Invoice.t)
    (paid_by_user : option User) (now : DateTime) : M Invoice.t :=
  if Invoice.is_paid self then ret self
  else
    atomic (
      db <- get_db ;;
      finalize_items (Invoice.invoice_number self) paid_by_user (items_of k db) ;;;
      saved <- Invoice_save (Some k) (Invoice.set_paid self now) now ;;
      ret (snd saved)).

(** ** Views ([views.py]) *)

Inductive Method : Type := GET | POST.

(** A flash message of [django.contrib.messages]. *)
Inductive Message : Type :=
| error (text : string)
| error_exception (before : string) (e : Exn)
| success (text : string).

Inductive Response : Type :=
| redirect (to : string)
| render (template : string)
| Http404
| server_error (e : Exn).

(** What a view leaves: the database, the messages, the response. *)
Definition Reply : Type := DB * list Message * Response.

(** The form of [update_stock], the quantity already read with [int]. *)
Record StockForm : Type := mkStockForm {
  stock_method : Method;
  stock_user : User;
  action : string;
  stock_quantity : Z;
  stock_note : string
}.

(** The block of [update_stock] under [transaction.atomic()]. *)
Definition update_stock_body (product_id : Z) (product : Product.t)
    (form : StockForm) : M (list Message * Response) :=
  let qty := stock_quantity form in
  let old := Product.quantity product in
  let finish (product : Product.t) (trans_type : TransactionType) (trans_qty : Z) :=
    save_product product_id product ;;;
    (if negb (trans_qty =? 0)
     then create_stock_history
            (StockHistory.mk product_id trans_type trans_qty (stock_note form)
               (Some (stock_user form)))
     else ret tt) ;;;
    ret ([success "Stock updated!"], redirect "inventory_list") in
  if String.eqb (action form) "add" then
    finish (Product.set_quantity product (Product.quantity product + qty)) IN qty
  else if String.eqb (action form) "remove" then
    if Product.quantity product <? qty
    then ret ([error ("Only " ++ py.str (Product.quantity product) ++ " in stock")%string],
              redirect "update_stock")
    else finish (Product.set_quantity product (Product.quantity product - qty)) OUT (- qty)
  else if String.eqb (action form) "set" then
    finish (Product.set_quantity product qty) ADJ (qty - old)
  else
    save_product product_id product ;;;
    raise (UnboundLocalError "trans_qty").

(** [update_stock(request, product_id)]. *)
Definition update_stock (product_id : Z) (form : StockForm) (db : DB) : Reply :=
  match products db !! product_id with
  | None => (db, [], Http404)
  | Some product =>
      match stock_method form with
      | GET => (db, [], render "inventory/update_stock.html")
      | POST =>
          if stock_quantity form <=? 0
          then (db, [error "Quantity must be > 0"], redirect "update_stock")
          else
            match atomic (update_stock_body product_id product form) db with
            | (db', Ok (msgs, resp)) => (db', msgs, resp)
            | (db', Raise e) =>
                (db', [error_exception "Error: " e], render "inventory/update_stock.html")
            end
      end
  end.

(** The form of [view_invoice]: which buttons the request carries and
    the fields they read. *)
Record InvoiceForm : Type := mkInvoiceForm {
  invoice_method : Method;
  invoice_user : User;
  has_finalize : bool;
  has_add_item : bool;
  has_delete_item : bool;
  form_product : Z;
  form_quantity : Z;
  form_item_id : Z
}.

(** [InvoiceItem.objects.create(...)]: the column of a
    [PositiveIntegerField] refuses a negative number.  [InvoiceItem.save]
    would fill in a missing unit price with the selling price of the
    product, which is the price the view passes already. *)
Definition create_invoice_item (it : InvoiceItem.t) : M unit :=
  if InvoiceItem.quantity it <? 0 then raise (IntegrityError "quantity")
  else
    modify (fun db =>
      set_invoice_items db
        (invoice_items db ++ [(next_key (fst <$> invoice_items db), it)])).

(** [item.delete()]. *)
Definition delete_invoice_item (item_id : Z) : M unit :=
  modify (fun db =>
    set_invoice_items db (filter (fun r => fst r <> item_id) (invoice_items db))).

(** The branches of [view_invoice] on a POST, up to the final
    [invoice.save()].  [inl] is a response returned from inside a branch,
    [inr] the messages of a branch that falls through to the save.  The
    view opens no transaction: what was written before an exception
    stays written. *)
Definition view_invoice_branch (pk : Z) (invoice : Invoice.t) (form : InvoiceForm)
    (now : DateTime) : M (list Message * Response + list Message) :=
  if has_finalize form && negb (Invoice.is_paid invoice) then
    fun db =>
      match finalize_and_pay pk invoice (Some (invoice_user form)) now db with
      | (db', Ok paid) =>
          (db', Ok (inl ([success ("Invoice #" ++ Invoice.invoice_number paid ++ " paid!")%string],
                         redirect "generate_receipt")))
      | (db', Raise e) => (db', Ok (inr [error_exception "" e]))
      end
  else if has_add_item form then
    fun db =>
      match products db !! form_product form with
      | None => (db, Ok (inl ([], Http404)))
      | Some p =>
          if Product.quantity p <? form_quantity form
          then (db, Ok (inr [error ("Only " ++ py.str (Product.quantity p) ++ " in stock")%string]))
          else
            (create_invoice_item
               (InvoiceItem.mk pk (form_product form) (form_quantity form)
                  (Product.selling_price p)) ;;;
             ret (inr [success "Item added"])) db
      end
  else if has_delete_item form then
    fun db =>
      match filter (fun r => fst r = form_item_id form) (items_of pk db) with
      | [] => (db, Ok (inl ([], Http404)))
      | (item_id, item) :: _ =>
          if Invoice.is_paid invoice
          then (db, Ok (inr [error "Cannot edit paid invoice"]))
          else
            (p <- get_product (InvoiceItem.product item) ;;
             save_product (InvoiceItem.product item)
               (Product.set_quantity p (Product.quantity p + InvoiceItem.quantity item)) ;;;
             delete_invoice_item item_id ;;;
             ret (inr [success "Item removed"])) db
      end
  else ret (inr []).

(** [view_invoice(request, pk)]. *)
Definition view_invoice (pk : Z) (form : InvoiceForm) (now : DateTime) (db : DB) : Reply :=
  match invoices db !! pk with
  | None => (db, [], Http404)
  | Some invoice =>
      match invoice_method form with
      | GET => (db, [], render "invoice/view_invoice.html")
      | POST =>
          match view_invoice_branch pk invoice form now db with
          | (db1, Raise e) => (db1, [], server_error e)
          | (db1, Ok (inl (msgs, resp))) => (db1, msgs, resp)
          | (db1, Ok (inr msgs)) =>
              match Invoice_save (Some pk) invoice now db1 with
              | (db2, Ok _) => (db2, msgs, redirect "view_invoice")
              | (db2, Raise e) => (db2, msgs, server_error e)
              end
          end
      end
  end.

(** ** Sequences of operations *)

(** The stock operations of the shop, each one request to a view. *)
Inductive Op : Type :=
| AddStock (product_id n : Z) (note : string) (user : User)
| RemoveStock (product_id n : Z) (note : string) (user : User)
| SetStock (product_id n : Z) (note : string) (user : User)
| Finalize (pk : Z) (user : User) (now : DateTime)
| RemoveItem (pk item_id : Z) (user : User) (now : DateTime).

Definition db_of (r : Reply) : DB := fst (fst r).

Definition run_op (op : Op) (db : DB) : DB :=
  match op with
  | AddStock p n note u => db_of (update_stock p (mkStockForm POST u "add" n note) db)
  | RemoveStock p n note u => db_of (update_stock p (mkStockForm POST u "remove" n note) db)
  | SetStock p n note u => db_of (update_stock p (mkStockForm POST u "set" n note) db)
  | Finalize pk u now =>
      db_of (view_invoice pk (mkInvoiceForm POST u true false false 0 0 0) now db)
  | RemoveItem pk item u now =>
      db_of (view_invoice pk (mkInvoiceForm POST u false false true 0 0 item) now db)
  end.

Definition run (ops : list Op) (db : DB) : DB :=
  fold_left (fun db op => run_op op db) ops db.

(** Sum of the ledger deltas recorded for a product. *)
Fixpoint ledger_total (product_id : Z) (entries : list StockHistory.t) : Z :=
  match entries with
  | [] => 0
  | h :: rest =>
      (if StockHistory.product h =? product_id then StockHistory.quantity h else 0)
      + ledger_total product_id rest
  end.

Definition ledger_sum (product_id : Z) (db : DB) : Z :=
  ledger_total product_id (stock_history db).

(** ** A small shop, for the examples *)

Definition noon : DateTime := mkDateTime 2025 1 1 12 0 0.

Definition chlorine : Product.t :=
  Product.mk "POOL-001" "Chlorine" 10 (Dec 600 (-2)) (Dec 1000 (-2)) 5 true.

Definition skimmer : Product.t :=
  Product.mk "POOL-002" "Skimmer" 5 (Dec 300 (-2)) (Dec 500 (-2)) 5 true.

Definition draft : Invoice.t :=
  Invoice.mk "INV-20250101-0001" None (Some 1) noon (Dec 0 0) (Dec 1500 (-2))
    (Dec 0 0) (Dec 0 0) false None "".

Definition shop : DB :=
  mkDB (<[1 := chlorine]> (<[2 := skimmer]> ∅))
       (<[1 := draft]> ∅)
       [(1, InvoiceItem.mk 1 1 2 (Dec 1000 (-2))); (2, InvoiceItem.mk 1 2 1 (Dec 500 (-2)))]
       [].

(** ** Vocabulary of the statements *)

(** Total quantity that the items of a list ask of one product. *)
Fixpoint demand (product_id : Z) (items : list (Z * InvoiceItem.t)) : Z :=
  match items with
  | [] => 0
  | (_, item) :: rest =>
      (if InvoiceItem.product item =? product_id then InvoiceItem.quantity item else 0)
      + demand product_id rest
  end.

(** The ledger entry that finalising writes for one item. *)
Definition sale_entry (invoice_number : string) (user : option User)
    (r : Z * InvoiceItem.t) : StockHistory.t :=
  StockHistory.mk (InvoiceItem.product (snd r)) OUT (- InvoiceItem.quantity (snd r))
    ("Sold via " ++ invoice_number)%string user.

(** [n] is the number of an invoice of the database and starts with
    [prefix]. *)
Definition numbered (db : DB) (prefix n : string) : Prop :=
  exists k inv, invoices db !! k = Some inv
    /\ Invoice.invoice_number inv = n
    /\ py.startswith n prefix = true.




(** What a product holds beyond what the ledger accounts for: its
    quantity less the sum of its ledger deltas. *)
Definition unrecorded (product_id : Z) (db : DB) : option Z :=
  (fun p => Product.quantity p - ledger_sum product_id db) <$> products db !! product_id.

(** The product kept under [product_id], if there is one, holds a
    quantity that is not negative. *)
Definition stock_nonneg (product_id : Z) (db : DB) : Prop :=
  forall p, products db !! product_id = Some p -> 0 <= Product.quantity p.

(** The operations that the stock invariant speaks of: add, remove, set
    and finalise. *)
Definition stock_or_finalize (op : Op) : Prop :=
  match op with
  | RemoveItem _ _ _ _ => False
  | _ => True
  end.

(** ** More of the application

    The other views that write to the stock, and the parts of the
    models they use. *)

(** [InvoiceItem.save] for a new item: an item that comes without a
    unit price, or with the price zero, which Python takes for false,
    is given the selling price of its product before it is written. *)
Definition InvoiceItem_save (invoice product quantity : Z)
    (unit_price : option Decimal) : M unit :=
  price <- match unit_price with
           | Some d =>
               if coef d =? 0
               then (p <- get_product product ;; ret (Product.selling_price p))
               else ret d
           | None => p <- get_product product ;; ret (Product.selling_price p)
           end ;;
  create_invoice_item (InvoiceItem.mk invoice product quantity price).

(** Exceptions that the views below catch besides those of [Exn]. *)
Inductive Error : Type :=
| base (e : Exn)
| Http404_raised (model : string)
| MultipleObjectsReturned (model : string)
| not_a_number (field : string).

(** A flash message of these views: one of the earlier kinds, or
    [messages.error(request, f"{before}{e}")]. *)
Inductive Notice : Type :=
| notice (m : Message)
| error_raised (before : string) (e : Error).

(** The form of [add_product], numbers and prices already read; a price
    is the decimal that its column keeps of [float(...)]. *)
Record ProductForm : Type := mkProductForm {
  product_method : Method;
  product_user : User;
  form_sku : string;
  form_name : string;
  form_initial_quantity : Z;
  form_cost_price : Decimal;
  form_selling_price : Decimal;
  form_threshold : Z
}.

(** [Product.objects.filter(sku=sku).exists()]. *)
Definition sku_exists (sku : string) (db : DB) : bool :=
  existsb (fun r => String.eqb (Product.sku (snd r)) sku) (map_to_list (products db)).

(** [add_product(request)].  The column of the threshold, a
    [PositiveIntegerField], refuses a negative number; the quantity is
    an [IntegerField] and is taken as it comes. *)
Definition add_product (form : ProductForm) (db : DB) : Reply :=
  match product_method form with
  | GET => (db, [], render "inventory/add_product.html")
  | POST =>
      if sku_exists (form_sku form) db
      then (db, [error ("SKU '" ++ form_sku form ++ "' already exists.")%string],
            redirect "add_product")
      else if form_threshold form <? 0
      then (db, [error_exception "Error: " (IntegrityError "low_stock_threshold")],
            render "inventory/add_product.html")
      else
        let k := next_key (fst <$> map_to_list (products db)) in
        let product :=
          Product.mk (form_sku form) (form_name form) (form_initial_quantity form)
            (form_cost_price form) (form_selling_price form) (form_threshold form) true in
        let db1 := set_products db (<[k := product]> (products db)) in
        let db2 :=
          if Product.quantity product =? 0 then db1
          else set_stock_history db1
                 (stock_history db1 ++
                    [StockHistory.mk k IN (Product.quantity product) "Initial stock"
                       (Some (product_user form))]) in
        (db2, [success ("Product '" ++ Product.name product ++ "' added!")%string],
         redirect "inventory_list")
  end.

(** The form of [edit_product]. *)
Record EditForm : Type := mkEditForm {
  edit_method : Method;
  edit_name : string;
  edit_cost_price : Decimal;
  edit_selling_price : Decimal;
  edit_threshold : Z
}.

(** [edit_product(request, product_id)]. *)
Definition edit_product (product_id : Z) (form : EditForm) (db : DB) : Reply :=
  match products db !! product_id with
  | None => (db, [], Http404)
  | Some product =>
      match edit_method form with
      | GET => (db, [], render "inventory/edit_product.html")
      | POST =>
          if edit_threshold form <? 0
          then (db, [error_exception "Error: " (IntegrityError "low_stock_threshold")],
                render "inventory/edit_product.html")
          else
            (set_products db
               (<[product_id :=
                    Product.mk (Product.sku product) (edit_name form)
                      (Product.quantity product) (edit_cost_price form)
                      (edit_selling_price form) (edit_threshold form)
                      (Product.is_active product)]> (products db)),
             [success "Product updated!"], redirect "inventory_list")
      end
  end.

(** [delete_product(request, product_id)]: the product is switched off,
    its row stays. *)
Definition delete_product (product_id : Z) (method : Method) (db : DB) : Reply :=
  match products db !! product_id with
  | None => (db, [], Http404)
  | Some product =>
      match method with
      | GET => (db, [], render "inventory/delete_product.html")
      | POST =>
          (set_products db
             (<[product_id :=
                  Product.mk (Product.sku product) (Product.name product)
                    (Product.quantity product) (Product.cost_price product)
                    (Product.selling_price product) (Product.low_stock_threshold product)
                    false]> (products db)),
           [success ("'" ++ Product.name product ++ "' deactivated.")%string],
           redirect "inventory_list")
      end
  end.

(** The form of the quick restock of [low_stock_list]. *)
Record RestockForm : Type := mkRestockForm {
  restock_method : Method;
  restock_user : User;
  has_quick_restock : bool;
  restock_product_id : Z;
  restock_quantity : Z
}.

(** [low_stock_list(request)], the database and the messages it leaves.
    The [Http404] of a missing product is raised inside the [try] and
    ends as a message like any other exception; a quantity that is not
    positive is passed over without a word. *)
Definition low_stock_list (form : RestockForm) (db : DB) : DB * list Notice * Response :=
  match restock_method form with
  | POST =>
      if has_quick_restock form then
        match products db !! restock_product_id form with
        | None =>
            (db, [error_raised "Error: " (Http404_raised "Product")], redirect "low_stock_list")
        | Some p =>
            if 0 <? restock_quantity form then
              (mkDB (<[restock_product_id form :=
                         Product.set_quantity p (Product.quantity p + restock_quantity form)]>
                       (products db))
                    (invoices db) (invoice_items db)
                    (stock_history db ++
                       [StockHistory.mk (restock_product_id form) IN (restock_quantity form)
                          "Quick restock" (Some (restock_user form))]),
               [notice (success ("Restocked " ++ py.str (restock_quantity form) ++ " of "
                                 ++ Product.name p)%string)],
               redirect "low_stock_list")
            else (db, [], redirect "low_stock_list")
        end
      else (db, [], render "inventory/low_stock_list.html")
  | GET => (db, [], render "inventory/low_stock_list.html")
  end.

(** *** Customers and the creation of invoices *)

Module Customer.
Record t : Type := mk {
  name : string;
  email : option string;
  phone : string;
  address : string
}.
End Customer.

(** The database with the table of the customers beside it. *)
Record Site : Type := mkSite {
  site_db : DB;
  customers : gmap Z Customer.t
}.

(** The form of [add_customer] and [edit_customer]. *)
Record CustomerForm : Type := mkCustomerForm {
  customer_method : Method;
  customer_name : string;
  customer_phone : string;
  customer_email : string;
  customer_address : string
}.

(** [add_customer(request)]: a row is inserted, whatever the table
    holds already. *)
Definition add_customer (form : CustomerForm) (site : Site)
  : Site * list Notice * Response :=
  match customer_method form with
  | POST =>
      (mkSite (site_db site)
         (<[next_key (fst <$> map_to_list (customers site)) :=
              Customer.mk (customer_name form) (Some (customer_email form))
                (customer_phone form) (customer_address form)]> (customers site)),
       [notice (success "Customer added!")], redirect "customer_list")
  | GET => (site, [], render "customer/add_customer.html")
  end.

(** [edit_customer(request, pk)]. *)
Definition edit_customer (pk : Z) (form : CustomerForm) (site : Site)
  : Site * list Notice * Response :=
  match customers site !! pk with
  | None => (site, [], Http404)
  | Some _ =>
      match customer_method form with
      | POST =>
          (mkSite (site_db site)
             (<[pk := Customer.mk (customer_name form) (Some (customer_email form))
                        (customer_phone form) (customer_address form)]> (customers site)),
           [notice (success "Customer updated!")], redirect "customer_list")
      | GET => (site, [], render "customer/edit_customer.html")
      end
  end.

(** A field of a form that the code reads as a number: not sent or
    empty, a text that is no number, or a number. *)
Inductive Field : Type :=
| absent
| unreadable
| number (z : Z).

(** The form of [create_invoice]: the customer fields, the name already
    stripped, the pairs of fields [product_<i>] and [qty_<i>] in the
    order in which the loop over the keys meets them, and whether the
    action is "complete". *)
Record NewInvoiceForm : Type := mkNewInvoiceForm {
  new_method : Method;
  new_user : User;
  customer_id : Field;
  new_customer_name : string;
  new_customer_phone : string;
  lines : list (Field * Field);
  complete : bool
}.

(** The customer of the new invoice: [get_or_create] by name when a
    name is given, [get] by key when a key is given, none otherwise. *)
Definition resolve_customer (form : NewInvoiceForm) (cs : gmap Z Customer.t)
  : Error + gmap Z Customer.t * option Z :=
  if negb (String.eqb (new_customer_name form) "") then
    match filter (fun r => Customer.name (snd r) = new_customer_name form) (map_to_list cs) with
    | [] =>
        let k := next_key (fst <$> map_to_list cs) in
        inr (<[k := Customer.mk (new_customer_name form) None (new_customer_phone form) ""]> cs,
             Some k)
    | [(k, _)] => inr (cs, Some k)
    | _ => inl (MultipleObjectsReturned "Customer")
    end
  else
    match customer_id form with
    | number k =>
        match cs !! k with
        | Some _ => inr (cs, Some k)
        | None => inl (base (DoesNotExist "Customer"))
        end
    | unreadable => inl (not_a_number "customer")
    | absent => inr (cs, None)
    end.

(** The instance that [Invoice(customer=..., created_by=...)] builds
    from the defaults of the fields. *)
Definition new_invoice (customer : option Z) (user : User) (now : DateTime) : Invoice.t :=
  Invoice.mk "" customer (Some user) now (Dec 0 0) (Dec 150 (-1)) (Dec 0 0) (Dec 0 0)
    false None "".

(** [Invoice.objects.create(...)]: [save] on a new instance. *)
Definition Invoice_create (self : Invoice.t) (now : DateTime) : M (Z * Invoice.t) :=
  Invoice_save None self now.

(** [invoice.delete()]: the row goes, and with it the items that
    reference it. *)
Definition delete_invoice (pk : Z) (db : DB) : DB :=
  mkDB (products db) (delete pk (invoices db))
       (filter (fun r => InvoiceItem.invoice (snd r) <> pk) (invoice_items db))
       (stock_history db).

(** How the loop over the lines of [create_invoice] ends. *)
Inductive LinesEnd : Type :=
| lines_done (items_added : bool)
| lines_short (product : Product.t)
| lines_raise (e : Error).

(** The loop over the lines: a line without product, without quantity
    or with a quantity that is not positive is passed over; a line that
    asks more than the product holds now ends the loop. *)
Fixpoint add_lines (pk : Z) (ls : list (Field * Field)) (items_added : bool) (db : DB)
  : DB * LinesEnd :=
  match ls with
  | [] => (db, lines_done items_added)
  | (prod_id, qty) :: rest =>
      match prod_id, qty with
      | absent, _ => add_lines pk rest items_added db
      | _, absent => add_lines pk rest items_added db
      | _, unreadable => (db, lines_raise (not_a_number "qty"))
      | unreadable, number q =>
          if 0 <? q then (db, lines_raise (not_a_number "product"))
          else add_lines pk rest items_added db
      | number product_id, number q =>
          if 0 <? q then
            match products db !! product_id with
            | None => (db, lines_raise (Http404_raised "Product"))
            | Some p =>
                if Product.quantity p <? q then (db, lines_short p)
                else
                  match InvoiceItem_save pk product_id q (Some (Product.selling_price p)) db with
                  | (db', Ok _) => add_lines pk rest true db'
                  | (db', Raise e) => (db', lines_raise (base e))
                  end
            end
          else add_lines pk rest items_added db
      end
  end.

(** The block of [create_invoice] under [transaction.atomic()] once the
    customer is known: [inl] is an exception that leaves the block,
    [inr] the messages and the response it returns. *)
Definition create_invoice_body (customer : option Z) (form : NewInvoiceForm)
    (now : DateTime) (db : DB) : DB * (Error + list Notice * Response) :=
  match Invoice_create (new_invoice customer (new_user form) now) now db with
  | (db1, Raise e) => (db1, inl (base e))
  | (db1, Ok (pk, invoice)) =>
      match add_lines pk (lines form) false db1 with
      | (db2, lines_raise e) => (db2, inl e)
      | (db2, lines_short p) =>
          (db2, inr ([notice (error ("Not enough stock for " ++ Product.name p
                                     ++ ". Available: " ++ py.str (Product.quantity p))%string)],
                     redirect "create_invoice"))
      | (db2, lines_done false) =>
          (delete_invoice pk db2,
           inr ([notice (error "Please add at least one item to the invoice")],
                redirect "create_invoice"))
      | (db2, lines_done true) =>
          match Invoice_save (Some pk) invoice now db2 with
          | (db3, Raise e) => (db3, inl (base e))
          | (db3, Ok (_, saved)) =>
              if complete form then
                match finalize_and_pay pk saved (Some (new_user form)) now db3 with
                | (db4, Ok paid) =>
                    (db4, inr ([notice (success ("Invoice #" ++ Invoice.invoice_number paid
                                                 ++ " completed and paid!")%string)],
                               redirect "generate_receipt"))
                | (db4, Raise (ValueError msg)) =>
                    (db4, inr ([notice (error_exception "" (ValueError msg))],
                               redirect "view_invoice"))
                | (db4, Raise e) => (db4, inl (base e))
                end
              else
                (db3, inr ([notice (success ("Invoice #" ++ Invoice.invoice_number saved
                                             ++ " saved as draft!")%string)],
                           redirect "view_invoice"))
          end
      end
  end.

(** [create_invoice(request)]: an exception that leaves the block undoes
    all of it, the new customer included; a response returned from
    inside the block commits what was written until then. *)
Definition create_invoice (form : NewInvoiceForm) (now : DateTime) (site : Site)
  : Site * list Notice * Response :=
  match new_method form with
  | GET => (site, [], render "invoice/create_invoice.html")
  | POST =>
      match resolve_customer form (customers site) with
      | inl e =>
          (site, [error_raised "Error creating invoice: " e],
           render "invoice/create_invoice.html")
      | inr (cs, customer) =>
          match create_invoice_body customer form now (site_db site) with
          | (_, inl e) =>
              (site, [error_raised "Error creating invoice: " e],
               render "invoice/create_invoice.html")
          | (db', inr (msgs, resp)) => (mkSite db' cs, msgs, resp)
          end
      end
  end.

(** *** Requests *)

(** A request to one of the views that write. *)
Inductive Request : Type :=
| to_update_stock (product_id : Z) (form : StockForm)
| to_view_invoice (pk : Z) (form : InvoiceForm) (now : DateTime)
| to_low_stock_list (form : RestockForm)
| to_add_product (form : ProductForm)
| to_edit_product (product_id : Z) (form : EditForm)
| to_delete_product (product_id : Z) (method : Method)
| to_create_invoice (form : NewInvoiceForm) (now : DateTime)
| to_add_customer (form : CustomerForm)
| to_edit_customer (pk : Z) (form : CustomerForm).

Definition on_db (f : DB -> DB) (site : Site) : Site :=
  mkSite (f (site_db site)) (customers site).

(** The state that a request leaves. *)
Definition handle (r : Request) (site : Site) : Site :=
  match r with
  | to_update_stock p form => on_db (fun db => db_of (update_stock p form db)) site
  | to_view_invoice pk form now => on_db (fun db => db_of (view_invoice pk form now db)) site
  | to_low_stock_list form => on_db (fun db => fst (fst (low_stock_list form db))) site
  | to_add_product form => on_db (fun db => db_of (add_product form db)) site
  | to_edit_product p form => on_db (fun db => db_of (edit_product p form db)) site
  | to_delete_product p method => on_db (fun db => db_of (delete_product p method db)) site
  | to_create_invoice form now => fst (fst (create_invoice form now site))
  | to_add_customer form => fst (fst (add_customer form site))
  | to_edit_customer pk form => fst (fst (edit_customer pk form site))
  end.

Definition serve (rs : list Request) (site : Site) : Site :=
  fold_left (fun site r => handle r site) rs site.

(** Every item of the table asks a quantity that is not negative. *)
Definition items_nonneg (db : DB) : Prop :=
  forall r, r ∈ invoice_items db -> 0 <= InvoiceItem.quantity (snd r).

(** A request that is not the removal of an item from an invoice. *)
Definition keeps_items (r : Request) : Prop :=
  match r with
  | to_view_invoice _ form _ => has_delete_item form = false
  | _ => True
  end.

(** No two products share a SKU. *)
Definition sku_unique (db : DB) : Prop :=
  forall j k p q,
    products db !! j = Some p -> products db !! k = Some q ->
    Product.sku p = Product.sku q -> j = k.

(** The totals that [save] computes for the invoice under key [k]. *)
Definition with_totals (k : Z) (db : DB) (self : Invoice.t) : Invoice.t :=
  let sub := decimal.sum ((fun r => InvoiceItem.line_total (snd r)) <$> items_of k db) in
  let tax := mul sub (div_100 (Invoice.tax_rate self)) in
  Invoice.set_totals self sub tax (add sub tax).

(** The requests that never open a product with a debt: every request
    but an [add_product] with a negative initial quantity. *)
Definition opens_no_debt (r : Request) : Prop :=
  match r with
  | to_add_product form => 0 <= form_initial_quantity form
  | _ => True
  end.

(** Products and ledger of [db'] are those of [db], and no item with a
    negative quantity has come in. *)
Definition stock_same (db db' : DB) : Prop :=
  products db' = products db
  /\ stock_history db' = stock_history db
  /\ (items_nonneg db -> items_nonneg db').

(** Every entry of the ledger names a product of the table. *)
Definition ledger_known (db : DB) : Prop :=
  forall h, In h (stock_history db) -> is_Some (products db !! StockHistory.product h).

(** The books balance: the ledger names products of the table only, and
    every product holds the sum of its ledger deltas. *)
Definition balanced (db : DB) : Prop :=
  ledger_known db
  /\ forall k p, products db !! k = Some p -> Product.quantity p = ledger_sum k db.

(** What holds between the database before and after any request: the
    ledger has only grown, by entries for products of the table; every
    product is still there under its key and its SKU; SKUs that were
    unique still are; the items ask no negative quantity if they did
    not before. *)
Definition evolves (db db' : DB) : Prop :=
  (exists entries,
     stock_history db' = stock_history db ++ entries
     /\ forall h, In h entries -> is_Some (products db' !! StockHistory.product h))
  /\ (forall k p, products db !! k = Some p ->
        exists p', products db' !! k = Some p' /\ Product.sku p' = Product.sku p)
  /\ (sku_unique db -> sku_unique db')
  /\ (items_nonneg db -> items_nonneg db').

(** ** A first day of a new shop, for the examples *)

Definition opening : Site := mkSite (mkDB ∅ ∅ [] []) ∅.

Definition first_day : list Request :=
  [to_add_product
     (mkProductForm POST 7 "POOL-001" "Chlorine" 10 (Dec 600 (-2)) (Dec 1000 (-2)) 5);
   to_add_product
     (mkProductForm POST 7 "POOL-001" "Chlorine again" 4 (Dec 600 (-2)) (Dec 1000 (-2)) 5);
   to_add_product
     (mkProductForm POST 7 "POOL-002" "Skimmer" 0 (Dec 300 (-2)) (Dec 500 (-2)) 2);
   to_low_stock_list (mkRestockForm POST 7 true 2 5);
   to_create_invoice
     (mkNewInvoiceForm POST 7 absent "Ama" "024" [(number 1, number 4); (number 2, number 1)]
        true) noon;
   to_update_stock 1 (mkStockForm POST 7 "remove" 3 "damaged");
   to_update_stock 2 (mkStockForm POST 7 "set" 9 "count");
   to_edit_product 1 (mkEditForm POST "Chlorine 5kg" (Dec 650 (-2)) (Dec 1100 (-2)) 5);
   to_delete_product 2 POST].

(** A ledger entry as the view that wrote it has computed it.
    [update_stock] writes IN with the quantity of the form for "add",
    OUT with its negation for "remove", ADJ with the new quantity less
    the old one for "set".  The quick restock writes IN with the
    quantity of the form, [add_product] IN with the initial quantity as
    it came.  [view_invoice] and [create_invoice] write, through
    [finalize_and_pay], OUT with the negated quantity of an item. *)
Definition entry_as_computed (r : Request) (site : Site) (h : StockHistory.t) : Prop :=
  match r with
  | to_update_stock product_id form =>
      StockHistory.product h = product_id
      /\ match StockHistory.transaction_type h with
         | IN =>
             action form = "add"
             /\ StockHistory.quantity h = stock_quantity form
             /\ 0 < StockHistory.quantity h
         | OUT =>
             action form = "remove"
             /\ StockHistory.quantity h = - stock_quantity form
             /\ StockHistory.quantity h < 0
         | ADJ =>
             action form = "set"
             /\ (exists p, products (site_db site) !! product_id = Some p
                   /\ StockHistory.quantity h = stock_quantity form - Product.quantity p)
             /\ StockHistory.quantity h <> 0
         end
  | to_low_stock_list form =>
      StockHistory.transaction_type h = IN
      /\ StockHistory.product h = restock_product_id form
      /\ StockHistory.quantity h = restock_quantity form
      /\ 0 < StockHistory.quantity h
  | to_add_product form =>
      StockHistory.transaction_type h = IN
      /\ StockHistory.quantity h = form_initial_quantity form
      /\ StockHistory.quantity h <> 0
  | to_view_invoice _ _ _ =>
      StockHistory.transaction_type h = OUT
      /\ exists item, item ∈ invoice_items (site_db site)
           /\ StockHistory.product h = InvoiceItem.product (snd item)
           /\ StockHistory.quantity h = - InvoiceItem.quantity (snd item)
  | to_create_invoice _ _ =>
      StockHistory.transaction_type h = OUT
      /\ exists item, item ∈ invoice_items (site_db (handle r site))
           /\ StockHistory.product h = InvoiceItem.product (snd item)
           /\ StockHistory.quantity h = - InvoiceItem.quantity (snd item)
  | _ => False
  end.

(** * Properties *)

(** ** Stock operations ([update_stock]) *)

Ltac unfold_monad :=
  unfold save_product, create_stock_history, get_product in *;
  unfold atomic, bind, ret, raise, modify, get_db in *.

Lemma update_stock_rejects_nonpositive product_id product form db :
  products db !! product_id = Some product ->
  stock_method form = POST ->
  stock_quantity form <= 0 ->
  update_stock product_id form db
  = (db, [error "Quantity must be > 0"], redirect "update_stock").
Proof.
  intros Hp Hm Hq. unfold update_stock. rewrite Hp, Hm.
  destruct (Z.leb_spec (stock_quantity form) 0) as [_|Hgt]; [reflexivity | lia].
Qed.

(** C7. Removing [n] units from a product that holds [q]: for
    [0 < n <= q] the quantity becomes [q - n] and exactly one ledger
    entry, of kind OUT with delta [-n], is appended; for [n > q] the
    request is refused with the message "Only q in stock", and neither
    the product nor the ledger changes. *)
Theorem remove_stock_spec product_id product n note user db :
  products db !! product_id = Some product ->
  0 <= Product.quantity product ->
  (0 < n <= Product.quantity product ->
   update_stock product_id (mkStockForm POST user "remove" n note) db
   = (mkDB (<[product_id := Product.set_quantity product (Product.quantity product - n)]>
              (products db))
           (invoices db) (invoice_items db)
           (stock_history db ++ [StockHistory.mk product_id OUT (- n) note (Some user)]),
      [success "Stock updated!"], redirect "inventory_list"))
  /\
  (Product.quantity product < n ->
   update_stock product_id (mkStockForm POST user "remove" n note) db
   = (db, [error ("Only " ++ py.str (Product.quantity product) ++ " in stock")%string],
      redirect "update_stock")).
Proof.
  intros Hp Hq. split; intros Hn.
  - unfold update_stock. rewrite Hp. cbn [stock_method stock_quantity].
    destruct (Z.leb_spec n 0) as [?|_]; [lia|].
    unfold update_stock_body, atomic. cbn [action stock_quantity stock_note stock_user].
    cbn [String.eqb Ascii.eqb Bool.eqb].
    destruct (Z.ltb_spec (Product.quantity product) n) as [?|_]; [lia|].
    unfold_monad. cbn.
    destruct (Z.eqb_spec (- n) 0) as [?|_]; [lia|]. reflexivity.
  - unfold update_stock. rewrite Hp. cbn [stock_method stock_quantity].
    destruct (Z.leb_spec n 0) as [?|_]; [lia|].
    unfold update_stock_body, atomic. cbn [action stock_quantity stock_note stock_user].
    cbn [String.eqb Ascii.eqb Bool.eqb].
    destruct (Z.ltb_spec (Product.quantity product) n) as [_|?]; [|lia].
    reflexivity.
Qed.

(** The scenario of the specification: ten in stock, three removed, then
    a removal of twenty refused. *)
Lemma remove_stock_spec_witness :
  update_stock 1 (mkStockForm POST 7 "remove" 3 "sold") shop
  = (mkDB (<[1 := Product.set_quantity chlorine 7]> (products shop))
          (invoices shop) (invoice_items shop)
          [StockHistory.mk 1 OUT (-3) "sold" (Some 7)],
     [success "Stock updated!"], redirect "inventory_list")
  /\
  update_stock 1 (mkStockForm POST 7 "remove" 20 "sold") shop
  = (shop, [error "Only 10 in stock"], redirect "update_stock").
Proof.
  destruct (remove_stock_spec 1 chlorine 3 "sold" 7 shop) as [Hok _];
    [reflexivity | cbn; lia |].
  destruct (remove_stock_spec 1 chlorine 20 "sold" 7 shop) as [_ Hno];
    [reflexivity | cbn; lia |].
  split.
  - apply Hok. cbn. lia.
  - apply Hno. cbn. lia.
Defined.

(** C8, as the code has it. Setting the stock of a product that holds
    [q] to [n]: for [n > 0] the quantity becomes [n] and the ledger
    receives one entry of kind ADJ with delta [n - q] when that delta is
    not zero, and no entry when it is zero; for [n <= 0] the request is
    refused with "Quantity must be > 0" and nothing changes. *)
Theorem set_stock_spec product_id product n note user db :
  products db !! product_id = Some product ->
  (0 < n ->
   update_stock product_id (mkStockForm POST user "set" n note) db
   = (mkDB (<[product_id := Product.set_quantity product n]> (products db))
           (invoices db) (invoice_items db)
           (stock_history db ++
              (if n - Product.quantity product =? 0 then []
               else [StockHistory.mk product_id ADJ (n - Product.quantity product)
                       note (Some user)])),
      [success "Stock updated!"], redirect "inventory_list"))
  /\
  (n <= 0 ->
   update_stock product_id (mkStockForm POST user "set" n note) db
   = (db, [error "Quantity must be > 0"], redirect "update_stock")).
Proof.
  intros Hp. split; intros Hn.
  - unfold update_stock. rewrite Hp. cbn [stock_method stock_quantity].
    destruct (Z.leb_spec n 0) as [?|_]; [lia|].
    unfold update_stock_body, atomic. cbn [action stock_quantity stock_note stock_user].
    cbn [String.eqb Ascii.eqb Bool.eqb].
    unfold_monad. cbn.
    destruct (Z.eqb_spec (n - Product.quantity product) 0) as [_|_]; cbn.
    + rewrite app_nil_r. destruct db; reflexivity.
    + reflexivity.
  - apply (update_stock_rejects_nonpositive _ product); auto.
Qed.

Lemma set_stock_spec_witness :
  update_stock 1 (mkStockForm POST 7 "set" 4 "count") shop
  = (mkDB (<[1 := Product.set_quantity chlorine 4]> (products shop))
          (invoices shop) (invoice_items shop)
          [StockHistory.mk 1 ADJ (-6) "count" (Some 7)],
     [success "Stock updated!"], redirect "inventory_list")
  /\
  update_stock 1 (mkStockForm POST 7 "set" 10 "count") shop
  = (mkDB (<[1 := Product.set_quantity chlorine 10]> (products shop))
          (invoices shop) (invoice_items shop) [],
     [success "Stock updated!"], redirect "inventory_list").
Proof.
  split.
  - apply (proj1 (set_stock_spec 1 chlorine 4 "count" 7 shop eq_refl)). lia.
  - apply (proj1 (set_stock_spec 1 chlorine 10 "count" 7 shop eq_refl)). lia.
Defined.

(** Setting the stock to zero is refused: the product keeps its ten
    units, where the specification has the operation accepted for every
    [n >= 0] and the quantity set to [n]. *)
Lemma set_stock_zero_refused :
  let reply := update_stock 1 (mkStockForm POST 7 "set" 0 "count") shop in
  reply = (shop, [error "Quantity must be > 0"], redirect "update_stock")
  /\ Product.quantity <$> products (db_of reply) !! 1 = Some 10
  /\ Product.quantity <$> products (db_of reply) !! 1 <> Some 0.
Proof. cbv zeta. repeat split; try reflexivity. discriminate. Qed.

(** ** The sign of ledger entries ([StockHistory.clean]) *)

(** The entries that [update_stock] appends, stored as computed: kind
    IN with a positive quantity, kind OUT with a negative one, kind ADJ
    with the signed difference, which is not zero. *)
Lemma update_stock_entry_signs product_id form db :
  exists entries,
    stock_history (db_of (update_stock product_id form db)) = stock_history db ++ entries
    /\ forall h, In h entries ->
         match StockHistory.transaction_type h with
         | IN => 0 < StockHistory.quantity h
         | OUT => StockHistory.quantity h < 0
         | ADJ => StockHistory.quantity h <> 0
         end.
Proof.
  assert (Hnone : exists entries : list StockHistory.t,
            stock_history db = stock_history db ++ entries
            /\ forall h, In h entries ->
                 match StockHistory.transaction_type h with
                 | IN => 0 < StockHistory.quantity h
                 | OUT => StockHistory.quantity h < 0
                 | ADJ => StockHistory.quantity h <> 0
                 end).
  { exists []. split; [rewrite app_nil_r; reflexivity | intros h []]. }
  unfold update_stock, db_of.
  destruct (products db !! product_id) as [p|] eqn:Hp; [|exact Hnone].
  destruct (stock_method form); [exact Hnone|].
  destruct (Z.leb_spec (stock_quantity form) 0) as [|Hpos]; [exact Hnone|].
  unfold update_stock_body, atomic.
  destruct (String.eqb (action form) "add").
  { unfold_monad. cbn.
    destruct (Z.eqb_spec (stock_quantity form) 0) as [?|_]; [lia|]. cbn.
    eexists. split; [reflexivity|]. intros h [<-|[]]. cbn. lia. }
  destruct (String.eqb (action form) "remove").
  { destruct (Z.ltb_spec (Product.quantity p) (stock_quantity form)); [exact Hnone|].
    unfold_monad. cbn.
    destruct (Z.eqb_spec (- stock_quantity form) 0) as [?|_]; [lia|]. cbn.
    eexists. split; [reflexivity|]. intros h [<-|[]]. cbn. lia. }
  destruct (String.eqb (action form) "set").
  { unfold_monad. cbn.
    destruct (Z.eqb_spec (stock_quantity form - Product.quantity p) 0) as [Hz|Hnz]; cbn.
    - exact Hnone.
    - eexists. split; [reflexivity|]. intros h [<-|[]]. cbn. exact Hnz. }
  unfold_monad. cbn. exact Hnone.
Qed.

(** A ledger entry written by a stock operation does not pass through
    [clean]: lowering the stock from ten to four stores an entry of
    kind ADJ with the negative quantity [-6], which [clean] would have
    turned into [6]. *)
Lemma adjustment_stored_negative :
  let db := db_of (update_stock 1 (mkStockForm POST 7 "set" 4 "count") shop) in
  stock_history db = [StockHistory.mk 1 ADJ (-6) "count" (Some 7)]
  /\ (exists h, In h (stock_history db)
        /\ StockHistory.transaction_type h = ADJ
        /\ StockHistory.quantity h < 0)
  /\ StockHistory.quantity (StockHistory.clean (StockHistory.mk 1 ADJ (-6) "count" (Some 7))) = 6.
Proof.
  cbv zeta. split; [reflexivity|]. split; [|reflexivity].
  eexists. split; [left; reflexivity|]. split; [reflexivity|]. cbn. lia.
Qed.

(** ** Finalising an invoice ([Invoice.finalize_and_pay]) *)

(** C4. On an invoice that is already paid, [finalize_and_pay] returns
    at once: the database (products, ledger, items, invoices) and the
    instance, [paid_at] included, are what they were. *)
Theorem finalize_paid_is_noop k self user now db :
  Invoice.is_paid self = true ->
  finalize_and_pay k self user now db = (db, Ok self).
Proof. intros Hpaid. unfold finalize_and_pay. rewrite Hpaid. reflexivity. Qed.

Lemma finalize_paid_is_noop_witness :
  let paid := Invoice.set_paid draft noon in
  let db := set_invoices shop (<[1 := paid]> (invoices shop)) in
  Invoice.is_paid paid = true
  /\ finalize_and_pay 1 paid (Some 7) noon db = (db, Ok paid).
Proof.
  cbv zeta. split; [reflexivity|].
  apply (finalize_paid_is_noop 1 (Invoice.set_paid draft noon) (Some 7) noon). reflexivity.
Defined.

Lemma finalize_items_app num user pre rest db :
  finalize_items num user (pre ++ rest) db
  = match finalize_items num user pre db with
    | (db1, Ok _) => finalize_items num user rest db1
    | (db1, Raise e) => (db1, Raise e)
    end.
Proof.
  revert db. induction pre as [|[i item] pre IH]; intros db; [reflexivity|].
  cbn [app finalize_items]. unfold_monad.
  destruct (products db !! InvoiceItem.product item) as [p|]; [|reflexivity].
  destruct (Product.quantity p <? InvoiceItem.quantity item); [reflexivity|].
  apply IH.
Qed.

(** C1. A draft invoice whose loop reaches an item short of stock (the
    items before it went through, and the product of this one now holds
    less than the item asks): [finalize_and_pay] raises
    "Insufficient stock: <name of the product>" and the database is the
    one it started from, so no quantity has changed, no ledger entry of
    the earlier items remains and the invoice is still unpaid. *)
Theorem finalize_short_of_stock_rolls_back
    k self user now db pre item post db1 p :
  Invoice.is_paid self = false ->
  items_of k db = pre ++ item :: post ->
  finalize_items (Invoice.invoice_number self) user pre db = (db1, Ok tt) ->
  products db1 !! InvoiceItem.product (snd item) = Some p ->
  Product.quantity p < InvoiceItem.quantity (snd item) ->
  finalize_and_pay k self user now db
  = (db, Raise (ValueError ("Insufficient stock: " ++ Product.name p)%string)).
Proof.
  intros Hdraft Hitems Hpre Hp Hshort.
  unfold finalize_and_pay. rewrite Hdraft.
  unfold atomic, bind at 1 2, get_db. rewrite Hitems, finalize_items_app, Hpre.
  destruct item as [i item]. cbn [finalize_items snd] in *. unfold_monad.
  rewrite Hp.
  destruct (Z.ltb_spec (Product.quantity p) (InvoiceItem.quantity item)); [reflexivity|lia].
Qed.

(** Two units of chlorine, then nine skimmers with five in stock: the
    first item has been taken from the stock and written to the ledger
    when the second one stops the loop, and none of it remains. *)
Lemma finalize_short_of_stock_rolls_back_witness :
  let first := (1, InvoiceItem.mk 1 1 2 (Dec 1000 (-2))) in
  let second := (2, InvoiceItem.mk 1 2 9 (Dec 500 (-2))) in
  let db := set_invoice_items shop [first; second] in
  stock_history (fst (finalize_items "INV-20250101-0001" (Some 7) [first] db))
  = [StockHistory.mk 1 OUT (-2) "Sold via INV-20250101-0001" (Some 7)]
  /\ finalize_and_pay 1 draft (Some 7) noon db
     = (db, Raise (ValueError "Insufficient stock: Skimmer"))
  /\ stock_history db = [].
Proof.
  cbv zeta. split; [reflexivity|]. split; [|reflexivity].
  eapply (finalize_short_of_stock_rolls_back 1 draft (Some 7) noon _
            [(1, InvoiceItem.mk 1 1 2 (Dec 1000 (-2)))]
            (2, InvoiceItem.mk 1 2 9 (Dec 500 (-2))) [] _ skimmer).
  - reflexivity.
  - reflexivity.
  - reflexivity.
  - reflexivity.
  - cbn. lia.
Defined.

(** Whatever [finalize_and_pay] raises, the database is the one it
    started from. *)
Lemma finalize_raise_rolls_back k self user now db db' e :
  finalize_and_pay k self user now db = (db', Raise e) -> db' = db.
Proof.
  unfold finalize_and_pay. destruct (Invoice.is_paid self); [discriminate|].
  unfold atomic.
  match goal with |- context [match ?m db with _ => _ end] => destruct (m db) as [d [a|e']] end;
    [discriminate|].
  intros [= <- _]. reflexivity.
Qed.

(** An item that asks more than its product holds when the loop starts
    stops the loop, at this item or at an earlier one: the stock only
    goes down on the way. *)
Lemma finalize_items_short_item_raises num user items : forall db,
  (forall r, r ∈ items ->
     0 <= InvoiceItem.quantity (snd r)
     /\ is_Some (products db !! InvoiceItem.product (snd r))) ->
  (exists r p, r ∈ items
     /\ products db !! InvoiceItem.product (snd r) = Some p
     /\ Product.quantity p < InvoiceItem.quantity (snd r)) ->
  exists db' name,
    finalize_items num user items db
    = (db', Raise (ValueError ("Insufficient stock: " ++ name)%string)).
Proof.
  induction items as [|[i item] rest IH]; intros db Hitems (r & p & Hr & Hp & Hshort).
  - inversion Hr.
  - cbn [finalize_items]. unfold_monad.
    destruct (Hitems (i, item)) as [Hq [p0 Hp0]]; [left|]. cbn [snd] in Hq, Hp0.
    rewrite Hp0.
    destruct (Z.ltb_spec (Product.quantity p0) (InvoiceItem.quantity item)) as [|Hok].
    { eexists _, _. reflexivity. }
    cbn [fst snd]. apply IH.
    + intros r' Hr'. destruct (Hitems r') as [Hq' [p' Hp']]; [right; exact Hr'|].
      split; [exact Hq'|]. cbn [products set_products set_stock_history].
      destruct (decide (InvoiceItem.product item = InvoiceItem.product (snd r'))) as [E|NE].
      * rewrite E, lookup_insert_eq. eauto.
      * rewrite lookup_insert_ne by done. eauto.
    + apply elem_of_cons in Hr. destruct Hr as [->|Hr].
      { cbn [snd] in Hp, Hshort. rewrite Hp0 in Hp. injection Hp as <-. lia. }
      cbn [products set_products set_stock_history].
      destruct (decide (InvoiceItem.product item = InvoiceItem.product (snd r))) as [E|NE].
      * exists r, (Product.set_quantity p0 (Product.quantity p0 - InvoiceItem.quantity item)).
        split; [exact Hr|]. rewrite E, lookup_insert_eq. split; [reflexivity|].
        rewrite E, Hp in Hp0. injection Hp0 as <-. cbn. lia.
      * exists r, p. split; [exact Hr|]. rewrite lookup_insert_ne by done. auto.
Qed.

(** The same for the method: a draft invoice with an item that asks
    more than its product holds is refused for insufficient stock and
    nothing is written. *)
Lemma finalize_short_item_always_fails k self user now db :
  Invoice.is_paid self = false ->
  (forall r, r ∈ items_of k db ->
     0 <= InvoiceItem.quantity (snd r)
     /\ is_Some (products db !! InvoiceItem.product (snd r))) ->
  (exists r p, r ∈ items_of k db
     /\ products db !! InvoiceItem.product (snd r) = Some p
     /\ Product.quantity p < InvoiceItem.quantity (snd r)) ->
  exists name,
    finalize_and_pay k self user now db
    = (db, Raise (ValueError ("Insufficient stock: " ++ name)%string)).
Proof.
  intros Hdraft Hitems Hshort.
  destruct (finalize_items_short_item_raises (Invoice.invoice_number self) user
              (items_of k db) db Hitems Hshort) as (db' & name & Hrun).
  exists name. unfold finalize_and_pay. rewrite Hdraft.
  unfold atomic, bind at 1 2, get_db. rewrite Hrun. reflexivity.
Qed.

Lemma set_quantity_same p : Product.set_quantity p (Product.quantity p) = p.
Proof. destruct p; reflexivity. Qed.

Lemma demand_app pid xs ys : demand pid (xs ++ ys) = demand pid xs + demand pid ys.
Proof.
  induction xs as [|[i item] xs IH]; cbn [app demand]; [lia|]. rewrite IH. lia.
Qed.

Lemma demand_nonneg pid items :
  (forall r, r ∈ items -> 0 <= InvoiceItem.quantity (snd r)) ->
  0 <= demand pid items.
Proof.
  induction items as [|[i item] items IH]; intros H; cbn [demand]; [lia|].
  assert (0 <= InvoiceItem.quantity item) by (apply (H (i, item)); left).
  assert (0 <= demand pid items) by (apply IH; intros r Hr; apply H; right; exact Hr).
  destruct (InvoiceItem.product item =? pid); lia.
Qed.

(** The loop over the items goes through when every item finds, in the
    stock left by the items before it, at least what it asks. *)
Lemma finalize_items_succeeds num user items : forall db,
  (forall pre r post, items = pre ++ r :: post ->
     exists p, products db !! InvoiceItem.product (snd r) = Some p
       /\ InvoiceItem.quantity (snd r)
          <= Product.quantity p - demand (InvoiceItem.product (snd r)) pre) ->
  exists ps,
    finalize_items num user items db
    = (mkDB ps (invoices db) (invoice_items db)
         (stock_history db ++ (sale_entry num user <$> items)), Ok tt)
    /\ forall pid,
         ps !! pid
         = (fun p => Product.set_quantity p (Product.quantity p - demand pid items))
             <$> products db !! pid.
Proof.
  induction items as [|[i item] rest IH]; intros db H.
  - exists (products db). split.
    + cbn. rewrite app_nil_r. destruct db; reflexivity.
    + intros pid. cbn [demand]. destruct (products db !! pid) as [p|]; cbn; [|done].
      rewrite Z.sub_0_r, set_quantity_same. reflexivity.
  - destruct (H [] (i, item) rest eq_refl) as (p & Hp & Hq). cbn in Hp, Hq.
    cbn [finalize_items]. unfold_monad. rewrite Hp.
    destruct (Z.ltb_spec (Product.quantity p) (InvoiceItem.quantity item)); [lia|].
    cbn [fst snd].
    match goal with |- context [finalize_items _ _ _ ?d] => set (db1 := d) end.
    destruct (IH db1) as (ps & Hrun & Hps).
    { intros pre r post ->.
      destruct (H ((i, item) :: pre) r post eq_refl) as (p' & Hp' & Hq').
      cbn [demand] in Hq'. subst db1. cbn [products set_products set_stock_history].
      destruct (Z.eqb_spec (InvoiceItem.product item) (InvoiceItem.product (snd r))) as [e|ne].
      - rewrite e, lookup_insert_eq. eexists. split; [reflexivity|].
        cbn. rewrite e in Hp. assert (p' = p) by congruence. subst p'. lia.
      - rewrite lookup_insert_ne by done. exists p'. split; [done|]. lia. }
    exists ps. split.
    + rewrite Hrun. subst db1. cbn. rewrite <- app_assoc. reflexivity.
    + intros pid. rewrite Hps. subst db1. cbn [products set_products set_stock_history demand].
      destruct (Z.eqb_spec (InvoiceItem.product item) pid) as [e|ne].
      * subst pid. rewrite lookup_insert_eq, Hp. cbn. f_equal.
        unfold Product.set_quantity. cbn. f_equal. lia.
      * rewrite lookup_insert_ne by done.
        destruct (products db !! pid); cbn; [|done]. reflexivity.
Qed.

(** ** Saving an invoice ([Invoice.save]) *)

Lemma generate_keeps_db now db : fst (_generate_invoice_number now db) = db.
Proof.
  unfold _generate_invoice_number, bind, get_db.
  destruct (py.max_of _) as [[|c l]|]; try reflexivity.
  destruct (py.int _); reflexivity.
Qed.

Lemma set_invoice_number_same i :
  Invoice.set_invoice_number i (Invoice.invoice_number i) = i.
Proof. destruct i; reflexivity. Qed.

Lemma eqb_empty_false s : s <> "" -> String.eqb s "" = false.
Proof. intros H. apply String.eqb_neq. exact H. Qed.

(** What the writes of [save] have done when they return, and that
    they leave the database alone when they raise. *)
Lemma super_save_written pk self db db1 k :
  super_save pk self db = (db1, Ok k) ->
  exists row,
    Invoice.kept self = Some row
    /\ db1 = set_invoices db (<[k := row]> (invoices db))
    /\ (forall k0, pk = Some k0 -> k = k0)
    /\ (pk = None ->
        k = next_key (fst <$> map_to_list (invoices db))
        /\ number_taken (Invoice.invoice_number self) db = false).
Proof.
  unfold super_save. destruct (Invoice.kept self) as [row|]; [|discriminate].
  destruct pk as [k0|].
  - intros [= <- <-]. exists row. repeat split; [congruence | discriminate | discriminate].
  - destruct (number_taken _ db) eqn:Htaken; [discriminate|].
    intros [= <- <-]. exists row. repeat split. discriminate.
Qed.

Lemma super_save_raised pk self db db1 e :
  super_save pk self db = (db1, Raise e) -> db1 = db.
Proof.
  unfold super_save. destruct (Invoice.kept self) as [row|]; [|congruence].
  destruct pk as [k0|]; [discriminate|].
  destruct (number_taken _ db); [congruence | discriminate].
Qed.

Lemma update_totals_written k sub tax total db db1 :
  update_totals k sub tax total db = (db1, Ok tt) ->
  exists sub' tax' total',
    column 12 2 sub = Some sub'
    /\ column 12 2 tax = Some tax'
    /\ column 12 2 total = Some total'
    /\ db1 = set_invoices db
               (alter (fun i => Invoice.set_totals i sub' tax' total') k (invoices db)).
Proof.
  unfold update_totals, modify, raise.
  destruct (column 12 2 sub) as [sub'|]; [|discriminate].
  destruct (column 12 2 tax) as [tax'|]; [|discriminate].
  destruct (column 12 2 total) as [total'|]; [|discriminate].
  intros [= <-]. eauto 8.
Qed.

Lemma update_totals_raised k sub tax total db db1 e :
  update_totals k sub tax total db = (db1, Raise e) -> db1 = db.
Proof.
  unfold update_totals, modify, raise.
  destruct (column 12 2 sub) as [sub'|]; [|congruence].
  destruct (column 12 2 tax) as [tax'|]; [|congruence].
  destruct (column 12 2 total) as [total'|]; [discriminate | congruence].
Qed.

(** The row of an instance whose amounts have been set. *)
Lemma kept_set_totals i row sub tax total sub' tax' total' :
  Invoice.kept i = Some row ->
  column 12 2 sub = Some sub' ->
  column 12 2 tax = Some tax' ->
  column 12 2 total = Some total' ->
  Invoice.kept (Invoice.set_totals i sub tax total)
  = Some (Invoice.set_totals row sub' tax' total').
Proof.
  unfold Invoice.kept. cbn [Invoice.set_totals Invoice.subtotal Invoice.tax_rate
    Invoice.tax_amount Invoice.total_amount Invoice.invoice_number Invoice.customer
    Invoice.created_by Invoice.date_created Invoice.is_paid Invoice.paid_at Invoice.notes].
  intros Hrow -> -> ->.
  destruct (column 12 2 (Invoice.subtotal i)); [|discriminate].
  destruct (column 5 2 (Invoice.tax_rate i)); [|discriminate].
  destruct (column 12 2 (Invoice.tax_amount i)); [|discriminate].
  destruct (column 12 2 (Invoice.total_amount i)); [|discriminate].
  injection Hrow as <-. reflexivity.
Qed.

(** The fields of a row that no column changes. *)
Lemma kept_fields i row :
  Invoice.kept i = Some row ->
  Invoice.invoice_number row = Invoice.invoice_number i
  /\ Invoice.customer row = Invoice.customer i
  /\ Invoice.created_by row = Invoice.created_by i
  /\ Invoice.date_created row = Invoice.date_created i
  /\ Invoice.is_paid row = Invoice.is_paid i
  /\ Invoice.paid_at row = Invoice.paid_at i
  /\ Invoice.notes row = Invoice.notes i
  /\ column 12 2 (Invoice.subtotal i) = Some (Invoice.subtotal row)
  /\ column 5 2 (Invoice.tax_rate i) = Some (Invoice.tax_rate row)
  /\ column 12 2 (Invoice.tax_amount i) = Some (Invoice.tax_amount row)
  /\ column 12 2 (Invoice.total_amount i) = Some (Invoice.total_amount row).
Proof.
  unfold Invoice.kept.
  destruct (column 12 2 (Invoice.subtotal i)); [|discriminate].
  destruct (column 5 2 (Invoice.tax_rate i)); [|discriminate].
  destruct (column 12 2 (Invoice.tax_amount i)); [|discriminate].
  destruct (column 12 2 (Invoice.total_amount i)); [|discriminate].
  intros [= <-]. repeat split.
Qed.

(** The number comes from the generator, which leaves the database
    alone, or is the one the instance has. *)
Lemma Invoice_save_number self now db db0 number :
  (if String.eqb (Invoice.invoice_number self) ""
   then _generate_invoice_number now
   else ret (Invoice.invoice_number self)) db = (db0, Ok number) ->
  db0 = db
  /\ number <> ""
  /\ (Invoice.invoice_number self <> "" -> number = Invoice.invoice_number self).
Proof.
  destruct (String.eqb_spec (Invoice.invoice_number self) "") as [He|He]; intros Hnum.
  - split; [|split].
    + rewrite <- (generate_keeps_db now db), Hnum. reflexivity.
    + revert Hnum. unfold _generate_invoice_number, bind, get_db.
      destruct (py.max_of _) as [[|c l]|].
      * unfold ret. intros [= _ <-]. discriminate.
      * destruct (py.int _); unfold ret, raise; [|discriminate].
        intros [= _ <-]. discriminate.
      * unfold ret. intros [= _ <-]. discriminate.
    + congruence.
  - unfold ret in Hnum. injection Hnum as <- <-. auto.
Qed.

(** What [save] returns, and the database it leaves, when it returns:
    the instance carries the totals as they were computed, the row what
    its columns keep of them. *)
Lemma Invoice_save_result pk self now db db' k self' :
  Invoice_save pk self now db = (db', Ok (k, self')) ->
  let sub := decimal.sum ((fun r => InvoiceItem.line_total (snd r)) <$> items_of k db) in
  let tax := mul sub (div_100 (Invoice.tax_rate self)) in
  Invoice.subtotal self' = sub
  /\ Invoice.tax_amount self' = tax
  /\ Invoice.total_amount self' = add sub tax
  /\ Invoice.tax_rate self' = Invoice.tax_rate self
  /\ Invoice.is_paid self' = Invoice.is_paid self
  /\ Invoice.paid_at self' = Invoice.paid_at self
  /\ (exists row, Invoice.kept self' = Some row /\ invoices db' !! k = Some row)
  /\ (forall j, j <> k -> invoices db' !! j = invoices db !! j)
  /\ products db' = products db
  /\ invoice_items db' = invoice_items db
  /\ stock_history db' = stock_history db
  /\ (Invoice.invoice_number self <> "" ->
      Invoice.invoice_number self' = Invoice.invoice_number self)
  /\ (forall k0, pk = Some k0 -> k = k0)
  /\ Invoice.invoice_number self' <> ""
  /\ (pk = None ->
      k = next_key (fst <$> map_to_list (invoices db))
      /\ number_taken (Invoice.invoice_number self') db = false)
  /\ is_Some (Invoice.kept self).
Proof.
  unfold Invoice_save. unfold bind at 1.
  destruct (if String.eqb (Invoice.invoice_number self) "" then _ else _)
    as [db0 [number|e]] eqn:Hnum; [|discriminate].
  destruct (Invoice_save_number _ _ _ _ _ Hnum) as (-> & Hne & Hsame).
  unfold bind at 1.
  destruct (super_save pk (Invoice.set_invoice_number self number) db)
    as [db1 [k1|e]] eqn:Hwrite; [|discriminate].
  destruct (super_save_written _ _ _ _ _ Hwrite) as (row & Hrow & -> & Hpk & Hnew).
  unfold bind at 1. unfold get_db. unfold bind at 1.
  cbn [items_of invoice_items set_invoices].
  fold (items_of k1 db).
  destruct (update_totals k1 _ _ _ _) as [db2 [[]|e]] eqn:Hupdate; [|discriminate].
  destruct (update_totals_written _ _ _ _ _ _ Hupdate)
    as (sub' & tax' & total' & Hsub & Htax & Htotal & ->).
  unfold ret. intros Heq. injection Heq as Hdb' Hk Hself'. subst k1 db' self'.
  cbn [Invoice.set_totals Invoice.set_invoice_number Invoice.subtotal Invoice.tax_rate
       Invoice.tax_amount Invoice.total_amount Invoice.is_paid Invoice.paid_at
       Invoice.invoice_number invoices set_invoices products invoice_items stock_history].
  repeat split; try reflexivity.
  - exists (Invoice.set_totals row sub' tax' total'). split.
    + apply (kept_set_totals _ _ _ _ _ _ _ _ Hrow Hsub Htax Htotal).
    + rewrite alter_insert_eq, lookup_insert_eq. reflexivity.
  - intros j Hj. rewrite alter_insert_eq, lookup_insert_ne by done. reflexivity.
  - exact Hsame.
  - exact Hpk.
  - exact Hne.
  - apply Hnew. assumption.
  - apply Hnew. assumption.
  - destruct (kept_fields _ _ Hrow) as (_ & _ & _ & _ & _ & _ & _ & H1 & H2 & H3 & H4).
    cbn [Invoice.set_invoice_number Invoice.subtotal Invoice.tax_rate Invoice.tax_amount
         Invoice.total_amount] in H1, H2, H3, H4.
    unfold Invoice.kept. rewrite H1, H2, H3, H4. eauto.
Qed.

(** The instance with the totals that [save] computes for it. *)
Lemma with_totals_fields k db self :
  Invoice.invoice_number (with_totals k db self) = Invoice.invoice_number self
  /\ Invoice.tax_rate (with_totals k db self) = Invoice.tax_rate self
  /\ Invoice.is_paid (with_totals k db self) = Invoice.is_paid self
  /\ Invoice.paid_at (with_totals k db self) = Invoice.paid_at self.
Proof. repeat split. Qed.

(** An invoice that has its number, whose amounts and whose totals go
    into their columns, is saved without raising. *)
Lemma Invoice_save_explicit k self now db :
  Invoice.invoice_number self <> "" ->
  is_Some (Invoice.kept self) ->
  is_Some (Invoice.kept (with_totals k db self)) ->
  exists row,
    Invoice.kept (with_totals k db self) = Some row
    /\ Invoice_save (Some k) self now db
       = (set_invoices db (<[k := row]> (invoices db)), Ok (k, with_totals k db self)).
Proof.
  intros Hne [row0 Hrow0] [row Hrow]. exists row. split; [exact Hrow|].
  destruct (kept_fields _ _ Hrow) as (_ & _ & _ & _ & _ & _ & _ & Hsub & _ & Htax & Htotal).
  unfold with_totals in Hsub, Htax, Htotal.
  cbn [Invoice.set_totals Invoice.subtotal Invoice.tax_amount Invoice.total_amount]
    in Hsub, Htax, Htotal.
  unfold Invoice_save. rewrite (eqb_empty_false _ Hne).
  unfold bind at 1. unfold ret at 1. rewrite set_invoice_number_same.
  unfold bind at 1. unfold super_save. rewrite Hrow0.
  unfold bind at 1. unfold get_db. unfold bind at 1.
  change (items_of k (set_invoices db (<[k:=row0]> (invoices db)))) with (items_of k db).
  unfold update_totals. rewrite Hsub, Htax, Htotal. unfold modify, ret.
  cbn [set_invoices invoices products invoice_items stock_history].
  rewrite alter_insert_eq.
  pose proof (kept_set_totals _ _ _ _ _ _ _ _ Hrow0 Hsub Htax Htotal) as Hrow'.
  fold (with_totals k db self) in Hrow'.
  assert (row = Invoice.set_totals row0 (Invoice.subtotal row) (Invoice.tax_amount row)
                  (Invoice.total_amount row)) as <- by congruence.
  reflexivity.
Qed.

Lemma Invoice_save_numbered k self now db :
  Invoice.invoice_number self <> "" ->
  is_Some (Invoice.kept self) ->
  is_Some (Invoice.kept (with_totals k db self)) ->
  exists db' self', Invoice_save (Some k) self now db = (db', Ok (k, self')).
Proof.
  intros Hne Hself Htotals.
  destruct (Invoice_save_explicit k self now db Hne Hself Htotals) as (row & _ & Hsave).
  eauto.
Qed.

(** The stock asked of each product is covered in total, so every item
    finds enough in what the items before it have left. *)
Lemma covered_in_sequence db items :
  (forall r, r ∈ items ->
     0 <= InvoiceItem.quantity (snd r)
     /\ is_Some (products db !! InvoiceItem.product (snd r))) ->
  (forall pid p, products db !! pid = Some p -> demand pid items <= Product.quantity p) ->
  forall pre r post, items = pre ++ r :: post ->
    exists p, products db !! InvoiceItem.product (snd r) = Some p
      /\ InvoiceItem.quantity (snd r)
         <= Product.quantity p - demand (InvoiceItem.product (snd r)) pre.
Proof.
  intros Hitems Hcover pre r post ->.
  destruct (Hitems r) as [Hq [p Hp]].
  { apply elem_of_app. right. left. }
  exists p. split; [exact Hp|].
  specialize (Hcover _ _ Hp). rewrite demand_app in Hcover.
  destruct r as [i item]. cbn [demand snd] in *. rewrite Z.eqb_refl in Hcover.
  assert (0 <= demand (InvoiceItem.product item) post).
  { apply demand_nonneg. intros r Hr. apply Hitems.
    apply elem_of_app. right. right. exact Hr. }
  lia.
Qed.

Lemma kept_set_paid i row now :
  Invoice.kept i = Some row ->
  Invoice.kept (Invoice.set_paid i now) = Some (Invoice.set_paid row now).
Proof.
  unfold Invoice.kept. cbn [Invoice.set_paid Invoice.subtotal Invoice.tax_rate
    Invoice.tax_amount Invoice.total_amount Invoice.invoice_number Invoice.customer
    Invoice.created_by Invoice.date_created Invoice.is_paid Invoice.paid_at Invoice.notes].
  destruct (column 12 2 (Invoice.subtotal i)); [|discriminate].
  destruct (column 5 2 (Invoice.tax_rate i)); [|discriminate].
  destruct (column 12 2 (Invoice.tax_amount i)); [|discriminate].
  destruct (column 12 2 (Invoice.total_amount i)); [|discriminate].
  intros [= <-]. reflexivity.
Qed.

(** C2, as the code has it. A draft invoice with its number, whose
    items reference existing products and ask of every product, all
    items together, no more than it holds, and whose amounts, those it
    carries and the totals of its items, go into their columns:
    [finalize_and_pay] succeeds; every product has lost exactly what the
    items of the invoice ask of it; the ledger has received, in the
    order of the items, one entry of kind OUT per item with the negated
    item quantity, the note "Sold via <invoice number>" and the acting
    user; the invoice is stored paid, with the time of the call. *)
Theorem finalize_and_pay_succeeds k self user now db :
  Invoice.is_paid self = false ->
  Invoice.invoice_number self <> "" ->
  (forall r, r ∈ items_of k db ->
     0 <= InvoiceItem.quantity (snd r)
     /\ is_Some (products db !! InvoiceItem.product (snd r))) ->
  (forall pid p, products db !! pid = Some p ->
     demand pid (items_of k db) <= Product.quantity p) ->
  is_Some (Invoice.kept self) ->
  is_Some (Invoice.kept (with_totals k db self)) ->
  exists db' self',
    finalize_and_pay k self user now db = (db', Ok self')
    /\ (forall pid,
          products db' !! pid
          = (fun p => Product.set_quantity p
                        (Product.quantity p - demand pid (items_of k db)))
              <$> products db !! pid)
    /\ stock_history db'
       = stock_history db
         ++ (sale_entry (Invoice.invoice_number self) user <$> items_of k db)
    /\ invoice_items db' = invoice_items db
    /\ Invoice.is_paid self' = true
    /\ Invoice.paid_at self' = Some now
    /\ Invoice.invoice_number self' = Invoice.invoice_number self
    /\ (exists row,
          Invoice.kept self' = Some row
          /\ invoices db' !! k = Some row
          /\ Invoice.is_paid row = true
          /\ Invoice.paid_at row = Some now)
    /\ (forall j, j <> k -> invoices db' !! j = invoices db !! j).
Proof.
  intros Hdraft Hnum Hitems Hcover [row0 Hrow0] Htotals.
  destruct (finalize_items_succeeds (Invoice.invoice_number self) user (items_of k db) db
              (covered_in_sequence db _ Hitems Hcover)) as (ps & Hrun & Hps).
  set (db1 := mkDB ps (invoices db) (invoice_items db)
                (stock_history db
                 ++ (sale_entry (Invoice.invoice_number self) user <$> items_of k db))) in *.
  assert (Hpaid_totals : is_Some (Invoice.kept (with_totals k db1 (Invoice.set_paid self now)))).
  { destruct Htotals as [row1 Hrow1].
    exists (Invoice.set_paid row1 now).
    apply (kept_set_paid _ _ now) in Hrow1. exact Hrow1. }
  destruct (Invoice_save_numbered k (Invoice.set_paid self now) now db1 Hnum
              (ex_intro _ _ (kept_set_paid _ _ now Hrow0)) Hpaid_totals)
    as (db' & self' & Hsave).
  pose proof (Invoice_save_result _ _ _ _ _ _ _ Hsave) as Hres. cbv zeta in Hres.
  destruct Hres
    as (_ & _ & _ & _ & Hpaid & Hat & (row & Hkept & Hrow) & Hothers & Hprod & Hits & Hled
        & Hnumber & _).
  exists db', self'. split.
  - unfold finalize_and_pay. rewrite Hdraft.
    unfold atomic, bind at 1 2, get_db. rewrite Hrun.
    unfold bind, ret. rewrite Hsave. reflexivity.
  - destruct (kept_fields _ _ Hkept) as (_ & _ & _ & _ & Hrow_paid & Hrow_at & _).
    rewrite Hprod, Hled, Hits. repeat split; auto.
    exists row. repeat split; [exact Hkept | exact Hrow | |].
    + rewrite Hrow_paid, Hpaid. reflexivity.
    + rewrite Hrow_at, Hat. reflexivity.
Qed.

Lemma finalize_and_pay_succeeds_witness :
  exists db' self',
    finalize_and_pay 1 draft (Some 7) noon shop = (db', Ok self')
    /\ Product.quantity <$> products db' !! 1 = Some 8
    /\ Product.quantity <$> products db' !! 2 = Some 4
    /\ stock_history db'
       = [StockHistory.mk 1 OUT (-2) "Sold via INV-20250101-0001" (Some 7);
          StockHistory.mk 2 OUT (-1) "Sold via INV-20250101-0001" (Some 7)]
    /\ Invoice.is_paid self' = true
    /\ Invoice.paid_at self' = Some noon
    /\ (exists row,
          invoices db' !! 1 = Some row
          /\ Invoice.is_paid row = true
          /\ Invoice.paid_at row = Some noon).
Proof.
  destruct (finalize_and_pay_succeeds 1 draft (Some 7) noon shop)
    as (db' & self' & Hrun & Hps & Hled & _ & Hpaid & Hat & _
        & (row & _ & Hrow & Hrow_paid & Hrow_at) & _).
  - reflexivity.
  - discriminate.
  - intros r Hr. vm_compute in Hr.
    apply list_elem_of_In in Hr. destruct Hr as [<-|[<-|[]]]; (split; [cbn; lia | eexists; reflexivity]).
  - intros pid p Hp. change (items_of 1 shop) with
      [(1, InvoiceItem.mk 1 1 2 (Dec 1000 (-2))); (2, InvoiceItem.mk 1 2 1 (Dec 500 (-2)))].
    cbn [demand InvoiceItem.product InvoiceItem.quantity].
    unfold shop in Hp. cbn [products] in Hp.
    destruct (decide (pid = 1)) as [->|H1]; [|destruct (decide (pid = 2)) as [->|H2]].
    + rewrite lookup_insert_eq in Hp. injection Hp as <-. cbn. lia.
    + rewrite lookup_insert_ne, lookup_insert_eq in Hp by done.
      injection Hp as <-. cbn. lia.
    + rewrite !lookup_insert_ne, lookup_empty in Hp by done. discriminate.
  - eexists. reflexivity.
  - eexists. reflexivity.
  - exists db', self'. rewrite !Hps, Hled. repeat split; eauto.
Defined.

(** Two items of three skimmers each, five skimmers in stock: each item
    asks no more than the product holds, as the specification asks, yet
    [finalize_and_pay] raises and leaves the stock as it was. *)
Lemma finalize_same_product_twice_fails :
  let db := set_invoice_items shop
              [(1, InvoiceItem.mk 1 2 3 (Dec 500 (-2)));
               (2, InvoiceItem.mk 1 2 3 (Dec 500 (-2)))] in
  Invoice.is_paid draft = false
  /\ (forall r, r ∈ items_of 1 db ->
        exists p, products db !! InvoiceItem.product (snd r) = Some p
          /\ InvoiceItem.quantity (snd r) <= Product.quantity p)
  /\ finalize_and_pay 1 draft (Some 7) noon db
     = (db, Raise (ValueError "Insufficient stock: Skimmer"))
  /\ ~ (exists db' self', finalize_and_pay 1 draft (Some 7) noon db = (db', Ok self')).
Proof.
  cbv zeta. split; [reflexivity|]. split; [|split].
  - intros r Hr. vm_compute in Hr. apply list_elem_of_In in Hr.
    destruct Hr as [<-|[<-|[]]]; (exists skimmer; split; [reflexivity | cbn; lia]).
  - reflexivity.
  - intros (db' & self' & H). vm_compute in H. discriminate H.
Qed.

(** Two hundred units at 99999999.99 with five hundred in stock: the
    stock covers the item, but its total has more than the twelve digits
    of the columns of the amounts, so the [save] at the end of
    [finalize_and_pay] raises, and the transaction leaves the stock, the
    ledger and the invoice as they were. *)
Lemma finalize_beyond_the_columns_fails :
  let db := mkDB (<[1 := Product.set_quantity chlorine 500]> ∅) (invoices shop)
              [(1, InvoiceItem.mk 1 1 200 (Dec 9999999999 (-2)))] [] in
  Invoice.is_paid draft = false
  /\ (forall r, r ∈ items_of 1 db ->
        exists p, products db !! InvoiceItem.product (snd r) = Some p
          /\ InvoiceItem.quantity (snd r) <= Product.quantity p)
  /\ column 10 2 (Dec 9999999999 (-2)) = Some (Dec 9999999999 (-2))
  /\ Invoice.kept (with_totals 1 db draft) = None
  /\ finalize_and_pay 1 draft (Some 7) noon db = (db, Raise InvalidOperation).
Proof.
  cbv zeta. split; [reflexivity|]. split; [|split; [|split]].
  - intros r Hr. vm_compute in Hr. apply list_elem_of_In in Hr.
    destruct Hr as [<-|[]]. eexists. split; [reflexivity | cbn; lia].
  - reflexivity.
  - vm_compute. reflexivity.
  - vm_compute. reflexivity.
Qed.

(** ** Parts of the database that an operation leaves alone *)

Lemma Invoice_save_writes_invoices pk self now db :
  exists ivs, fst (Invoice_save pk self now db) = set_invoices db ivs.
Proof.
  assert (Hsame : exists ivs, db = set_invoices db ivs)
    by (exists (invoices db); destruct db; reflexivity).
  unfold Invoice_save. unfold bind at 1.
  destruct (if String.eqb (Invoice.invoice_number self) "" then _ else _)
    as [db0 [number|e]] eqn:Hnum.
  - destruct (Invoice_save_number _ _ _ _ _ Hnum) as (-> & _ & _).
    unfold bind at 1.
    destruct (super_save pk (Invoice.set_invoice_number self number) db)
      as [db1 [k1|e]] eqn:Hwrite.
    + destruct (super_save_written _ _ _ _ _ Hwrite) as (row & _ & -> & _).
      unfold bind at 1. unfold get_db. unfold bind at 1.
      destruct (update_totals k1 _ _ _ _) as [db2 [[]|e]] eqn:Hupdate.
      * destruct (update_totals_written _ _ _ _ _ _ Hupdate) as (? & ? & ? & _ & _ & _ & ->).
        cbn. eexists. reflexivity.
      * apply update_totals_raised in Hupdate as ->. cbn. eexists. reflexivity.
    + apply super_save_raised in Hwrite as ->. exact Hsame.
  - assert (db0 = db) as ->.
    { destruct (String.eqb (Invoice.invoice_number self) "").
      - rewrite <- (generate_keeps_db now db), Hnum. reflexivity.
      - unfold ret in Hnum. congruence. }
    exact Hsame.
Qed.

Lemma Invoice_save_keeps_stock pk self now db :
  products (fst (Invoice_save pk self now db)) = products db
  /\ stock_history (fst (Invoice_save pk self now db)) = stock_history db.
Proof.
  destruct (Invoice_save_writes_invoices pk self now db) as [ivs ->]. split; reflexivity.
Qed.

(** ** The stock never goes below zero *)

Lemma stock_nonneg_same pid db db' :
  products db' = products db -> stock_nonneg pid db -> stock_nonneg pid db'.
Proof. unfold stock_nonneg. intros ->. auto. Qed.

Lemma stock_nonneg_write pid db db' k p :
  products db' = <[k := p]> (products db) ->
  (k = pid -> 0 <= Product.quantity p) ->
  stock_nonneg pid db -> stock_nonneg pid db'.
Proof.
  unfold stock_nonneg. intros -> Hp H x Hx.
  destruct (decide (k = pid)) as [->|Hne].
  - rewrite lookup_insert_eq in Hx. injection Hx as <-. auto.
  - rewrite lookup_insert_ne in Hx by done. auto.
Qed.

Lemma update_stock_nonneg pid product_id form db :
  stock_nonneg pid db -> stock_nonneg pid (db_of (update_stock product_id form db)).
Proof.
  intros Hdb. unfold update_stock, db_of.
  destruct (products db !! product_id) as [p|] eqn:Hp; [|exact Hdb].
  destruct (stock_method form); [exact Hdb|].
  destruct (Z.leb_spec (stock_quantity form) 0) as [|Hpos]; [exact Hdb|].
  assert (Hq : product_id = pid -> 0 <= Product.quantity p)
    by (intros ->; exact (Hdb _ Hp)).
  unfold update_stock_body, atomic.
  destruct (String.eqb (action form) "add").
  { unfold_monad. cbn.
    destruct (stock_quantity form =? 0); cbn;
      (eapply stock_nonneg_write; [reflexivity | cbn; intros E; specialize (Hq E); lia | exact Hdb]). }
  destruct (String.eqb (action form) "remove").
  { destruct (Z.ltb_spec (Product.quantity p) (stock_quantity form)); [exact Hdb|].
    unfold_monad. cbn.
    destruct (- stock_quantity form =? 0); cbn;
      (eapply stock_nonneg_write; [reflexivity | cbn; lia | exact Hdb]). }
  destruct (String.eqb (action form) "set").
  { unfold_monad. cbn.
    destruct (stock_quantity form - Product.quantity p =? 0); cbn;
      (eapply stock_nonneg_write; [reflexivity | cbn; lia | exact Hdb]). }
  unfold_monad. cbn. exact Hdb.
Qed.

Lemma finalize_items_nonneg pid num user items : forall db,
  stock_nonneg pid db -> stock_nonneg pid (fst (finalize_items num user items db)).
Proof.
  induction items as [|[i item] rest IH]; intros db Hdb; [exact Hdb|].
  cbn [finalize_items]. unfold_monad.
  destruct (products db !! InvoiceItem.product item) as [p|] eqn:Hp; [|exact Hdb].
  destruct (Z.ltb_spec (Product.quantity p) (InvoiceItem.quantity item)); [exact Hdb|].
  cbn [fst snd]. apply IH.
  eapply stock_nonneg_write; [reflexivity | cbn; lia | exact Hdb].
Qed.

Lemma finalize_and_pay_nonneg pid k self user now db :
  stock_nonneg pid db -> stock_nonneg pid (fst (finalize_and_pay k self user now db)).
Proof.
  intros Hdb. unfold finalize_and_pay.
  destruct (Invoice.is_paid self); [exact Hdb|].
  unfold atomic, bind at 1 2, get_db.
  pose proof (finalize_items_nonneg pid (Invoice.invoice_number self) user (items_of k db) db Hdb)
    as Hloop.
  destruct (finalize_items _ _ _ db) as [db1 [[]|e]]; [|exact Hdb].
  cbn [fst] in Hloop. unfold bind, ret.
  pose proof (Invoice_save_keeps_stock (Some k) (Invoice.set_paid self now) now db1) as [Hs _].
  destruct (Invoice_save _ _ _ db1) as [db2 [saved|e]]; cbn [fst] in *; [|exact Hdb].
  eapply stock_nonneg_same; eauto.
Qed.

Lemma finalize_request_nonneg pid pk user now db :
  stock_nonneg pid db -> stock_nonneg pid (run_op (Finalize pk user now) db).
Proof.
  intros Hdb. unfold run_op, view_invoice, db_of.
  destruct (invoices db !! pk) as [invoice|]; [|exact Hdb].
  cbn [invoice_method]. unfold view_invoice_branch. cbn [has_finalize has_add_item has_delete_item].
  destruct (Invoice.is_paid invoice) eqn:Hpaid; cbn [negb andb].
  - unfold ret.
    pose proof (Invoice_save_keeps_stock (Some pk) invoice now db) as [Hs _].
    destruct (Invoice_save _ _ _ db) as [db2 [saved|e]]; cbn [fst] in *;
      (eapply stock_nonneg_same; eauto).
  - pose proof (finalize_and_pay_nonneg pid pk invoice (Some user) now db Hdb) as Hfin.
    cbn [invoice_user].
    destruct (finalize_and_pay _ _ _ _ db) as [db1 [paid|e]]; cbn [fst] in *; [exact Hfin|].
    pose proof (Invoice_save_keeps_stock (Some pk) invoice now db1) as [Hs _].
    destruct (Invoice_save _ _ _ db1) as [db2 [saved|e']]; cbn [fst] in *;
      (eapply stock_nonneg_same; eauto).
Qed.

Lemma run_op_nonneg pid op db :
  stock_or_finalize op -> stock_nonneg pid db -> stock_nonneg pid (run_op op db).
Proof.
  destruct op; intros Hop Hdb; try (apply update_stock_nonneg; exact Hdb).
  - apply finalize_request_nonneg. exact Hdb.
  - destruct Hop.
Qed.

(** C5. A product that holds a quantity that is not negative still
    does after any sequence of add, remove, set and finalise
    operations, on this product or on any other: each operation keeps
    the quantity at zero or above, or is refused and changes nothing. *)
Theorem stock_never_negative pid ops : forall db,
  Forall stock_or_finalize ops ->
  stock_nonneg pid db ->
  stock_nonneg pid (run ops db).
Proof.
  induction ops as [|op ops IH]; intros db Hops Hdb; [exact Hdb|].
  inversion Hops as [|? ? Hop Hrest]; subst.
  cbn [run fold_left]. apply IH; [exact Hrest|].
  apply run_op_nonneg; assumption.
Qed.

Lemma stock_never_negative_witness :
  let ops := [RemoveStock 1 20 "" 7; SetStock 2 3 "" 7; Finalize 1 7 noon;
              AddStock 1 5 "" 7; RemoveStock 1 13 "" 7; RemoveStock 2 3 "" 7] in
  Forall stock_or_finalize ops
  /\ stock_nonneg 1 shop
  /\ stock_nonneg 1 (run ops shop)
  /\ Product.quantity <$> products (run ops shop) !! 1 = Some 0
  /\ Product.quantity <$> products (run ops shop) !! 2 = Some 2.
Proof.
  cbv zeta.
  assert (Hops : Forall stock_or_finalize
            [RemoveStock 1 20 "" 7; SetStock 2 3 "" 7; Finalize 1 7 noon;
             AddStock 1 5 "" 7; RemoveStock 1 13 "" 7; RemoveStock 2 3 "" 7])
    by (repeat constructor).
  assert (Hshop : stock_nonneg 1 shop).
  { intros p Hp. vm_compute in Hp. injection Hp as <-. cbn. lia. }
  split; [exact Hops|]. split; [exact Hshop|]. split.
  - exact (stock_never_negative 1 _ shop Hops Hshop).
  - split; vm_compute; reflexivity.
Defined.

(** ** The ledger and the stock *)

Lemma ledger_total_app pid xs ys :
  ledger_total pid (xs ++ ys) = ledger_total pid xs + ledger_total pid ys.
Proof. induction xs as [|h xs IH]; cbn [app ledger_total]; [lia|]. rewrite IH. lia. Qed.

(** A write of a product together with the ledger entries of its delta
    leaves [unrecorded] as it was. *)
Lemma unrecorded_write pid db db' k p q' entries :
  products db !! k = Some p ->
  products db' = <[k := Product.set_quantity p q']> (products db) ->
  stock_history db' = stock_history db ++ entries ->
  ledger_total k entries = q' - Product.quantity p ->
  (forall j, j <> k -> ledger_total j entries = 0) ->
  unrecorded pid db' = unrecorded pid db.
Proof.
  intros Hp Hps Hhs Hk Hother. unfold unrecorded, ledger_sum.
  rewrite Hps, Hhs, ledger_total_app.
  destruct (decide (k = pid)) as [->|Hne].
  - rewrite lookup_insert_eq, Hp. cbn. f_equal. lia.
  - rewrite lookup_insert_ne by done. rewrite (Hother pid) by congruence.
    destruct (products db !! pid); cbn; [|done]. f_equal. lia.
Qed.

Lemma unrecorded_same pid db db' :
  products db' = products db -> stock_history db' = stock_history db ->
  unrecorded pid db' = unrecorded pid db.
Proof. unfold unrecorded, ledger_sum. intros -> ->. reflexivity. Qed.

Lemma update_stock_reconciles pid product_id form db :
  unrecorded pid (db_of (update_stock product_id form db)) = unrecorded pid db.
Proof.
  unfold update_stock, db_of.
  destruct (products db !! product_id) as [p|] eqn:Hp; [|reflexivity].
  destruct (stock_method form); [reflexivity|].
  destruct (Z.leb_spec (stock_quantity form) 0) as [|Hpos]; [reflexivity|].
  unfold update_stock_body, atomic.
  destruct (String.eqb (action form) "add").
  { unfold_monad. cbn.
    destruct (Z.eqb_spec (stock_quantity form) 0) as [?|_]; [lia|]. cbn.
    eapply unrecorded_write; [exact Hp | reflexivity | reflexivity | |].
    - cbn. rewrite Z.eqb_refl. lia.
    - intros j Hj. cbn. destruct (Z.eqb_spec product_id j); [congruence|lia]. }
  destruct (String.eqb (action form) "remove").
  { destruct (Z.ltb_spec (Product.quantity p) (stock_quantity form)); [reflexivity|].
    unfold_monad. cbn.
    destruct (Z.eqb_spec (- stock_quantity form) 0) as [?|_]; [lia|]. cbn.
    eapply unrecorded_write; [exact Hp | reflexivity | reflexivity | |].
    - cbn. rewrite Z.eqb_refl. lia.
    - intros j Hj. cbn. destruct (Z.eqb_spec product_id j); [congruence|lia]. }
  destruct (String.eqb (action form) "set").
  { unfold_monad. cbn.
    destruct (Z.eqb_spec (stock_quantity form - Product.quantity p) 0) as [Hz|_]; cbn.
    - eapply (unrecorded_write _ _ _ _ _ _ []); [exact Hp | reflexivity | | |].
      + cbn. rewrite app_nil_r. reflexivity.
      + cbn. lia.
      + reflexivity.
    - eapply unrecorded_write; [exact Hp | reflexivity | reflexivity | |].
      + cbn. rewrite Z.eqb_refl. lia.
      + intros j Hj. cbn. destruct (Z.eqb_spec product_id j); [congruence|lia]. }
  unfold_monad. cbn. reflexivity.
Qed.

Lemma finalize_items_reconciles pid num user items : forall db,
  unrecorded pid (fst (finalize_items num user items db)) = unrecorded pid db.
Proof.
  induction items as [|[i item] rest IH]; intros db; [reflexivity|].
  cbn [finalize_items]. unfold_monad.
  destruct (products db !! InvoiceItem.product item) as [p|] eqn:Hp; [|reflexivity].
  destruct (Z.ltb_spec (Product.quantity p) (InvoiceItem.quantity item)); [reflexivity|].
  cbn [fst snd]. rewrite IH.
  eapply unrecorded_write; [exact Hp | reflexivity | reflexivity | |].
  - cbn. rewrite Z.eqb_refl. lia.
  - intros j Hj. cbn. destruct (Z.eqb_spec (InvoiceItem.product item) j); [congruence|lia].
Qed.

Lemma finalize_and_pay_reconciles pid k self user now db :
  unrecorded pid (fst (finalize_and_pay k self user now db)) = unrecorded pid db.
Proof.
  unfold finalize_and_pay.
  destruct (Invoice.is_paid self); [reflexivity|].
  unfold atomic, bind at 1 2, get_db.
  pose proof (finalize_items_reconciles pid (Invoice.invoice_number self) user
                (items_of k db) db) as Hloop.
  destruct (finalize_items _ _ _ db) as [db1 [[]|e]]; [|reflexivity].
  cbn [fst] in Hloop. unfold bind, ret.
  pose proof (Invoice_save_keeps_stock (Some k) (Invoice.set_paid self now) now db1) as [Hs Hl].
  destruct (Invoice_save _ _ _ db1) as [db2 [saved|e]]; cbn [fst] in *; [|reflexivity].
  rewrite <- Hloop. apply unrecorded_same; assumption.
Qed.

Lemma finalize_request_reconciles pid pk user now db :
  unrecorded pid (run_op (Finalize pk user now) db) = unrecorded pid db.
Proof.
  unfold run_op, view_invoice, db_of.
  destruct (invoices db !! pk) as [invoice|]; [|reflexivity].
  cbn [invoice_method]. unfold view_invoice_branch. cbn [has_finalize has_add_item has_delete_item].
  destruct (Invoice.is_paid invoice) eqn:Hpaid; cbn [negb andb].
  - unfold ret.
    pose proof (Invoice_save_keeps_stock (Some pk) invoice now db) as [Hs Hl].
    destruct (Invoice_save _ _ _ db) as [db2 [saved|e]]; cbn [fst] in *;
      (apply unrecorded_same; assumption).
  - pose proof (finalize_and_pay_reconciles pid pk invoice (Some user) now db) as Hfin.
    cbn [invoice_user].
    destruct (finalize_and_pay _ _ _ _ db) as [db1 [paid|e]]; cbn [fst] in *; [exact Hfin|].
    pose proof (Invoice_save_keeps_stock (Some pk) invoice now db1) as [Hs Hl].
    rewrite <- Hfin.
    destruct (Invoice_save _ _ _ db1) as [db2 [saved|e']]; cbn [fst] in *;
      (apply unrecorded_same; assumption).
Qed.

(** Add, remove, set and finalise keep the ledger in step with the
    stock: the quantity of a product less the sum of its ledger deltas
    does not change. *)
Lemma ledger_in_step_without_item_removal pid ops : forall db,
  Forall stock_or_finalize ops ->
  unrecorded pid (run ops db) = unrecorded pid db.
Proof.
  induction ops as [|op ops IH]; intros db Hops; [reflexivity|].
  inversion Hops as [|? ? Hop Hrest]; subst.
  cbn [run fold_left]. change (fold_left _ ops ?d) with (run ops d).
  rewrite IH by exact Hrest.
  destruct op; try apply update_stock_reconciles.
  - apply finalize_request_reconciles.
  - destruct Hop.
Qed.

(** For a product that holds [q0] with nothing yet in its ledger, the
    quantity after such operations is [q0] plus the sum of its ledger
    deltas. *)
Lemma ledger_reconciles_without_item_removal pid p ops db :
  Forall stock_or_finalize ops ->
  products db !! pid = Some p ->
  ledger_sum pid db = 0 ->
  exists p', products (run ops db) !! pid = Some p'
    /\ Product.quantity p' = Product.quantity p + ledger_sum pid (run ops db).
Proof.
  intros Hops Hp Hzero.
  pose proof (ledger_in_step_without_item_removal pid ops db Hops) as Hstep.
  unfold unrecorded in Hstep. rewrite Hp, Hzero in Hstep. cbn in Hstep.
  destruct (products (run ops db) !! pid) as [p'|]; [|discriminate].
  exists p'. split; [reflexivity|]. cbn in Hstep. injection Hstep as Hq. lia.
Qed.

(** C6, where the code departs from it. Chlorine starts with ten units
    and no ledger entry; removing the item of a draft invoice that asks for two
    units puts twelve units in stock and writes nothing in the ledger:
    the quantity is not the initial quantity plus the ledger deltas. *)
Theorem item_removal_leaves_ledger_behind :
  let db' := run [RemoveItem 1 1 7 noon] shop in
  Product.quantity <$> products shop !! 1 = Some 10
  /\ ledger_sum 1 shop = 0
  /\ Product.quantity <$> products db' !! 1 = Some 12
  /\ ledger_sum 1 db' = 0
  /\ stock_history db' = []
  /\ unrecorded 1 db' <> unrecorded 1 shop.
Proof. cbv zeta. repeat split; try reflexivity. vm_compute. discriminate. Qed.

(** ** Invoice numbers ([Invoice._generate_invoice_number]) *)

Section StringOrder.

Lemma ascii_compare_refl a : Ascii.compare a a = Eq.
Proof. unfold Ascii.compare. apply N.compare_refl. Qed.

Lemma ascii_compare_lt_trans a b c :
  Ascii.compare a b = Lt -> Ascii.compare b c = Lt -> Ascii.compare a c = Lt.
Proof.
  unfold Ascii.compare. rewrite !N.compare_lt_iff. intros. etransitivity; eassumption.
Qed.

Lemma str_compare_lt_trans s1 : forall s2 s3,
  String.compare s1 s2 = Lt -> String.compare s2 s3 = Lt -> String.compare s1 s3 = Lt.
Proof.
  induction s1 as [|a s1 IH]; intros [|b s2] [|c s3]; cbn; try discriminate; auto.
  destruct (Ascii.compare a b) eqn:Hab; try discriminate;
    destruct (Ascii.compare b c) eqn:Hbc; try discriminate; intros H12 H23.
  - apply Ascii.compare_eq_iff in Hab, Hbc. subst. rewrite ascii_compare_refl. eauto.
  - apply Ascii.compare_eq_iff in Hab. subst. rewrite Hbc. reflexivity.
  - apply Ascii.compare_eq_iff in Hbc. subst. rewrite Hab. reflexivity.
  - rewrite (ascii_compare_lt_trans _ _ _ Hab Hbc). reflexivity.
Qed.

Lemma str_leb_refl s : String.leb s s = true.
Proof.
  unfold String.leb. induction s as [|a s IH]; cbn; [reflexivity|].
  rewrite ascii_compare_refl. exact IH.
Qed.

Lemma str_leb_trans s1 s2 s3 :
  String.leb s1 s2 = true -> String.leb s2 s3 = true -> String.leb s1 s3 = true.
Proof.
  unfold String.leb.
  destruct (String.compare s1 s2) eqn:H12; try discriminate;
    destruct (String.compare s2 s3) eqn:H23; try discriminate; intros _ _.
  - apply String.compare_eq_iff in H12. subst. rewrite H23. reflexivity.
  - apply String.compare_eq_iff in H12. subst. rewrite H23. reflexivity.
  - apply String.compare_eq_iff in H23. subst. rewrite H12. reflexivity.
  - rewrite (str_compare_lt_trans _ _ _ H12 H23). reflexivity.
Qed.

Lemma str_max_upper a b :
  String.leb a (py.str_max a b) = true /\ String.leb b (py.str_max a b) = true.
Proof.
  unfold py.str_max. destruct (String.leb a b) eqn:Hab.
  - split; [exact Hab | apply str_leb_refl].
  - split; [apply str_leb_refl|].
    destruct (String.leb_total a b) as [H|H]; congruence.
Qed.

Lemma fold_str_max_spec xs : forall x,
  In (fold_left py.str_max xs x) (x :: xs)
  /\ forall y, In y (x :: xs) -> String.leb y (fold_left py.str_max xs x) = true.
Proof.
  induction xs as [|z xs IH]; intros x; cbn [fold_left].
  - split; [left; reflexivity|]. intros y [<-|[]]. apply str_leb_refl.
  - destruct (IH (py.str_max x z)) as [Hin Hup]. split.
    + destruct Hin as [Hin|Hin]; [|right; right; exact Hin].
      rewrite <- Hin. unfold py.str_max. destruct (String.leb x z); [right; left|left]; reflexivity.
    + intros y Hy.
      assert (Hm : String.leb (py.str_max x z) (fold_left py.str_max xs (py.str_max x z)) = true)
        by (apply Hup; left; reflexivity).
      destruct (str_max_upper x z) as [Hx Hz].
      destruct Hy as [<-|[<-|Hy]].
      * eapply str_leb_trans; eassumption.
      * eapply str_leb_trans; eassumption.
      * apply Hup. right. exact Hy.
Qed.

(** The aggregate finds the greatest element, whatever the order of
    the rows. *)
Lemma max_of_greatest l m :
  In m l -> (forall x, In x l -> String.leb x m = true) -> py.max_of l = Some m.
Proof.
  destruct l as [|x xs]; intros Hin Hup; [destruct Hin|].
  unfold py.max_of. f_equal.
  destruct (fold_str_max_spec xs x) as [Hin' Hup'].
  apply String.leb_antisym; [apply Hup, Hin' | apply Hup', Hin].
Qed.

Lemma max_of_none l : (forall x, ~ In x l) -> py.max_of l = None.
Proof. destruct l as [|x xs]; intros H; [reflexivity|]. destruct (H x). left. reflexivity. Qed.

End StringOrder.

Section Numerals.

Lemma all_digits_app s t :
  py.all_digits (s ++ t)%string = py.all_digits s && py.all_digits t.
Proof.
  induction s as [|c s IH]; [reflexivity|].
  change (py.is_digit c && py.all_digits (s ++ t)%string
          = py.is_digit c && py.all_digits s && py.all_digits t).
  rewrite IH. apply andb_assoc.
Qed.

Lemma all_digits_zeros k : py.all_digits (py.repeat_char "0" k) = true.
Proof. induction k as [|k IH]; cbn; [reflexivity | exact IH]. Qed.

Lemma all_digits_of_uint d : py.all_digits (NilEmpty.string_of_uint d) = true.
Proof. induction d; cbn; auto. Qed.

Lemma all_digits_zfill w n : py.all_digits (py.zfill w (py.str_nat n)) = true.
Proof.
  unfold py.zfill, py.str_nat.
  rewrite all_digits_app, all_digits_zeros, all_digits_of_uint. reflexivity.
Qed.

Lemma length_append s t :
  String.length (s ++ t)%string = (String.length s + String.length t)%nat.
Proof. induction s as [|c s IH]; simpl; [reflexivity|]. rewrite IH. reflexivity. Qed.

Lemma length_zeros k : String.length (py.repeat_char "0" k) = k.
Proof. induction k as [|k IH]; cbn; [reflexivity|]. rewrite IH. reflexivity. Qed.

Lemma length_zfill w s :
  String.length (py.zfill w s) = Nat.max w (String.length s).
Proof. unfold py.zfill. rewrite length_append, length_zeros. lia. Qed.

Lemma uint_of_zeros k s :
  (fun d => Z.of_N (N.of_uint d)) <$> NilEmpty.uint_of_string (py.repeat_char "0" k ++ s)%string
  = (fun d => Z.of_N (N.of_uint d)) <$> NilEmpty.uint_of_string s.
Proof.
  induction k as [|k IH]; simpl; [reflexivity|]. rewrite <- IH.
  destruct (NilEmpty.uint_of_string (py.repeat_char "0" k ++ s)%string); reflexivity.
Qed.

(** Reading back a number printed with zero padding gives the number. *)
Lemma int_zfill w n : (0 < w)%nat -> py.int (py.zfill w (py.str_nat n)) = Some (Z.of_N n).
Proof.
  intros Hw. unfold py.int.
  destruct (py.zfill w (py.str_nat n)) eqn:Hz.
  - apply (f_equal String.length) in Hz. rewrite length_zfill in Hz. cbn in Hz. lia.
  - rewrite <- Hz. unfold py.zfill. rewrite uint_of_zeros.
    unfold py.str_nat. rewrite NilEmpty.usu. cbn. rewrite DecimalN.Unsigned.of_to.
    reflexivity.
Qed.

Lemma int_nonneg s n : py.int s = Some n -> 0 <= n.
Proof.
  unfold py.int. destruct s; [discriminate|].
  destruct (NilEmpty.uint_of_string _); cbn; [|discriminate].
  intros [= <-]. lia.
Qed.

Lemma format_04d_reads_back n :
  0 <= n ->
  py.int (py.format_04d n) = Some n
  /\ py.all_digits (py.format_04d n) = true
  /\ (4 <= String.length (py.format_04d n))%nat.
Proof.
  intros Hn. unfold py.format_04d.
  destruct (Z.ltb_spec n 0); [lia|].
  rewrite int_zfill by lia. rewrite all_digits_zfill, length_zfill.
  rewrite N2Z.inj_abs_N, Z.abs_eq by lia. repeat split. lia.
Qed.

(** A check made on each number of a range holds on the range. *)
Lemma range_check (f : Z -> bool) (lo len : Z) :
  forallb (fun k => f (lo + Z.of_nat k)) (seq 0 (Z.to_nat len)) = true ->
  forall n, lo <= n < lo + len -> f n = true.
Proof.
  intros Hall n Hn. rewrite forallb_forall in Hall.
  specialize (Hall (Z.to_nat (n - lo))).
  replace (lo + Z.of_nat (Z.to_nat (n - lo))) with n in Hall by lia.
  apply Hall, in_seq. lia.
Qed.

(** The numbers up to 9999 are the ones printed with exactly four
    digits; checked on each of them. *)
Lemma format_04d_four_digits n :
  0 <= n <= 9999 -> String.length (py.format_04d n) = 4%nat.
Proof.
  intros Hn. apply Nat.eqb_eq.
  apply (range_check (fun k => Nat.eqb (String.length (py.format_04d k)) 4) 0 10000);
    [vm_compute; reflexivity | lia].
Qed.

(** The date part has eight digits for every date of the calendar from
    the year 1000 on; checked on each year, month and day. *)
Lemma strftime_Ymd_eight_digits t :
  1000 <= year t <= 9999 -> 1 <= month t <= 12 -> 1 <= day t <= 31 ->
  String.length (strftime_Ymd t) = 8%nat /\ py.all_digits (strftime_Ymd t) = true.
Proof.
  intros Hy Hm Hd. unfold strftime_Ymd.
  pose proof (range_check
                (fun k => Nat.eqb (String.length (py.str k)) 4 && py.all_digits (py.str k))
                1000 9000 ltac:(vm_compute; reflexivity)) as Hyears.
  pose proof (range_check
                (fun k => Nat.eqb (String.length (py.format_02d k)) 2
                          && py.all_digits (py.format_02d k))
                0 100 ltac:(vm_compute; reflexivity)) as Hsmall.
  destruct (andb_prop _ _ (Hyears (year t) ltac:(lia))) as [Y1 Y2].
  destruct (andb_prop _ _ (Hsmall (month t) ltac:(lia))) as [M1 M2].
  destruct (andb_prop _ _ (Hsmall (day t) ltac:(lia))) as [D1 D2].
  apply Nat.eqb_eq in Y1, M1, D1.
  rewrite !length_append, !all_digits_app, Y1, M1, D1, Y2, M2, D2. split; reflexivity.
Qed.

End Numerals.

Lemma numbered_candidates db prefix n :
  numbered db prefix n
  <-> In n (filter (fun n => py.startswith n prefix = true)
              ((fun r => Invoice.invoice_number (snd r)) <$> map_to_list (invoices db))).
Proof.
  rewrite <- list_elem_of_In, list_elem_of_filter, list_elem_of_fmap. split.
  - intros (k & inv & Hk & <- & Hpre). split; [exact Hpre|].
    exists (k, inv). split; [reflexivity|]. apply elem_of_map_to_list. exact Hk.
  - intros (Hpre & [k inv] & -> & Hin). apply elem_of_map_to_list in Hin.
    exists k, inv. auto.
Qed.

(** C9, as the code has it. The generator returns the prefix
    "INV-" + date + "-" followed by the sequence number printed in
    decimal with zeros in front up to four digits: exactly four digits
    while the number is at most 9999. The number is 1 when no invoice
    number starts with the prefix of the day; otherwise it is one more
    than the number read after the last dash of the greatest, in string
    order, of the invoice numbers that start with that prefix. The date
    has eight digits. *)
Theorem generate_invoice_number_spec now db :
  let prefix := ("INV-" ++ strftime_Ymd now ++ "-")%string in
  ((forall n, ~ numbered db prefix n) ->
   _generate_invoice_number now db = (db, Ok (prefix ++ "0001")%string))
  /\ (forall last num,
        numbered db prefix last ->
        (forall n, numbered db prefix n -> String.leb n last = true) ->
        py.int (py.last_of (py.split "-" last)) = Some num ->
        _generate_invoice_number now db
        = (db, Ok (prefix ++ py.format_04d (num + 1))%string)
        /\ py.int (py.format_04d (num + 1)) = Some (num + 1)
        /\ py.all_digits (py.format_04d (num + 1)) = true
        /\ (4 <= String.length (py.format_04d (num + 1)))%nat
        /\ (num + 1 <= 9999 -> String.length (py.format_04d (num + 1)) = 4%nat))
  /\ (1000 <= year now <= 9999 -> 1 <= month now <= 12 -> 1 <= day now <= 31 ->
      String.length (strftime_Ymd now) = 8%nat
      /\ py.all_digits (strftime_Ymd now) = true).
Proof.
  cbv zeta. split; [|split].
  - intros Hnone. unfold _generate_invoice_number, bind, get_db.
    rewrite max_of_none; [reflexivity|].
    intros n Hn. apply (Hnone n). apply numbered_candidates. exact Hn.
  - intros last num Hlast Hmax Hnum.
    pose proof (int_nonneg _ _ Hnum) as Hpos.
    destruct (format_04d_reads_back (num + 1)) as (Hread & Hdigits & Hlen); [lia|].
    split; [|repeat split; auto].
    + unfold _generate_invoice_number, bind, get_db.
      rewrite (max_of_greatest _ last).
      * destruct last as [|c l].
        { destruct Hlast as (k & inv & _ & _ & Hpre). discriminate Hpre. }
        rewrite Hnum. reflexivity.
      * apply numbered_candidates. exact Hlast.
      * intros x Hx. apply Hmax. apply numbered_candidates. exact Hx.
    + intros Hsmall. apply format_04d_four_digits. lia.
  - apply strftime_Ymd_eight_digits.
Qed.

Lemma generate_invoice_number_spec_witness :
  let first := set_invoices shop ∅ in
  let third := set_invoices shop
                 (<[1 := Invoice.set_invoice_number draft "INV-20250101-0002"]>
                    (<[2 := Invoice.set_invoice_number draft "INV-20250101-0001"]>
                       (<[3 := Invoice.set_invoice_number draft "INV-20241231-0417"]> ∅))) in
  _generate_invoice_number noon first = (first, Ok "INV-20250101-0001")
  /\ _generate_invoice_number noon third = (third, Ok "INV-20250101-0003")
  /\ String.length (strftime_Ymd noon) = 8%nat.
Proof.
  cbv zeta. split; [|split].
  - apply (proj1 (generate_invoice_number_spec noon (set_invoices shop ∅))).
    intros n (k & inv & Hk & _). cbn in Hk. rewrite lookup_empty in Hk. discriminate.
  - refine (proj1 (proj1 (proj2 (generate_invoice_number_spec noon _))
                     "INV-20250101-0002" 2 _ _ _)).
    + exists 1, (Invoice.set_invoice_number draft "INV-20250101-0002").
      repeat split; reflexivity.
    + intros n (k & inv & Hk & <- & Hpre). cbn [invoices set_invoices] in Hk.
      destruct (decide (k = 1)) as [->|H1];
        [|destruct (decide (k = 2)) as [->|H2]; [|destruct (decide (k = 3)) as [->|H3]]].
      * rewrite lookup_insert_eq in Hk. injection Hk as <-. reflexivity.
      * rewrite lookup_insert_ne, lookup_insert_eq in Hk by done. injection Hk as <-. reflexivity.
      * rewrite !lookup_insert_ne, lookup_insert_eq in Hk by done. injection Hk as <-.
        discriminate Hpre.
      * rewrite !lookup_insert_ne, lookup_empty in Hk by done. discriminate.
    + reflexivity.
  - apply (proj2 (proj2 (generate_invoice_number_spec noon shop))); cbn; lia.
Defined.

(** With "INV-20250101-9999" in the table the next number is
    "INV-20250101-10000": its sequence part has five digits, not
    four. *)
Lemma invoice_number_after_9999_has_five_digits :
  let db := set_invoices shop
              (<[1 := Invoice.set_invoice_number draft "INV-20250101-9999"]> ∅) in
  _generate_invoice_number noon db = (db, Ok "INV-20250101-10000")
  /\ py.last_of (py.split "-" "INV-20250101-10000") = "10000"
  /\ String.length "10000" <> 4%nat.
Proof. cbv zeta. repeat split; try reflexivity. cbn. lia. Qed.

(** ** Decimal arithmetic

    While the coefficients stay within the precision of the context, the
    operations of [Decimal] are the operations on the numbers they stand
    for. *)

Section DecimalArithmetic.

Local Abbreviation ten := (inject_Z 10).



Lemma fix_small d : Z.abs (coef d) < 10 ^ prec -> _fix d = d.
Proof.
  intros H. unfold _fix.
  destruct (Z.ltb_spec (Z.abs (coef d)) (10 ^ prec)); [reflexivity | lia].
Qed.

Lemma mul_exact a b :
  Z.abs (coef a * coef b) < 10 ^ prec ->
  mul a b = Dec (coef a * coef b) (expo a + expo b).
Proof. intros H. unfold mul. apply fix_small. exact H. Qed.


Lemma add_exact a b :
  let e := Z.min (expo a) (expo b) in
  Z.abs (coef a * 10 ^ (expo a - e) + coef b * 10 ^ (expo b - e)) < 10 ^ prec ->
  add a b = Dec (coef a * 10 ^ (expo a - e) + coef b * 10 ^ (expo b - e)) e.
Proof. cbv zeta. intros H. unfold add. apply fix_small. exact H. Qed.





End DecimalArithmetic.

(** ** The totals of an invoice *)

Section Totals.







End Totals.

(** ** What the columns keep *)

Section Columns.

Local Abbreviation ten := (inject_Z 10).






End Columns.




(** ** The other views *)

(** *** Keys *)

Lemma next_key_above keys k : In k keys -> k < next_key keys.
Proof.
  unfold next_key. induction keys as [|x xs IH]; intros Hin; [destruct Hin|].
  cbn [fold_right]. destruct Hin as [->|Hin]; [lia|]. specialize (IH Hin). lia.
Qed.

Lemma next_key_fresh {A} (m : gmap Z A) : m !! next_key (fst <$> map_to_list m) = None.
Proof.
  destruct (m !! next_key (fst <$> map_to_list m)) as [v|] eqn:Hv; [|reflexivity].
  exfalso. apply elem_of_map_to_list in Hv.
  assert (Hin : In (next_key (fst <$> map_to_list m)) (fst <$> map_to_list m)).
  { apply list_elem_of_In, list_elem_of_fmap. eexists; split; [|exact Hv]. reflexivity. }
  apply next_key_above in Hin. lia.
Qed.

(** *** What a step leaves of the stock *)

Lemma stock_same_refl db : stock_same db db.
Proof. repeat split; auto. Qed.

Lemma stock_same_trans db1 db2 db3 :
  stock_same db1 db2 -> stock_same db2 db3 -> stock_same db1 db3.
Proof.
  intros (Hp & Hl & Hi) (Hp' & Hl' & Hi'). repeat split; [congruence|congruence|auto].
Qed.

Lemma evolves_refl db : evolves db db.
Proof.
  repeat split; auto.
  - exists []. split; [symmetry; apply app_nil_r | intros h []].
  - intros k p Hp. exists p. auto.
Qed.

Lemma evolves_trans db1 db2 db3 : evolves db1 db2 -> evolves db2 db3 -> evolves db1 db3.
Proof.
  intros ((e1 & He1 & Hk1) & Hp1 & Hu1 & Hi1) ((e2 & He2 & Hk2) & Hp2 & Hu2 & Hi2).
  repeat split; auto.
  - exists (e1 ++ e2). split; [rewrite He2, He1, app_assoc; reflexivity|].
    intros h Hh. apply in_app_or in Hh as [Hh|Hh]; [|auto].
    destruct (Hk1 h Hh) as [p Hp]. destruct (Hp2 _ _ Hp) as (p' & Hp' & _).
    rewrite Hp'. eauto.
  - intros k p Hp. destruct (Hp1 _ _ Hp) as (p' & Hp' & Hs).
    destruct (Hp2 _ _ Hp') as (p'' & Hp'' & Hs'). exists p''. split; [assumption|congruence].
Qed.

Lemma evolves_same db db' : stock_same db db' -> evolves db db'.
Proof.
  intros (Hp & Hl & Hi). repeat split; auto.
  - exists []. split; [rewrite Hl; symmetry; apply app_nil_r | intros h []].
  - intros k p Hk. exists p. rewrite Hp. auto.
  - intros Hu j k p q Hj Hk. rewrite Hp in Hj, Hk. eauto.
Qed.

(** A write to one product that keeps its SKU, with entries for it. *)
Lemma evolves_write db db' k p p' entries :
  products db !! k = Some p ->
  Product.sku p' = Product.sku p ->
  products db' = <[k := p']> (products db) ->
  stock_history db' = stock_history db ++ entries ->
  (forall h, In h entries -> StockHistory.product h = k) ->
  (items_nonneg db -> items_nonneg db') ->
  evolves db db'.
Proof.
  intros Hp Hs Hps Hl He Hi. repeat split; auto.
  - exists entries. split; [assumption|]. intros h Hh. rewrite (He h Hh), Hps, lookup_insert_eq.
    eauto.
  - intros j q Hj. rewrite Hps. destruct (decide (j = k)) as [->|Hjk].
    + rewrite lookup_insert_eq. exists p'. split; [reflexivity|congruence].
    + rewrite lookup_insert_ne by congruence. eauto.
  - intros Hu i j a b. rewrite Hps. intros Ha Hb Hab.
    assert (Hold : forall i a, <[k := p']> (products db) !! i = Some a ->
                     exists a0, products db !! i = Some a0 /\ Product.sku a0 = Product.sku a).
    { intros i0 a0. destruct (decide (i0 = k)) as [->|Hne].
      - rewrite lookup_insert_eq. intros [= <-]. eauto.
      - rewrite lookup_insert_ne by congruence. eauto. }
    destruct (Hold _ _ Ha) as (a0 & Ha0 & Hsa). destruct (Hold _ _ Hb) as (b0 & Hb0 & Hsb).
    apply (Hu i j a0 b0); congruence.
Qed.

Lemma Invoice_save_stock_same pk self now db :
  stock_same db (fst (Invoice_save pk self now db)).
Proof.
  destruct (Invoice_save_writes_invoices pk self now db) as [ivs ->].
  repeat split; auto.
Qed.

Lemma Invoice_create_stock_same self now db :
  stock_same db (fst (Invoice_create self now db)).
Proof.
  unfold Invoice_create. apply Invoice_save_stock_same.
Qed.

Lemma create_invoice_item_stock_same it db :
  stock_same db (fst (create_invoice_item it db)).
Proof.
  unfold create_invoice_item.
  destruct (Z.ltb_spec (InvoiceItem.quantity it) 0) as [|Hq]; [apply stock_same_refl|].
  unfold modify. cbn. repeat split; auto.
  intros Hi r Hr. cbn in Hr. apply elem_of_app in Hr as [Hr|Hr]; [auto|].
  apply list_elem_of_singleton in Hr as ->. exact Hq.
Qed.

Lemma InvoiceItem_save_stock_same invoice product quantity price db :
  stock_same db (fst (InvoiceItem_save invoice product quantity price db)).
Proof.
  unfold InvoiceItem_save.
  assert (Hget : forall db0,
    stock_same db0
      (fst ((p <- get_product product ;; ret (Product.selling_price p)) db0))).
  { intros db0. unfold_monad. destruct (products db0 !! product); apply stock_same_refl. }
  assert (Hall : forall (m : M Decimal),
    (forall db0, stock_same db0 (fst (m db0))) ->
    stock_same db
      (fst ((price <- m ;;
             create_invoice_item (InvoiceItem.mk invoice product quantity price)) db))).
  { intros m Hm. unfold bind. specialize (Hm db).
    destruct (m db) as [db1 [d|e]]; cbn [fst] in *; [|exact Hm].
    eapply stock_same_trans; [exact Hm | apply create_invoice_item_stock_same]. }
  destruct price as [d|]; [destruct (coef d =? 0)|]; apply Hall; auto.
  intros db0. apply stock_same_refl.
Qed.

Lemma add_lines_stock_same pk ls : forall flag db,
  stock_same db (fst (add_lines pk ls flag db)).
Proof.
  induction ls as [|[prod_id qty] rest IH]; intros flag db; [apply stock_same_refl|].
  cbn [add_lines].
  destruct prod_id as [| |product_id]; [apply IH | |].
  - destruct qty as [| |q]; [apply IH | apply stock_same_refl |].
    destruct (0 <? q); [apply stock_same_refl | apply IH].
  - destruct qty as [| |q]; [apply IH | apply stock_same_refl |].
    destruct (0 <? q); [|apply IH].
    destruct (products db !! product_id) as [p|]; [|apply stock_same_refl].
    destruct (Product.quantity p <? q); [apply stock_same_refl|].
    pose proof (InvoiceItem_save_stock_same pk product_id q (Some (Product.selling_price p)) db)
      as Hs.
    destruct (InvoiceItem_save _ _ _ _ db) as [db' [[]|e]]; cbn [fst] in *; [|exact Hs].
    eapply stock_same_trans; [exact Hs | apply IH].
Qed.

Lemma delete_invoice_stock_same pk db : stock_same db (delete_invoice pk db).
Proof.
  repeat split; auto. intros Hi r Hr. cbn in Hr.
  apply list_elem_of_filter in Hr as [_ Hr]. auto.
Qed.

Lemma finalize_items_evolves num user items : forall db,
  evolves db (fst (finalize_items num user items db)).
Proof.
  induction items as [|[i item] rest IH]; intros db; [apply evolves_refl|].
  cbn [finalize_items]. unfold_monad.
  destruct (products db !! InvoiceItem.product item) as [p|] eqn:Hp; [|apply evolves_refl].
  destruct (Z.ltb_spec (Product.quantity p) (InvoiceItem.quantity item)); [apply evolves_refl|].
  cbn [fst snd]. eapply evolves_trans; [|apply IH].
  eapply (evolves_write _ _ _ _ _ [_]); [exact Hp | | reflexivity | reflexivity | | auto].
  - reflexivity.
  - intros h [<-|[]]. reflexivity.
Qed.

Lemma finalize_and_pay_evolves k self user now db :
  evolves db (fst (finalize_and_pay k self user now db)).
Proof.
  unfold finalize_and_pay.
  destruct (Invoice.is_paid self); [apply evolves_refl|].
  unfold atomic, bind at 1 2, get_db.
  pose proof (finalize_items_evolves (Invoice.invoice_number self) user (items_of k db) db)
    as Hloop.
  destruct (finalize_items _ _ _ db) as [db1 [[]|e]]; [|apply evolves_refl].
  cbn [fst] in Hloop. unfold bind, ret.
  pose proof (Invoice_save_stock_same (Some k) (Invoice.set_paid self now) now db1) as Hs.
  destruct (Invoice_save _ _ _ db1) as [db2 [saved|e]]; cbn [fst] in *; [|apply evolves_refl].
  eapply evolves_trans; [exact Hloop | apply evolves_same, Hs].
Qed.

Lemma update_stock_evolves product_id form db :
  evolves db (db_of (update_stock product_id form db)).
Proof.
  unfold update_stock, db_of.
  destruct (products db !! product_id) as [p|] eqn:Hp; [|apply evolves_refl].
  destruct (stock_method form); [apply evolves_refl|].
  destruct (stock_quantity form <=? 0); [apply evolves_refl|].
  unfold update_stock_body, atomic.
  assert (Hone : forall h, StockHistory.product h = product_id ->
                   forall h0, In h0 [h] -> StockHistory.product h0 = product_id)
    by (intros h Hh h0 [<-|[]]; exact Hh).
  assert (Hnil : stock_history db = stock_history db ++ []) by (symmetry; apply app_nil_r).
  destruct (String.eqb (action form) "add").
  { unfold_monad. cbn.
    destruct (stock_quantity form =? 0); cbn.
    - eapply (evolves_write _ _ _ _ _ []); [exact Hp | | reflexivity | exact Hnil | | auto];
        [reflexivity | intros h []].
    - eapply (evolves_write _ _ _ _ _ [_]); [exact Hp | | reflexivity | reflexivity | | auto];
        [reflexivity | apply Hone; reflexivity]. }
  destruct (String.eqb (action form) "remove").
  { destruct (Product.quantity p <? stock_quantity form); [apply evolves_refl|].
    unfold_monad. cbn.
    destruct (- stock_quantity form =? 0); cbn.
    - eapply (evolves_write _ _ _ _ _ []); [exact Hp | | reflexivity | exact Hnil | | auto];
        [reflexivity | intros h []].
    - eapply (evolves_write _ _ _ _ _ [_]); [exact Hp | | reflexivity | reflexivity | | auto];
        [reflexivity | apply Hone; reflexivity]. }
  destruct (String.eqb (action form) "set").
  { unfold_monad. cbn.
    destruct (stock_quantity form - Product.quantity p =? 0); cbn.
    - eapply (evolves_write _ _ _ _ _ []); [exact Hp | | reflexivity | exact Hnil | | auto];
        [reflexivity | intros h []].
    - eapply (evolves_write _ _ _ _ _ [_]); [exact Hp | | reflexivity | reflexivity | | auto];
        [reflexivity | apply Hone; reflexivity]. }
  unfold_monad. cbn. apply evolves_refl.
Qed.

(** How [view_invoice] touches the stock: through [finalize_and_pay],
    or by giving back the quantity of an item it removes, or not at
    all; the final [save] writes to the invoice only. *)
Lemma view_invoice_stock pk form now db :
  exists db1,
    stock_same db1 (db_of (view_invoice pk form now db))
    /\ (stock_same db db1
        \/ (exists self, db1 = fst (finalize_and_pay pk self (Some (invoice_user form)) now db))
        \/ (has_delete_item form = true
            /\ exists r p,
                 r ∈ invoice_items db
                 /\ products db !! InvoiceItem.product (snd r) = Some p
                 /\ products db1
                    = <[InvoiceItem.product (snd r) :=
                          Product.set_quantity p
                            (Product.quantity p + InvoiceItem.quantity (snd r))]> (products db)
                 /\ stock_history db1 = stock_history db
                 /\ (items_nonneg db -> items_nonneg db1))).
Proof.
  unfold view_invoice, db_of.
  destruct (invoices db !! pk) as [invoice|];
    [|exists db; split; [apply stock_same_refl | left; apply stock_same_refl]].
  destruct (invoice_method form);
    [exists db; split; [apply stock_same_refl | left; apply stock_same_refl]|].
  assert (Hend : forall db1 (o : Outcome (list Message * Response + list Message)),
    stock_same db1
      (fst (fst (match o with
                 | Raise e => (db1, [], server_error e)
                 | Ok (inl (msgs, resp)) => (db1, msgs, resp)
                 | Ok (inr msgs) =>
                     match Invoice_save (Some pk) invoice now db1 with
                     | (db2, Ok _) => (db2, msgs, redirect "view_invoice")
                     | (db2, Raise e) => (db2, msgs, server_error e)
                     end
                 end)))).
  { intros db1 [[[msgs resp]|msgs]|e]; cbn [fst]; try apply stock_same_refl.
    pose proof (Invoice_save_stock_same (Some pk) invoice now db1) as Hs.
    destruct (Invoice_save _ _ _ db1) as [db2 [x|e]]; exact Hs. }
  destruct (view_invoice_branch pk invoice form now db) as [db1 o] eqn:Hbranch.
  exists db1. split; [apply Hend|].
  unfold view_invoice_branch in Hbranch.
  destruct (has_finalize form && negb (Invoice.is_paid invoice)).
  { right; left. exists invoice.
    destruct (finalize_and_pay pk invoice (Some (invoice_user form)) now db) as [db' [paid|e]];
      injection Hbranch as <- _; reflexivity. }
  destruct (has_add_item form).
  { left. destruct (products db !! form_product form) as [p|];
      [|injection Hbranch as <- _; apply stock_same_refl].
    destruct (Product.quantity p <? form_quantity form);
      [injection Hbranch as <- _; apply stock_same_refl|].
    unfold bind, ret in Hbranch.
    pose proof (create_invoice_item_stock_same
                  (InvoiceItem.mk pk (form_product form) (form_quantity form)
                     (Product.selling_price p)) db) as Hs.
    destruct (create_invoice_item _ db) as [db' [[]|e]]; cbn [fst] in Hs;
      injection Hbranch as <- _; exact Hs. }
  destruct (has_delete_item form) eqn:Hdel;
    [|injection Hbranch as <- _; left; apply stock_same_refl].
  destruct (filter (fun r => fst r = form_item_id form) (items_of pk db))
    as [|[item_id item] more] eqn:Hfound;
    [injection Hbranch as <- _; left; apply stock_same_refl|].
  destruct (Invoice.is_paid invoice);
    [injection Hbranch as <- _; left; apply stock_same_refl|].
  assert (Hin : (item_id, item) ∈ invoice_items db).
  { assert (Hf : (item_id, item) ∈ filter (fun r => fst r = form_item_id form) (items_of pk db))
      by (rewrite Hfound; apply elem_of_cons; left; reflexivity).
    apply list_elem_of_filter in Hf as [_ Hf]. unfold items_of in Hf.
    apply list_elem_of_filter in Hf as [_ Hf]. exact Hf. }
  unfold_monad. unfold delete_invoice_item, modify in Hbranch.
  destruct (products db !! InvoiceItem.product item) as [p|] eqn:Hp;
    [|injection Hbranch as <- _; left; apply stock_same_refl].
  injection Hbranch as <- _. right; right. split; [reflexivity|].
  exists (item_id, item), p. cbn. repeat split; auto.
  intros Hi r Hr. apply list_elem_of_filter in Hr as [_ Hr]. auto.
Qed.

(** [create_invoice] touches the stock through [finalize_and_pay] only. *)
Lemma create_invoice_body_stock customer form now db :
  exists db3,
    stock_same db db3
    /\ (fst (create_invoice_body customer form now db) = db3
        \/ exists k self,
             fst (create_invoice_body customer form now db)
             = fst (finalize_and_pay k self (Some (new_user form)) now db3)).
Proof.
  unfold create_invoice_body.
  pose proof (Invoice_create_stock_same (new_invoice customer (new_user form) now) now db) as H1.
  destruct (Invoice_create _ now db) as [db1 [[pk invoice]|e]]; cbn [fst] in H1;
    [|exists db1; split; [exact H1 | left; reflexivity]].
  pose proof (add_lines_stock_same pk (lines form) false db1) as H2.
  destruct (add_lines pk (lines form) false db1) as [db2 [[]|p|e]]; cbn [fst] in H2.
  - pose proof (Invoice_save_stock_same (Some pk) invoice now db2) as H3.
    destruct (Invoice_save (Some pk) invoice now db2) as [db3 [[k saved]|e]]; cbn [fst] in H3.
    + exists db3. split; [eauto using stock_same_trans|].
      destruct (complete form); [|left; reflexivity].
      right. exists pk, saved.
      destruct (finalize_and_pay pk saved (Some (new_user form)) now db3) as [db4 [paid|[]]];
        reflexivity.
    + exists db3. split; [eauto using stock_same_trans | left; reflexivity].
  - exists (delete_invoice pk db2). split; [|left; reflexivity].
    eauto using stock_same_trans, delete_invoice_stock_same.
  - exists db2. split; [eauto using stock_same_trans | left; reflexivity].
  - exists db2. split; [eauto using stock_same_trans | left; reflexivity].
Qed.

Lemma create_invoice_stock form now site :
  exists db3,
    stock_same (site_db site) db3
    /\ (site_db (fst (fst (create_invoice form now site))) = db3
        \/ exists k self,
             site_db (fst (fst (create_invoice form now site)))
             = fst (finalize_and_pay k self (Some (new_user form)) now db3)).
Proof.
  unfold create_invoice.
  destruct (new_method form);
    [exists (site_db site); split; [apply stock_same_refl | left; reflexivity]|].
  destruct (resolve_customer form (customers site)) as [e|[cs customer]];
    [exists (site_db site); split; [apply stock_same_refl | left; reflexivity]|].
  destruct (create_invoice_body_stock customer form now (site_db site)) as (db3 & Hs & Hend).
  destruct (create_invoice_body customer form now (site_db site)) as [db' [e|[msgs resp]]];
    cbn [fst] in *.
  - exists (site_db site). split; [apply stock_same_refl | left; reflexivity].
  - exists db3. split; [exact Hs | exact Hend].
Qed.

(** *** The views of the products *)

Lemma sku_exists_spec sku db :
  sku_exists sku db = true
  <-> exists k p, products db !! k = Some p /\ Product.sku p = sku.
Proof.
  unfold sku_exists. rewrite existsb_exists. split.
  - intros ([k p] & Hin & Heq). apply list_elem_of_In, elem_of_map_to_list in Hin.
    apply String.eqb_eq in Heq. eauto.
  - intros (k & p & Hp & Heq). exists (k, p). split.
    + apply list_elem_of_In, elem_of_map_to_list. exact Hp.
    + apply String.eqb_eq. exact Heq.
Qed.

(** The database that an accepted [add_product] leaves. *)
Lemma add_product_accepted form db :
  product_method form = POST ->
  sku_exists (form_sku form) db = false ->
  0 <= form_threshold form ->
  let k := next_key (fst <$> map_to_list (products db)) in
  let product :=
    Product.mk (form_sku form) (form_name form) (form_initial_quantity form)
      (form_cost_price form) (form_selling_price form) (form_threshold form) true in
  products db !! k = None
  /\ add_product form db
     = (mkDB (<[k := product]> (products db)) (invoices db) (invoice_items db)
          (stock_history db ++
             (if form_initial_quantity form =? 0 then []
              else [StockHistory.mk k IN (form_initial_quantity form) "Initial stock"
                      (Some (product_user form))])),
        [success ("Product '" ++ form_name form ++ "' added!")%string],
        redirect "inventory_list").
Proof.
  intros Hm Hsku Hth k product. split; [apply next_key_fresh|].
  unfold add_product. rewrite Hm, Hsku.
  destruct (Z.ltb_spec (form_threshold form) 0) as [?|_]; [lia|].
  cbn [Product.quantity Product.name]. fold k.
  destruct (form_initial_quantity form =? 0); cbn.
  - rewrite app_nil_r. destruct db; reflexivity.
  - reflexivity.
Qed.

(** A refused [add_product] changes nothing. *)
Lemma add_product_refused form db :
  product_method form = GET \/ sku_exists (form_sku form) db = true \/ form_threshold form < 0 ->
  db_of (add_product form db) = db.
Proof.
  intros H. unfold add_product, db_of.
  destruct (product_method form); [reflexivity|].
  destruct (sku_exists (form_sku form) db); [reflexivity|].
  destruct (Z.ltb_spec (form_threshold form) 0) as [|Hth]; [reflexivity|].
  destruct H as [H|[H|H]]; [discriminate | discriminate | lia].
Qed.

Lemma add_product_cases form db :
  db_of (add_product form db) = db
  \/ (product_method form = POST /\ sku_exists (form_sku form) db = false
      /\ 0 <= form_threshold form).
Proof.
  destruct (product_method form) eqn:Hm; [left; apply add_product_refused; auto|].
  destruct (sku_exists (form_sku form) db) eqn:Hs; [left; apply add_product_refused; auto|].
  destruct (Z.ltb_spec (form_threshold form) 0) as [Hth|Hth];
    [left; apply add_product_refused; auto|].
  right. auto.
Qed.

Lemma add_product_evolves form db : evolves db (db_of (add_product form db)).
Proof.
  destruct (add_product_cases form db) as [->|(Hm & Hs & Hth)]; [apply evolves_refl|].
  destruct (add_product_accepted form db Hm Hs Hth) as [Hfresh ->]. unfold db_of. cbn [fst].
  set (k := next_key (fst <$> map_to_list (products db))) in *.
  repeat split; cbn; auto.
  - eexists. split; [reflexivity|]. intros h Hh.
    destruct (form_initial_quantity form =? 0); [destruct Hh|].
    destruct Hh as [<-|[]]. cbn. rewrite lookup_insert_eq. eauto.
  - intros j p Hj. exists p. split; [|reflexivity].
    rewrite lookup_insert_ne by congruence. exact Hj.
  - intros Hu i j a b. cbn. intros Ha Hb Hab.
    assert (Hnew : forall j0 b0, products db !! j0 = Some b0 ->
                     Product.sku b0 <> form_sku form).
    { intros j0 b0 Hb0 Heq.
      assert (Hex : sku_exists (form_sku form) db = true) by (apply sku_exists_spec; eauto).
      congruence. }
    destruct (decide (i = k)) as [->|Hik], (decide (j = k)) as [->|Hjk]; [reflexivity | | |].
    + rewrite lookup_insert_eq in Ha. rewrite lookup_insert_ne in Hb by congruence.
      injection Ha as <-. cbn in Hab. exfalso. exact (Hnew _ _ Hb (eq_sym Hab)).
    + rewrite lookup_insert_eq in Hb. rewrite lookup_insert_ne in Ha by congruence.
      injection Hb as <-. cbn in Hab. exfalso. exact (Hnew _ _ Ha Hab).
    + rewrite lookup_insert_ne in Ha, Hb by congruence. eauto.
Qed.

Lemma edit_product_evolves product_id form db :
  evolves db (db_of (edit_product product_id form db)).
Proof.
  unfold edit_product, db_of.
  destruct (products db !! product_id) as [p|] eqn:Hp; [|apply evolves_refl].
  destruct (edit_method form); [apply evolves_refl|].
  destruct (edit_threshold form <? 0); [apply evolves_refl|]. cbn [fst].
  eapply (evolves_write _ _ _ _ _ []); [exact Hp | | reflexivity | | | auto];
    [reflexivity | cbn; symmetry; apply app_nil_r | intros h []].
Qed.

Lemma delete_product_evolves product_id method db :
  evolves db (db_of (delete_product product_id method db)).
Proof.
  unfold delete_product, db_of.
  destruct (products db !! product_id) as [p|] eqn:Hp; [|apply evolves_refl].
  destruct method; [apply evolves_refl|]. cbn [fst].
  eapply (evolves_write _ _ _ _ _ []); [exact Hp | | reflexivity | | | auto];
    [reflexivity | cbn; symmetry; apply app_nil_r | intros h []].
Qed.

Lemma low_stock_list_evolves form db :
  evolves db (fst (fst (low_stock_list form db))).
Proof.
  unfold low_stock_list.
  destruct (restock_method form); [apply evolves_refl|].
  destruct (has_quick_restock form); [|apply evolves_refl].
  destruct (products db !! restock_product_id form) as [p|] eqn:Hp; [|apply evolves_refl].
  destruct (0 <? restock_quantity form); [|apply evolves_refl]. cbn [fst].
  eapply (evolves_write _ _ _ _ _ [_]); [exact Hp | | reflexivity | reflexivity | | auto];
    [reflexivity | intros h [<-|[]]; reflexivity].
Qed.

Lemma view_invoice_evolves pk form now db :
  evolves db (db_of (view_invoice pk form now db)).
Proof.
  destruct (view_invoice_stock pk form now db) as (db1 & Hend & Hbranch).
  eapply evolves_trans; [|apply evolves_same, Hend].
  destruct Hbranch as [Hs|[[self ->]|(_ & r & p & Hr & Hp & Hps & Hl & Hi)]].
  - apply evolves_same, Hs.
  - apply finalize_and_pay_evolves.
  - eapply (evolves_write _ _ _ _ _ []); [exact Hp | | exact Hps | | | exact Hi];
      [reflexivity | rewrite Hl; symmetry; apply app_nil_r | intros h []].
Qed.

Lemma create_invoice_evolves form now site :
  evolves (site_db site) (site_db (fst (fst (create_invoice form now site)))).
Proof.
  destruct (create_invoice_stock form now site) as (db3 & Hs & [->|(k & self & ->)]).
  - apply evolves_same, Hs.
  - eapply evolves_trans; [apply evolves_same, Hs | apply finalize_and_pay_evolves].
Qed.

Lemma customers_keep_db r site :
  match r with
  | to_add_customer _ | to_edit_customer _ _ => site_db (handle r site) = site_db site
  | _ => True
  end.
Proof.
  destruct r; try exact I; cbn [handle].
  - unfold add_customer. destruct (customer_method form); reflexivity.
  - unfold edit_customer. destruct (customers site !! pk); [|reflexivity].
    destruct (customer_method form); reflexivity.
Qed.

Lemma handle_evolves r site : evolves (site_db site) (site_db (handle r site)).
Proof.
  pose proof (customers_keep_db r site) as Hc.
  destruct r; cbn [handle on_db site_db] in *; try (rewrite Hc; apply evolves_refl).
  - apply update_stock_evolves.
  - apply view_invoice_evolves.
  - apply low_stock_list_evolves.
  - apply add_product_evolves.
  - apply edit_product_evolves.
  - apply delete_product_evolves.
  - apply create_invoice_evolves.
Qed.

Lemma serve_evolves rs : forall site, evolves (site_db site) (site_db (serve rs site)).
Proof.
  induction rs as [|r rs IH]; intros site; [apply evolves_refl|].
  cbn [serve fold_left]. change (fold_left _ rs ?s) with (serve rs s).
  eapply evolves_trans; [apply handle_evolves | apply IH].
Qed.

(** *** Quantities under every request *)

Lemma stock_same_nonneg pid db db' :
  stock_same db db' -> stock_nonneg pid db -> stock_nonneg pid db'.
Proof. intros (Hp & _ & _). apply stock_nonneg_same, Hp. Qed.

Lemma view_invoice_nonneg pid pk form now db :
  items_nonneg db -> (forall j, stock_nonneg j db) ->
  stock_nonneg pid (db_of (view_invoice pk form now db)).
Proof.
  intros Hi Hdb.
  destruct (view_invoice_stock pk form now db) as (db1 & Hend & Hbranch).
  apply (stock_same_nonneg _ _ _ Hend).
  destruct Hbranch as [Hs|[[self ->]|(_ & r & p & Hr & Hp & Hps & _)]].
  - apply (stock_same_nonneg _ _ _ Hs), Hdb.
  - apply finalize_and_pay_nonneg, Hdb.
  - eapply stock_nonneg_write; [exact Hps | | apply Hdb].
    intros _. cbn. specialize (Hi r Hr). specialize (Hdb _ _ Hp). lia.
Qed.

Lemma low_stock_list_nonneg pid form db :
  stock_nonneg pid db -> stock_nonneg pid (fst (fst (low_stock_list form db))).
Proof.
  intros Hdb. unfold low_stock_list.
  destruct (restock_method form); [exact Hdb|].
  destruct (has_quick_restock form); [|exact Hdb].
  destruct (products db !! restock_product_id form) as [p|] eqn:Hp; [|exact Hdb].
  destruct (Z.ltb_spec 0 (restock_quantity form)); [|exact Hdb]. cbn [fst].
  eapply stock_nonneg_write; [reflexivity | | exact Hdb].
  intros E. cbn. rewrite E in Hp. specialize (Hdb _ Hp). lia.
Qed.

Lemma add_product_nonneg pid form db :
  0 <= form_initial_quantity form ->
  stock_nonneg pid db -> stock_nonneg pid (db_of (add_product form db)).
Proof.
  intros Hq Hdb.
  destruct (add_product_cases form db) as [->|(Hm & Hs & Hth)]; [exact Hdb|].
  destruct (add_product_accepted form db Hm Hs Hth) as [_ ->]. unfold db_of. cbn [fst].
  eapply stock_nonneg_write; [reflexivity | | exact Hdb]. intros _. exact Hq.
Qed.

Lemma edit_product_nonneg pid product_id form db :
  stock_nonneg pid db -> stock_nonneg pid (db_of (edit_product product_id form db)).
Proof.
  intros Hdb. unfold edit_product, db_of.
  destruct (products db !! product_id) as [p|] eqn:Hp; [|exact Hdb].
  destruct (edit_method form); [exact Hdb|].
  destruct (edit_threshold form <? 0); [exact Hdb|]. cbn [fst].
  eapply stock_nonneg_write; [reflexivity | | exact Hdb].
  intros E. cbn. rewrite E in Hp. exact (Hdb _ Hp).
Qed.

Lemma delete_product_nonneg pid product_id method db :
  stock_nonneg pid db -> stock_nonneg pid (db_of (delete_product product_id method db)).
Proof.
  intros Hdb. unfold delete_product, db_of.
  destruct (products db !! product_id) as [p|] eqn:Hp; [|exact Hdb].
  destruct method; [exact Hdb|]. cbn [fst].
  eapply stock_nonneg_write; [reflexivity | | exact Hdb].
  intros E. cbn. rewrite E in Hp. exact (Hdb _ Hp).
Qed.

Lemma create_invoice_nonneg pid form now site :
  stock_nonneg pid (site_db site) ->
  stock_nonneg pid (site_db (fst (fst (create_invoice form now site)))).
Proof.
  intros Hdb.
  destruct (create_invoice_stock form now site) as (db3 & Hs & [->|(k & self & ->)]).
  - apply (stock_same_nonneg _ _ _ Hs), Hdb.
  - apply finalize_and_pay_nonneg, (stock_same_nonneg _ _ _ Hs), Hdb.
Qed.

Lemma handle_nonneg r site :
  opens_no_debt r -> items_nonneg (site_db site) ->
  (forall j, stock_nonneg j (site_db site)) ->
  forall pid, stock_nonneg pid (site_db (handle r site)).
Proof.
  intros Hr Hi Hdb pid. pose proof (customers_keep_db r site) as Hc.
  destruct r; cbn [handle on_db site_db opens_no_debt] in *; try (rewrite Hc; apply Hdb).
  - apply update_stock_nonneg, Hdb.
  - apply view_invoice_nonneg; assumption.
  - apply low_stock_list_nonneg, Hdb.
  - apply add_product_nonneg; [exact Hr | apply Hdb].
  - apply edit_product_nonneg, Hdb.
  - apply delete_product_nonneg, Hdb.
  - apply create_invoice_nonneg, Hdb.
Qed.

(** *** The ledger under every request *)

Lemma unrecorded_write_any pid db db' k p p' entries :
  products db !! k = Some p ->
  products db' = <[k := p']> (products db) ->
  stock_history db' = stock_history db ++ entries ->
  ledger_total k entries = Product.quantity p' - Product.quantity p ->
  (forall j, j <> k -> ledger_total j entries = 0) ->
  unrecorded pid db' = unrecorded pid db.
Proof.
  intros Hp Hps Hhs Hk Hother. unfold unrecorded, ledger_sum.
  rewrite Hps, Hhs, ledger_total_app.
  destruct (decide (k = pid)) as [->|Hne].
  - rewrite lookup_insert_eq, Hp. cbn. f_equal. lia.
  - rewrite lookup_insert_ne by done. rewrite (Hother pid) by congruence.
    destruct (products db !! pid); cbn; [|done]. f_equal. lia.
Qed.

Lemma stock_same_unrecorded pid db db' :
  stock_same db db' -> unrecorded pid db' = unrecorded pid db.
Proof. intros (Hp & Hl & _). apply unrecorded_same; assumption. Qed.

Lemma view_invoice_reconciles pid pk form now db :
  has_delete_item form = false ->
  unrecorded pid (db_of (view_invoice pk form now db)) = unrecorded pid db.
Proof.
  intros Hkeep.
  destruct (view_invoice_stock pk form now db) as (db1 & Hend & Hbranch).
  rewrite (stock_same_unrecorded _ _ _ Hend).
  destruct Hbranch as [Hs|[[self ->]|(Hdel & _)]]; [| |congruence].
  - apply stock_same_unrecorded, Hs.
  - apply finalize_and_pay_reconciles.
Qed.

Lemma low_stock_list_reconciles pid form db :
  unrecorded pid (fst (fst (low_stock_list form db))) = unrecorded pid db.
Proof.
  unfold low_stock_list.
  destruct (restock_method form); [reflexivity|].
  destruct (has_quick_restock form); [|reflexivity].
  destruct (products db !! restock_product_id form) as [p|] eqn:Hp; [|reflexivity].
  destruct (0 <? restock_quantity form); [|reflexivity]. cbn [fst].
  eapply unrecorded_write; [exact Hp | reflexivity | reflexivity | |].
  - cbn. rewrite Z.eqb_refl. lia.
  - intros j Hj. cbn. destruct (Z.eqb_spec (restock_product_id form) j); [congruence|lia].
Qed.

Lemma edit_product_reconciles pid product_id form db :
  unrecorded pid (db_of (edit_product product_id form db)) = unrecorded pid db.
Proof.
  unfold edit_product, db_of.
  destruct (products db !! product_id) as [p|] eqn:Hp; [|reflexivity].
  destruct (edit_method form); [reflexivity|].
  destruct (edit_threshold form <? 0); [reflexivity|]. cbn [fst].
  eapply (unrecorded_write_any _ _ _ _ _ _ []); [exact Hp | reflexivity | | | reflexivity].
  - cbn. rewrite app_nil_r. reflexivity.
  - cbn. lia.
Qed.

Lemma delete_product_reconciles pid product_id method db :
  unrecorded pid (db_of (delete_product product_id method db)) = unrecorded pid db.
Proof.
  unfold delete_product, db_of.
  destruct (products db !! product_id) as [p|] eqn:Hp; [|reflexivity].
  destruct method; [reflexivity|]. cbn [fst].
  eapply (unrecorded_write_any _ _ _ _ _ _ []); [exact Hp | reflexivity | | | reflexivity].
  - cbn. rewrite app_nil_r. reflexivity.
  - cbn. lia.
Qed.

Lemma create_invoice_reconciles pid form now site :
  unrecorded pid (site_db (fst (fst (create_invoice form now site))))
  = unrecorded pid (site_db site).
Proof.
  destruct (create_invoice_stock form now site) as (db3 & Hs & [->|(k & self & ->)]).
  - apply stock_same_unrecorded, Hs.
  - rewrite finalize_and_pay_reconciles. apply stock_same_unrecorded, Hs.
Qed.

Lemma add_product_reconciles pid form db :
  unrecorded pid (db_of (add_product form db)) = unrecorded pid db
  \/ (products db !! pid = None
      /\ exists p', products (db_of (add_product form db)) !! pid = Some p'
           /\ Product.quantity p'
              = ledger_sum pid (db_of (add_product form db)) - ledger_sum pid db).
Proof.
  destruct (add_product_cases form db) as [->|(Hm & Hs & Hth)]; [left; reflexivity|].
  destruct (add_product_accepted form db Hm Hs Hth) as [Hfresh ->]. unfold db_of. cbn [fst].
  set (k := next_key (fst <$> map_to_list (products db))) in *.
  destruct (decide (pid = k)) as [->|Hne].
  - right. split; [exact Hfresh|]. eexists. cbn. rewrite lookup_insert_eq.
    split; [reflexivity|]. unfold ledger_sum. cbn. rewrite ledger_total_app.
    destruct (Z.eqb_spec (form_initial_quantity form) 0) as [Hz|Hz]; cbn.
    + lia.
    + rewrite Z.eqb_refl. lia.
  - left. unfold unrecorded, ledger_sum. cbn.
    rewrite lookup_insert_ne by congruence. rewrite ledger_total_app.
    assert (Hzero : forall entries,
              (forall h, In h entries -> StockHistory.product h = k) ->
              ledger_total pid entries = 0).
    { induction entries as [|h rest IH]; intros Hall; [reflexivity|].
      cbn [ledger_total]. rewrite IH by (intros h0 Hh0; apply Hall; right; exact Hh0).
      rewrite (Hall h (or_introl eq_refl)).
      destruct (Z.eqb_spec k pid); [congruence|lia]. }
    match goal with
    | |- context [ledger_total pid (if ?c then ?a else ?b)] =>
        rewrite (Hzero (if c then a else b))
    end.
    + destruct (products db !! pid); cbn; [|reflexivity]. f_equal. lia.
    + destruct (form_initial_quantity form =? 0); intros h Hh; [destruct Hh|].
      destruct Hh as [<-|[]]. reflexivity.
Qed.

Lemma handle_reconciles r site pid :
  keeps_items r ->
  unrecorded pid (site_db (handle r site)) = unrecorded pid (site_db site)
  \/ (products (site_db site) !! pid = None
      /\ exists p', products (site_db (handle r site)) !! pid = Some p'
           /\ Product.quantity p'
              = ledger_sum pid (site_db (handle r site)) - ledger_sum pid (site_db site)).
Proof.
  intros Hr. pose proof (customers_keep_db r site) as Hc.
  destruct r; cbn [handle on_db site_db keeps_items] in *;
    try (left; rewrite Hc; reflexivity).
  - left. apply update_stock_reconciles.
  - left. apply view_invoice_reconciles, Hr.
  - left. apply low_stock_list_reconciles.
  - apply add_product_reconciles.
  - left. apply edit_product_reconciles.
  - left. apply delete_product_reconciles.
  - left. apply create_invoice_reconciles.
Qed.

Lemma ledger_total_absent k entries :
  (forall h, In h entries -> StockHistory.product h <> k) -> ledger_total k entries = 0.
Proof.
  induction entries as [|h rest IH]; intros Hall; [reflexivity|].
  cbn [ledger_total]. rewrite IH by (intros h0 Hh0; apply Hall; right; exact Hh0).
  destruct (Z.eqb_spec (StockHistory.product h) k) as [E|_]; [|lia].
  exfalso. exact (Hall h (or_introl eq_refl) E).
Qed.

Lemma evolves_ledger_known db db' : evolves db db' -> ledger_known db -> ledger_known db'.
Proof.
  intros ((entries & Hl & Hnew) & Hkept & _) Hknown h Hh.
  rewrite Hl in Hh. apply in_app_or in Hh as [Hh|Hh]; [|auto].
  destruct (Hknown h Hh) as [p Hp]. destruct (Hkept _ _ Hp) as (p' & Hp' & _).
  rewrite Hp'. eauto.
Qed.

Lemma handle_balanced r site :
  keeps_items r -> balanced (site_db site) -> balanced (site_db (handle r site)).
Proof.
  intros Hr [Hknown Hbal]. split.
  - eapply evolves_ledger_known; [apply handle_evolves | exact Hknown].
  - intros k p' Hp'.
    destruct (handle_reconciles r site k Hr) as [Heq|(Hnone & p'' & Hp'' & Hq)].
    + unfold unrecorded in Heq. rewrite Hp' in Heq.
      destruct (products (site_db site) !! k) as [p|] eqn:Hp; [|discriminate].
      cbn in Heq. injection Heq as Heq. specialize (Hbal _ _ Hp). lia.
    + assert (p'' = p') by congruence. subst p''. rewrite Hq.
      unfold ledger_sum at 2. rewrite ledger_total_absent; [lia|].
      intros h Hh E. destruct (Hknown h Hh) as [p Hp]. congruence.
Qed.

(** *** What no sequence of requests does *)

Ltac each_request :=
  repeat (constructor; [cbn; first [exact I | reflexivity | lia]|]); try constructor.

(** X1. The ledger is only ever appended to: after any sequence of
    requests to the views, the entries that were there are still there,
    unchanged and in their order, before whatever was added. *)
Theorem ledger_is_append_only rs site :
  exists entries,
    stock_history (site_db (serve rs site)) = stock_history (site_db site) ++ entries.
Proof.
  destruct (serve_evolves rs site) as ((entries & Hl & _) & _). eauto.
Qed.

(** X2. No request removes a product or changes its SKU: a product of
    the table is still found under its key, with its SKU, after any
    sequence of requests; [delete_product] only switches it off. *)
Theorem products_stay_under_their_sku rs site k p :
  products (site_db site) !! k = Some p ->
  exists p',
    products (site_db (serve rs site)) !! k = Some p'
    /\ Product.sku p' = Product.sku p.
Proof.
  intros Hp. destruct (serve_evolves rs site) as (_ & Hkept & _). eauto.
Qed.

Lemma products_stay_under_their_sku_witness :
  let rs := [to_delete_product 1 POST;
             to_edit_product 1 (mkEditForm POST "Chlorine 5kg" (Dec 650 (-2)) (Dec 1100 (-2)) 5);
             to_update_stock 1 (mkStockForm POST 7 "set" 1 "count")] in
  products shop !! 1 = Some chlorine
  /\ exists p',
       products (site_db (serve rs (mkSite shop ∅))) !! 1 = Some p'
       /\ Product.sku p' = "POOL-001".
Proof.
  cbv zeta. split; [reflexivity|].
  exact (products_stay_under_their_sku _ (mkSite shop ∅) 1 chlorine eq_refl).
Defined.

(** X3. SKUs stay unique: when no two products of the table share a
    SKU, none do after any sequence of requests.  [add_product] is the
    only view that writes a SKU, and it looks for it first. *)
Theorem sku_stays_unique rs site :
  sku_unique (site_db site) -> sku_unique (site_db (serve rs site)).
Proof.
  intros Hu. destruct (serve_evolves rs site) as (_ & _ & Hunique & _). auto.
Qed.

Lemma sku_stays_unique_witness :
  sku_unique (site_db opening) /\ sku_unique (site_db (serve first_day opening)).
Proof.
  assert (Hopen : sku_unique (site_db opening)).
  { intros j k p q Hj. cbn in Hj. rewrite lookup_empty in Hj. discriminate. }
  split; [exact Hopen|].
  exact (sku_stays_unique first_day opening Hopen).
Defined.

Lemma serve_items_nonneg rs site :
  items_nonneg (site_db site) -> items_nonneg (site_db (serve rs site)).
Proof.
  intros Hi. destruct (serve_evolves rs site) as (_ & _ & _ & Hitems). auto.
Qed.

Lemma handle_items_nonneg r site :
  items_nonneg (site_db site) -> items_nonneg (site_db (handle r site)).
Proof.
  intros Hi. destruct (handle_evolves r site) as (_ & _ & _ & Hitems). auto.
Qed.

(** X4. No product is ever overdrawn: when every product holds a
    quantity that is not negative and no item asks a negative quantity,
    the same holds of every product after any sequence of requests to
    the views, the removal of items from invoices included, as long as
    no product is added with a negative initial quantity. *)
Theorem no_request_overdraws_stock rs : forall site pid,
  Forall opens_no_debt rs ->
  items_nonneg (site_db site) ->
  (forall j, stock_nonneg j (site_db site)) ->
  stock_nonneg pid (site_db (serve rs site)).
Proof.
  induction rs as [|r rs IH]; intros site pid Hrs Hi Hdb; [apply Hdb|].
  inversion Hrs as [|? ? Hr Hrest]; subst.
  cbn [serve fold_left]. change (fold_left _ rs ?s) with (serve rs s).
  apply IH; [exact Hrest | apply handle_items_nonneg, Hi |].
  intros j. apply handle_nonneg; assumption.
Qed.

Lemma no_request_overdraws_stock_witness :
  let rs := first_day ++
            [to_view_invoice 1 (mkInvoiceForm POST 7 false true false 1 2 0) noon;
             to_view_invoice 1 (mkInvoiceForm POST 7 false false true 0 0 3) noon;
             to_update_stock 1 (mkStockForm POST 7 "remove" 4 "")] in
  Forall opens_no_debt rs
  /\ items_nonneg (site_db opening)
  /\ (forall j, stock_nonneg j (site_db opening))
  /\ stock_nonneg 1 (site_db (serve rs opening))
  /\ Product.quantity <$> products (site_db (serve rs opening)) !! 1 = Some 3.
Proof.
  cbv zeta.
  assert (Hrs : Forall opens_no_debt
            (first_day ++
             [to_view_invoice 1 (mkInvoiceForm POST 7 false true false 1 2 0) noon;
              to_view_invoice 1 (mkInvoiceForm POST 7 false false true 0 0 3) noon;
              to_update_stock 1 (mkStockForm POST 7 "remove" 4 "")]))
    by (unfold first_day; cbn [app]; each_request).
  assert (Hi : items_nonneg (site_db opening)).
  { intros r Hr. cbn in Hr. apply elem_of_nil in Hr. destruct Hr. }
  assert (Hdb : forall j, stock_nonneg j (site_db opening)).
  { intros j p Hp. cbn in Hp. rewrite lookup_empty in Hp. discriminate. }
  split; [exact Hrs|]. split; [exact Hi|]. split; [exact Hdb|]. split.
  - exact (no_request_overdraws_stock _ opening 1 Hrs Hi Hdb).
  - vm_compute. reflexivity.
Defined.

(** X5. The books balance: when every product holds the sum of its
    ledger deltas and the ledger names products of the table only, as in
    a shop that starts empty, the same holds after any sequence of
    requests to the views in which no item is removed from an invoice.
    New products come in with their initial stock entered in the
    ledger. *)
Theorem books_balance rs : forall site,
  Forall keeps_items rs ->
  balanced (site_db site) ->
  balanced (site_db (serve rs site)).
Proof.
  induction rs as [|r rs IH]; intros site Hrs Hbal; [exact Hbal|].
  inversion Hrs as [|? ? Hr Hrest]; subst.
  cbn [serve fold_left]. change (fold_left _ rs ?s) with (serve rs s).
  apply IH; [exact Hrest|]. apply handle_balanced; assumption.
Qed.

Lemma books_balance_witness :
  Forall keeps_items first_day
  /\ balanced (site_db opening)
  /\ balanced (site_db (serve first_day opening))
  /\ Product.quantity <$> products (site_db (serve first_day opening)) !! 1 = Some 3
  /\ ledger_sum 1 (site_db (serve first_day opening)) = 3.
Proof.
  assert (Hrs : Forall keeps_items first_day) by (unfold first_day; each_request).
  assert (Hbal : balanced (site_db opening)).
  { split.
    - intros h Hh. destruct Hh.
    - intros k p Hp. cbn in Hp. rewrite lookup_empty in Hp. discriminate. }
  split; [exact Hrs|]. split; [exact Hbal|]. split.
  - exact (books_balance first_day opening Hrs Hbal).
  - split; vm_compute; reflexivity.
Defined.

(** ** The views one by one *)

(** X6. Adding [n > 0] units to a product: the quantity becomes
    [q + n], exactly one ledger entry of kind IN with delta [n], the
    note and the user of the request is appended, and nothing else of
    the database changes. *)
Theorem add_stock_spec product_id product n note user db :
  products db !! product_id = Some product ->
  0 < n ->
  update_stock product_id (mkStockForm POST user "add" n note) db
  = (mkDB (<[product_id := Product.set_quantity product (Product.quantity product + n)]>
             (products db))
          (invoices db) (invoice_items db)
          (stock_history db ++ [StockHistory.mk product_id IN n note (Some user)]),
     [success "Stock updated!"], redirect "inventory_list").
Proof.
  intros Hp Hn. unfold update_stock. rewrite Hp. cbn [stock_method stock_quantity].
  destruct (Z.leb_spec n 0) as [?|_]; [lia|].
  unfold update_stock_body, atomic. cbn [action stock_quantity stock_note stock_user].
  cbn [String.eqb Ascii.eqb Bool.eqb].
  unfold_monad. cbn.
  destruct (Z.eqb_spec n 0) as [?|_]; [lia|]. reflexivity.
Qed.

Lemma add_stock_spec_witness :
  update_stock 2 (mkStockForm POST 7 "add" 20 "delivery") shop
  = (mkDB (<[2 := Product.set_quantity skimmer 25]> (products shop))
          (invoices shop) (invoice_items shop)
          [StockHistory.mk 2 IN 20 "delivery" (Some 7)],
     [success "Stock updated!"], redirect "inventory_list").
Proof.
  apply (add_stock_spec 2 skimmer 20 "delivery" 7 shop); [reflexivity | lia].
Defined.

(** X7. The quick restock of [low_stock_list]: for a product of the
    table and [n > 0] the quantity becomes [q + n] and one ledger entry
    of kind IN with delta [n] and the note "Quick restock" is appended;
    for [n <= 0] nothing changes and no message is left; both answer
    with a redirect to the list. *)
Theorem quick_restock_spec product_id product n user db :
  products db !! product_id = Some product ->
  (0 < n ->
   low_stock_list (mkRestockForm POST user true product_id n) db
   = (mkDB (<[product_id := Product.set_quantity product (Product.quantity product + n)]>
              (products db))
           (invoices db) (invoice_items db)
           (stock_history db ++ [StockHistory.mk product_id IN n "Quick restock" (Some user)]),
      [notice (success ("Restocked " ++ py.str n ++ " of " ++ Product.name product)%string)],
      redirect "low_stock_list"))
  /\ (n <= 0 ->
      low_stock_list (mkRestockForm POST user true product_id n) db
      = (db, [], redirect "low_stock_list")).
Proof.
  intros Hp. unfold low_stock_list.
  cbn [restock_method has_quick_restock restock_product_id restock_quantity restock_user].
  rewrite Hp. split; intros Hn.
  - destruct (Z.ltb_spec 0 n) as [_|?]; [reflexivity | lia].
  - destruct (Z.ltb_spec 0 n) as [?|_]; [lia | reflexivity].
Qed.

Lemma quick_restock_spec_witness :
  products shop !! 2 = Some skimmer
  /\ low_stock_list (mkRestockForm POST 7 true 2 12) shop
     = (mkDB (<[2 := Product.set_quantity skimmer 17]> (products shop))
             (invoices shop) (invoice_items shop)
             [StockHistory.mk 2 IN 12 "Quick restock" (Some 7)],
        [notice (success "Restocked 12 of Skimmer")], redirect "low_stock_list")
  /\ low_stock_list (mkRestockForm POST 7 true 2 (-4)) shop
     = (shop, [], redirect "low_stock_list").
Proof.
  destruct (quick_restock_spec 2 skimmer 12 7 shop eq_refl) as [Hyes _].
  destruct (quick_restock_spec 2 skimmer (-4) 7 shop eq_refl) as [_ Hno].
  split; [reflexivity|]. split.
  - apply Hyes. lia.
  - apply Hno. lia.
Defined.

(** X8. A quick restock of a product that does not exist changes
    nothing: the [Http404] of the lookup is raised inside the [try] and
    ends as the message "Error: ..." with a redirect to the list, not
    as a page not found. *)
Theorem quick_restock_of_missing_product product_id n user db :
  products db !! product_id = None ->
  low_stock_list (mkRestockForm POST user true product_id n) db
  = (db, [error_raised "Error: " (Http404_raised "Product")], redirect "low_stock_list").
Proof.
  intros Hp. unfold low_stock_list.
  cbn [restock_method has_quick_restock restock_product_id]. rewrite Hp. reflexivity.
Qed.

Lemma quick_restock_of_missing_product_witness :
  low_stock_list (mkRestockForm POST 7 true 9 3) shop
  = (shop, [error_raised "Error: " (Http404_raised "Product")], redirect "low_stock_list").
Proof.
  apply (quick_restock_of_missing_product 9 3 7 shop). reflexivity.
Defined.

(** X9. [add_product] refuses a SKU that a product of the table
    carries, a product that was switched off included: nothing is
    written, the message names the SKU, and the answer is a redirect to
    the form. *)
Theorem add_product_refuses_known_sku form k p db :
  product_method form = POST ->
  products db !! k = Some p ->
  Product.sku p = form_sku form ->
  add_product form db
  = (db, [error ("SKU '" ++ form_sku form ++ "' already exists.")%string],
     redirect "add_product").
Proof.
  intros Hm Hp Hsku. unfold add_product. rewrite Hm.
  assert (Hex : sku_exists (form_sku form) db = true) by (apply sku_exists_spec; eauto).
  rewrite Hex. reflexivity.
Qed.

Lemma add_product_refuses_known_sku_witness :
  let form := mkProductForm POST 7 "POOL-002" "Net" 3 (Dec 100 (-2)) (Dec 200 (-2)) 1 in
  let db := db_of (delete_product 2 POST shop) in
  Product.is_active <$> products db !! 2 = Some false
  /\ add_product form db
     = (db, [error "SKU 'POOL-002' already exists."], redirect "add_product").
Proof.
  cbv zeta. split; [vm_compute; reflexivity|].
  eapply (add_product_refuses_known_sku
            (mkProductForm POST 7 "POOL-002" "Net" 3 (Dec 100 (-2)) (Dec 200 (-2)) 1) 2);
    [reflexivity | vm_compute; reflexivity | reflexivity].
Defined.

(** X10. [add_product] takes the initial quantity as it comes, a
    negative one too: with a new SKU and a threshold that is not
    negative the product is stored under a key that was free, active
    and holding the quantity of the form, every other product is left
    alone, and unless the quantity is zero one ledger entry of kind IN
    with that quantity and the note "Initial stock" is appended. *)
Theorem add_product_spec form db :
  product_method form = POST ->
  (forall k p, products db !! k = Some p -> Product.sku p <> form_sku form) ->
  0 <= form_threshold form ->
  exists k,
    let db' := db_of (add_product form db) in
    products db !! k = None
    /\ products db' !! k
       = Some (Product.mk (form_sku form) (form_name form) (form_initial_quantity form)
                 (form_cost_price form) (form_selling_price form) (form_threshold form) true)
    /\ (forall j, j <> k -> products db' !! j = products db !! j)
    /\ stock_history db'
       = stock_history db ++
           (if form_initial_quantity form =? 0 then []
            else [StockHistory.mk k IN (form_initial_quantity form) "Initial stock"
                    (Some (product_user form))])
    /\ invoices db' = invoices db
    /\ invoice_items db' = invoice_items db.
Proof.
  intros Hm Hnew Hth.
  assert (Hs : sku_exists (form_sku form) db = false).
  { destruct (sku_exists (form_sku form) db) eqn:Hex; [|reflexivity].
    apply sku_exists_spec in Hex as (k & p & Hp & Hsku). exfalso. exact (Hnew _ _ Hp Hsku). }
  destruct (add_product_accepted form db Hm Hs Hth) as [Hfresh Heq].
  exists (next_key (fst <$> map_to_list (products db))).
  cbv zeta. rewrite Heq. unfold db_of. cbn [fst products stock_history invoices invoice_items].
  repeat split; [exact Hfresh | apply lookup_insert_eq |].
  intros j Hj. apply lookup_insert_ne. congruence.
Qed.

Lemma add_product_spec_witness :
  let form := mkProductForm POST 7 "POOL-003" "Net" (-3) (Dec 100 (-2)) (Dec 200 (-2)) 1 in
  exists k,
    products shop !! k = None
    /\ Product.quantity <$> products (db_of (add_product form shop)) !! k = Some (-3)
    /\ stock_history (db_of (add_product form shop))
       = [StockHistory.mk k IN (-3) "Initial stock" (Some 7)].
Proof.
  cbv zeta.
  destruct (add_product_spec
              (mkProductForm POST 7 "POOL-003" "Net" (-3) (Dec 100 (-2)) (Dec 200 (-2)) 1) shop)
    as (k & Hfree & Hnew & _ & Hledger & _).
  - reflexivity.
  - intros k p Hp. vm_compute in Hp.
    destruct (decide (k = 1)) as [->|H1]; [injection Hp as <-; discriminate|].
    destruct (decide (k = 2)) as [->|H2]; [injection Hp as <-; discriminate|].
    exfalso. revert Hp. change (products shop !! k <> Some p).
    unfold shop. cbn [products].
    rewrite lookup_insert_ne by congruence. rewrite lookup_insert_ne by congruence.
    rewrite lookup_empty. discriminate.
  - cbn. lia.
  - exists k. cbv zeta in *. split; [exact Hfree|]. split.
    + rewrite Hnew. reflexivity.
    + rewrite Hledger. reflexivity.
Defined.

(** ** Saving an invoice again, and saving a new one *)

(** X11. Saving is idempotent: an invoice that [save] has just written
    can be saved again, at any later time, and neither the database nor
    the instance changes; the number is not generated a second time. *)
Theorem Invoice_save_again_changes_nothing pk self now later db db' k self' :
  Invoice_save pk self now db = (db', Ok (k, self')) ->
  Invoice_save (Some k) self' later db' = (db', Ok (k, self')).
Proof.
  intros Hsave.
  destruct (Invoice_save_result _ _ _ _ _ _ _ Hsave)
    as (Hsub & Htax & Htot & Hrate & _ & _ & (row & Hkept & Hrow) & _ & _ & Hitems & _ & _ & _
        & Hne & _).
  assert (Hsame : with_totals k db' self' = self').
  { unfold with_totals, items_of. rewrite Hitems. fold (items_of k db).
    rewrite Hrate, <- Htot, <- Htax, <- Hsub. destruct self'; reflexivity. }
  destruct (Invoice_save_explicit k self' later db' Hne) as (row' & Hkept' & ->).
  - eauto.
  - rewrite Hsame. eauto.
  - rewrite Hsame in *. assert (row' = row) as -> by congruence.
    rewrite (insert_id _ _ _ Hrow). destruct db'; reflexivity.
Qed.

Lemma Invoice_save_again_changes_nothing_witness :
  let first := Invoice_save (Some 1) draft noon shop in
  exists db' self',
    first = (db', Ok (1, self'))
    /\ Invoice_save (Some 1) self' (mkDateTime 2025 1 2 9 0 0) db' = (db', Ok (1, self')).
Proof.
  cbv zeta.
  destruct (Invoice_save_numbered 1 draft noon shop) as (db' & self' & Hfirst);
    [discriminate | eexists; reflexivity | eexists; reflexivity |].
  exists db', self'. split; [exact Hfirst|].
  exact (Invoice_save_again_changes_nothing _ _ _ _ _ _ _ _ Hfirst).
Defined.

(** X12. Saving a new invoice writes one row under a key that was
    free, the row that the columns keep of the instance, with a number
    that no invoice of the table carries: no invoice of the table is
    overwritten or changed, and products, items and ledger are left as
    they were. *)
Theorem Invoice_save_new_takes_free_key self now db db' k self' :
  Invoice_save None self now db = (db', Ok (k, self')) ->
  invoices db !! k = None
  /\ (exists row, Invoice.kept self' = Some row /\ invoices db' !! k = Some row)
  /\ (forall j inv, invoices db !! j = Some inv ->
        Invoice.invoice_number inv <> Invoice.invoice_number self')
  /\ (forall j, j <> k -> invoices db' !! j = invoices db !! j)
  /\ products db' = products db
  /\ invoice_items db' = invoice_items db
  /\ stock_history db' = stock_history db.
Proof.
  intros Hsave.
  destruct (Invoice_save_result _ _ _ _ _ _ _ Hsave)
    as (_ & _ & _ & _ & _ & _ & Hrow & Hothers & Hp & Hitems & Hl & _ & _ & _ & Hnew & _).
  destruct (Hnew eq_refl) as [Hk Hfree].
  rewrite Hk at 1. split; [apply next_key_fresh|]. split; [exact Hrow|].
  split; [|auto].
  intros j inv Hj Heq.
  assert (Htaken : number_taken (Invoice.invoice_number self') db = true).
  { unfold number_taken. apply existsb_exists. exists (j, inv). split.
    - apply list_elem_of_In, elem_of_map_to_list. exact Hj.
    - apply String.eqb_eq. exact Heq. }
  congruence.
Qed.

Lemma Invoice_save_new_takes_free_key_witness :
  exists db' self' row,
    Invoice_save None (new_invoice None 7 noon) noon shop = (db', Ok (2, self'))
    /\ Invoice.invoice_number self' = "INV-20250101-0002"
    /\ invoices shop !! 2 = None
    /\ invoices db' !! 2 = Some row
    /\ Invoice.kept self' = Some row
    /\ invoices db' !! 1 = invoices shop !! 1.
Proof.
  destruct (Invoice_save None (new_invoice None 7 noon) noon shop)
    as [db' [[k self']|e]] eqn:Hsave; [|vm_compute in Hsave; discriminate].
  destruct (Invoice_save_new_takes_free_key _ _ _ _ _ _ Hsave)
    as (Hfree & (row & Hkept & Hrow) & _ & Hothers & _).
  assert (Hk : k = 2 /\ Invoice.invoice_number self' = "INV-20250101-0002").
  { vm_compute in Hsave. injection Hsave as _ <- <-. split; reflexivity. }
  destruct Hk as [-> Hnumber].
  exists db', self', row. repeat split; try assumption. apply Hothers. lia.
Defined.

(** ** The numbers of the invoices *)

Lemma str_append_assoc (a b c : string) : ((a ++ b) ++ c = a ++ (b ++ c))%string.
Proof. induction a as [|x a IH]; [reflexivity|]. exact (f_equal (String x) IH). Qed.

Lemma startswith_append p s : py.startswith (p ++ s)%string p = true.
Proof.
  unfold py.startswith. induction p as [|x p IH]; [destruct s; reflexivity|].
  change (String x p ++ s)%string with (String x (p ++ s)). simpl.
  destruct (ascii_dec x x); [exact IH | congruence].
Qed.

Lemma str_leb_append p a b : String.leb (p ++ a) (p ++ b) = String.leb a b.
Proof.
  unfold String.leb. induction p as [|x p IH]; [reflexivity|].
  change (String x p ++ a)%string with (String x (p ++ a)).
  change (String x p ++ b)%string with (String x (p ++ b)).
  simpl. rewrite ascii_compare_refl. exact IH.
Qed.

Lemma max_of_spec l m :
  py.max_of l = Some m -> In m l /\ forall y, In y l -> String.leb y m = true.
Proof.
  destruct l as [|x xs]; [discriminate|]. unfold py.max_of. intros [= <-].
  apply fold_str_max_spec.
Qed.

Lemma digit_is_no_dash c : py.is_digit c = true -> Ascii.eqb c "-" = false.
Proof.
  intros Hd. destruct (Ascii.eqb_spec c "-") as [->|]; [discriminate Hd | reflexivity].
Qed.

Lemma split_digits s : py.all_digits s = true -> py.split "-" s = [s].
Proof.
  induction s as [|c s IH]; [reflexivity|].
  cbn [py.all_digits py.split]. intros H. apply andb_prop in H as [Hc Hs].
  rewrite (digit_is_no_dash c Hc), (IH Hs). reflexivity.
Qed.

Lemma split_not_nil sep s : py.split sep s <> [].
Proof.
  destruct s as [|c s]; cbn [py.split]; [discriminate|].
  destruct (Ascii.eqb c sep); [discriminate|]. destruct (py.split sep s); discriminate.
Qed.

Lemma last_cons {A} (x : A) l d : l <> [] -> List.last (x :: l) d = List.last l d.
Proof. destruct l; [congruence | reflexivity]. Qed.

(** The text after the last dash. *)
Lemma last_of_split_after_dash p s :
  exists w ws,
    py.split "-" (p ++ String "-" s) = w :: ws
    /\ ws <> []
    /\ List.last ws EmptyString = py.last_of (py.split "-" s).
Proof.
  induction p as [|c p IH].
  - cbn [String.append py.split]. cbn [Ascii.eqb Bool.eqb].
    exists EmptyString, (py.split "-" s). repeat split. apply split_not_nil.
  - destruct IH as (w & ws & Hsplit & Hne & Hlast).
    change (String c p ++ String "-" s)%string with (String c (p ++ String "-" s)).
    cbn [py.split]. rewrite Hsplit.
    destruct (Ascii.eqb c "-").
    + exists EmptyString, (w :: ws). repeat split; [discriminate|].
      rewrite last_cons by exact Hne. exact Hlast.
    + exists (String c w), ws. repeat split; assumption.
Qed.

Lemma number_of_suffix p n :
  0 <= n ->
  py.int (py.last_of (py.split "-" (p ++ String "-" (py.format_04d n)))) = Some n.
Proof.
  intros Hn. destruct (format_04d_reads_back n Hn) as (Hread & Hdigits & _).
  destruct (last_of_split_after_dash p (py.format_04d n)) as (w & ws & -> & Hne & Hlast).
  unfold py.last_of at 1. rewrite last_cons by exact Hne. rewrite Hlast.
  rewrite (split_digits _ Hdigits). exact Hread.
Qed.

Lemma four_digits_in_order n :
  0 <= n < 9999 -> String.leb (py.format_04d (n + 1)) (py.format_04d n) = false.
Proof.
  intros Hn.
  apply negb_true_iff.
  apply (range_check (fun n => negb (String.leb (py.format_04d (n + 1)) (py.format_04d n)))
           0 9999); [vm_compute; reflexivity | lia].
Qed.

Lemma number_taken_spec number db :
  number_taken number db = true
  <-> exists k inv, invoices db !! k = Some inv /\ Invoice.invoice_number inv = number.
Proof.
  unfold number_taken. rewrite existsb_exists. split.
  - intros ([k inv] & Hin & Heq). apply list_elem_of_In, elem_of_map_to_list in Hin.
    apply String.eqb_eq in Heq. eauto.
  - intros (k & inv & Hk & Heq). exists (k, inv). split.
    + apply list_elem_of_In, elem_of_map_to_list. exact Hk.
    + apply String.eqb_eq. exact Heq.
Qed.

(** A column keeps nothing of nothing. *)
Lemma column_zero e : column 12 2 (Dec 0 e) = Some (Dec 0 (-2)).
Proof.
  unfold column. cbn [coef expo]. change (Z.abs 0) with 0. change (Z.sgn 0) with 0.
  destruct (Z.ltb_spec 0 (- (2) - e)) as [Hk|_]; [|reflexivity].
  assert (HK : 0 < 10 ^ (- (2) - e)) by (apply Z.pow_pos_nonneg; lia).
  unfold round_half_even. rewrite Z.div_0_l, Z.mod_0_l by lia. change (2 * 0) with 0.
  destruct (Z.ltb_spec (10 ^ (- (2) - e)) 0) as [?|_]; [lia|]. cbn [orb].
  destruct (Z.eqb_spec 0 (10 ^ (- (2) - e))) as [?|_]; [lia|]. reflexivity.
Qed.

(** The totals of an invoice without items go into their columns. *)
Lemma kept_without_items k db self :
  items_of k db = [] ->
  is_Some (Invoice.kept self) ->
  is_Some (Invoice.kept (with_totals k db self)).
Proof.
  intros Hnone [row Hrow]. unfold with_totals. rewrite Hnone.
  change (decimal.sum ((fun r => InvoiceItem.line_total (snd r)) <$> [])) with (Dec 0 0).
  destruct (div_100 (Invoice.tax_rate self)) as [rc re] eqn:Hdiv.
  rewrite mul_exact by (cbn [coef]; unfold prec; rewrite Z.mul_0_l; cbn; lia).
  cbn [coef expo]. rewrite Z.mul_0_l.
  rewrite add_exact
    by (cbv zeta; cbn [coef expo]; rewrite !Z.mul_0_l; unfold prec; cbn; lia).
  cbn [coef expo]. rewrite !Z.mul_0_l. cbn [Z.add].
  eexists. eapply kept_set_totals; [exact Hrow | apply column_zero ..].
Qed.

(** What [objects.create] does once the number is known. *)
Lemma Invoice_create_with_number self now db number :
  Invoice.invoice_number self = "" ->
  _generate_invoice_number now db = (db, Ok number) ->
  is_Some (Invoice.kept self) ->
  (number_taken number db = true ->
   Invoice_create self now db = (db, Raise (IntegrityError "invoice_number")))
  /\ (number_taken number db = false ->
      is_Some (Invoice.kept
                 (with_totals (next_key (fst <$> map_to_list (invoices db))) db self)) ->
      exists db' k saved,
        Invoice_create self now db = (db', Ok (k, saved))
        /\ Invoice_save None self now db = (db', Ok (k, saved))
        /\ Invoice.invoice_number saved = number).
Proof.
  intros Hempty Hgen [row0 Hrow0].
  assert (Hnumber : Invoice.invoice_number (Invoice.set_invoice_number self number) = number)
    by (destruct self; reflexivity).
  assert (Hrow1 : Invoice.kept (Invoice.set_invoice_number self number)
                  = Some (Invoice.set_invoice_number row0 number)).
  { revert Hrow0. unfold Invoice.kept.
    cbn [Invoice.set_invoice_number Invoice.subtotal Invoice.tax_rate Invoice.tax_amount
         Invoice.total_amount Invoice.invoice_number Invoice.customer Invoice.created_by
         Invoice.date_created Invoice.is_paid Invoice.paid_at Invoice.notes].
    destruct (column 12 2 (Invoice.subtotal self)); [|discriminate].
    destruct (column 5 2 (Invoice.tax_rate self)); [|discriminate].
    destruct (column 12 2 (Invoice.tax_amount self)); [|discriminate].
    destruct (column 12 2 (Invoice.total_amount self)); [|discriminate].
    intros [= <-]. reflexivity. }
  unfold Invoice_create.
  destruct (number_taken number db) eqn:Htaken.
  - split; [intros _ | discriminate].
    unfold Invoice_save. rewrite Hempty. cbn [String.eqb].
    unfold bind at 1. rewrite Hgen.
    unfold bind at 1. unfold super_save. rewrite Hrow1, Hnumber, Htaken. reflexivity.
  - split; [discriminate | intros _ [row Hrow]].
    assert (Hsave : exists db' k saved,
              Invoice_save None self now db = (db', Ok (k, saved))
              /\ Invoice.invoice_number saved = number).
    { destruct (kept_fields _ _ Hrow)
        as (_ & _ & _ & _ & _ & _ & _ & Hsub & _ & Htax & Htotal).
      unfold with_totals in Hsub, Htax, Htotal.
      cbn [Invoice.set_totals Invoice.subtotal Invoice.tax_amount Invoice.total_amount]
        in Hsub, Htax, Htotal.
      unfold Invoice_save. rewrite Hempty. cbn [String.eqb].
      unfold bind at 1. rewrite Hgen.
      unfold bind at 1. unfold super_save. rewrite Hrow1, Hnumber, Htaken.
      cbv zeta. unfold bind at 1. unfold get_db. unfold bind at 1.
      set (k := next_key (fst <$> map_to_list (invoices db))) in *.
      change (items_of k (set_invoices db
                (<[k:=Invoice.set_invoice_number row0 number]> (invoices db))))
        with (items_of k db).
      change (Invoice.tax_rate (Invoice.set_invoice_number self number))
        with (Invoice.tax_rate self).
      unfold update_totals. rewrite Hsub, Htax, Htotal. unfold modify, ret.
      eexists _, _, _. split; [reflexivity|]. reflexivity. }
    destruct Hsave as (db' & k & saved & Hsave & Hsaved).
    exists db', k, saved. auto.
Qed.

Lemma number_shape today s :
  (("INV-" ++ today ++ "-") ++ s = ("INV-" ++ today) ++ String "-" s)%string.
Proof.
  rewrite !str_append_assoc. reflexivity.
Qed.

(** The generator when the greatest number of the day is known. *)
Lemma generate_after now db i :
  0 <= i ->
  py.max_of (filter (fun n => py.startswith n ("INV-" ++ strftime_Ymd now ++ "-") = true)
               ((fun r => Invoice.invoice_number (snd r)) <$> map_to_list (invoices db)))
  = Some (("INV-" ++ strftime_Ymd now ++ "-") ++ py.format_04d i)%string ->
  _generate_invoice_number now db
  = (db, Ok (("INV-" ++ strftime_Ymd now ++ "-") ++ py.format_04d (i + 1))%string).
Proof.
  intros Hi Hmax. unfold _generate_invoice_number, bind, get_db. rewrite Hmax.
  rewrite number_shape.
  change (("INV-" ++ strftime_Ymd now) ++ String "-" (py.format_04d i))%string
    with (String "I" (("NV-" ++ strftime_Ymd now) ++ String "-" (py.format_04d i))).
  cbv beta iota zeta.
  change (String "I" (("NV-" ++ strftime_Ymd now) ++ String "-" (py.format_04d i)))
    with (("INV-" ++ strftime_Ymd now) ++ String "-" (py.format_04d i))%string.
  rewrite (number_of_suffix _ i Hi). reflexivity.
Qed.

(** While the numbers of the day are four-digit numbers below 9999, the
    generated number is not in the table. *)
Lemma generated_number_free now db :
  let prefix := ("INV-" ++ strftime_Ymd now ++ "-")%string in
  (forall n, numbered db prefix n ->
     exists i, 0 <= i < 9999 /\ n = (prefix ++ py.format_04d i)%string) ->
  exists number,
    _generate_invoice_number now db = (db, Ok number)
    /\ py.startswith number prefix = true
    /\ number_taken number db = false.
Proof.
  cbv zeta. intros Hshape.
  set (prefix := ("INV-" ++ strftime_Ymd now ++ "-")%string) in *.
  destruct (py.max_of (filter (fun n => py.startswith n prefix = true)
              ((fun r => Invoice.invoice_number (snd r)) <$> map_to_list (invoices db))))
    as [last|] eqn:Hmax.
  - destruct (max_of_spec _ _ Hmax) as [Hin Hup].
    apply numbered_candidates in Hin. destruct (Hshape _ Hin) as (i & Hi & ->).
    exists (prefix ++ py.format_04d (i + 1))%string. split; [|split].
    + apply generate_after; [lia | exact Hmax].
    + apply startswith_append.
    + destruct (number_taken _ db) eqn:Htaken; [|reflexivity]. exfalso.
      apply number_taken_spec in Htaken as (k & inv & Hk & Hnum).
      assert (Hn : numbered db prefix (prefix ++ py.format_04d (i + 1))%string).
      { exists k, inv. repeat split; [exact Hk | exact Hnum | apply startswith_append]. }
      apply numbered_candidates, Hup in Hn. rewrite str_leb_append in Hn.
      rewrite four_digits_in_order in Hn by lia. discriminate.
  - exists (prefix ++ py.format_04d 1)%string. split; [|split].
    + unfold _generate_invoice_number, bind, get_db. fold prefix. rewrite Hmax. reflexivity.
    + apply startswith_append.
    + destruct (number_taken _ db) eqn:Htaken; [|reflexivity]. exfalso.
      apply number_taken_spec in Htaken as (k & inv & Hk & Hnum).
      assert (Hn : numbered db prefix (prefix ++ py.format_04d 1)%string).
      { exists k, inv. repeat split; [exact Hk | exact Hnum | apply startswith_append]. }
      apply numbered_candidates in Hn.
      destruct (filter _ _) as [|x xs]; [destruct Hn | discriminate Hmax].
Qed.

(** No item waits under the key of a new invoice when every item
    belongs to an invoice of the table. *)
Lemma no_items_under_new_key db :
  (forall r, r ∈ invoice_items db -> is_Some (invoices db !! InvoiceItem.invoice (snd r))) ->
  items_of (next_key (fst <$> map_to_list (invoices db))) db = [].
Proof.
  intros Hfk.
  destruct (items_of (next_key (fst <$> map_to_list (invoices db))) db) as [|r rest] eqn:Hits;
    [reflexivity|].
  exfalso.
  assert (Hr : r ∈ items_of (next_key (fst <$> map_to_list (invoices db))) db)
    by (rewrite Hits; apply elem_of_cons; left; reflexivity).
  unfold items_of in Hr. apply list_elem_of_filter in Hr as [Hkey Hr].
  destruct (Hfk r Hr) as [inv Hinv]. rewrite Hkey, next_key_fresh in Hinv. discriminate.
Qed.

(** X13. Invoice numbers stay unique: while every invoice number of the
    day in the table is the prefix of the day followed by a four-digit
    number below 9999, [Invoice.objects.create] of an instance whose
    amounts go into their columns succeeds, every item belonging to an
    invoice of the table, and the new invoice gets a number of the day
    that no invoice of the table carries. *)
Theorem new_invoice_gets_a_new_number self now db :
  let prefix := ("INV-" ++ strftime_Ymd now ++ "-")%string in
  Invoice.invoice_number self = "" ->
  (forall n, numbered db prefix n ->
     exists i, 0 <= i < 9999 /\ n = (prefix ++ py.format_04d i)%string) ->
  is_Some (Invoice.kept self) ->
  (forall r, r ∈ invoice_items db -> is_Some (invoices db !! InvoiceItem.invoice (snd r))) ->
  exists db' k saved,
    Invoice_create self now db = (db', Ok (k, saved))
    /\ (exists row, Invoice.kept saved = Some row /\ invoices db' !! k = Some row)
    /\ py.startswith (Invoice.invoice_number saved) prefix = true
    /\ forall j inv, invoices db !! j = Some inv ->
         Invoice.invoice_number inv <> Invoice.invoice_number saved.
Proof.
  cbv zeta. intros Hempty Hshape Hkept Hfk.
  destruct (generated_number_free now db Hshape) as (number & Hgen & Hpre & Hfree).
  destruct (Invoice_create_with_number self now db number Hempty Hgen Hkept) as [_ Hok].
  destruct (Hok Hfree) as (db' & k & saved & Hcreate & Hsave & Hnumber).
  { apply kept_without_items; [apply no_items_under_new_key, Hfk | exact Hkept]. }
  exists db', k, saved. rewrite Hnumber. repeat split; [exact Hcreate | | exact Hpre |].
  - destruct (Invoice_save_result _ _ _ _ _ _ _ Hsave) as (_ & _ & _ & _ & _ & _ & Hrow & _).
    exact Hrow.
  - intros j inv Hj Heq.
    assert (Htaken : number_taken number db = true) by (apply number_taken_spec; eauto).
    congruence.
Qed.

Lemma new_invoice_gets_a_new_number_witness :
  exists db' k saved,
    Invoice_create (new_invoice None 7 noon) noon shop = (db', Ok (k, saved))
    /\ Invoice.invoice_number saved = "INV-20250101-0002"
    /\ forall j inv, invoices shop !! j = Some inv ->
         Invoice.invoice_number inv <> Invoice.invoice_number saved.
Proof.
  destruct (new_invoice_gets_a_new_number (new_invoice None 7 noon) noon shop)
    as (db' & k & saved & Hcreate & _ & _ & Hnew).
  - reflexivity.
  - intros n (k & inv & Hk & <- & _).
    destruct (decide (k = 1)) as [->|H1].
    + vm_compute in Hk. injection Hk as <-. exists 1. split; [lia | reflexivity].
    + unfold shop in Hk. cbn [invoices] in Hk.
      rewrite lookup_insert_ne, lookup_empty in Hk by congruence. discriminate.
  - eexists. reflexivity.
  - intros r Hr. vm_compute in Hr. apply list_elem_of_In in Hr.
    destruct Hr as [<-|[<-|[]]]; eexists; reflexivity.
  - exists db', k, saved. split; [exact Hcreate|]. split; [|exact Hnew].
    vm_compute in Hcreate. injection Hcreate as _ _ <-. reflexivity.
Defined.

Lemma up_to_10000_below_9999_in_order i :
  0 <= i <= 10000 -> String.leb (py.format_04d i) (py.format_04d 9999) = true.
Proof.
  intros Hi.
  apply (range_check (fun i => String.leb (py.format_04d i) (py.format_04d 9999)) 0 10001);
    [vm_compute; reflexivity | lia].
Qed.

(** X14. The numbers of a day run out: once the invoices of the day
    carry the numbers up to 10000, the generator reads "9999" as the
    greatest of them, in string order, and proposes 10000 again; the
    unique column refuses it, so every further [create_invoice] of that
    day ends in the message "Error creating invoice: ..." and writes
    nothing. *)
Theorem create_invoice_stuck_after_10000 form now site :
  let prefix := ("INV-" ++ strftime_Ymd now ++ "-")%string in
  new_method form = POST ->
  numbered (site_db site) prefix (prefix ++ "9999")%string ->
  numbered (site_db site) prefix (prefix ++ "10000")%string ->
  (forall n, numbered (site_db site) prefix n ->
     exists i, 0 <= i <= 10000 /\ n = (prefix ++ py.format_04d i)%string) ->
  create_invoice form now site
  = (site,
     [error_raised "Error creating invoice: "
        match resolve_customer form (customers site) with
        | inl e => e
        | inr _ => base (IntegrityError "invoice_number")
        end],
     render "invoice/create_invoice.html").
Proof.
  cbv zeta. intros Hm H9999 H10000 Hshape.
  set (prefix := ("INV-" ++ strftime_Ymd now ++ "-")%string) in *.
  unfold create_invoice. rewrite Hm.
  destruct (resolve_customer form (customers site)) as [e|[cs customer]]; [reflexivity|].
  assert (Hgen : _generate_invoice_number now (site_db site)
                 = (site_db site, Ok (prefix ++ py.format_04d (9999 + 1))%string)).
  { apply generate_after; [lia|]. apply max_of_greatest.
    - apply numbered_candidates. exact H9999.
    - intros x Hx. apply numbered_candidates in Hx.
      destruct (Hshape _ Hx) as (i & Hi & ->). fold prefix.
      rewrite str_leb_append. apply up_to_10000_below_9999_in_order, Hi. }
  assert (Htaken : number_taken (prefix ++ py.format_04d (9999 + 1))%string (site_db site)
                   = true).
  { apply number_taken_spec. destruct H10000 as (k & inv & Hk & Hnum & _). eauto. }
  destruct (Invoice_create_with_number (new_invoice customer (new_user form) now) now
              (site_db site) _ eq_refl Hgen) as [Hraise _]; [eexists; reflexivity|].
  unfold create_invoice_body. rewrite (Hraise Htaken). reflexivity.
Qed.

Lemma create_invoice_stuck_after_10000_witness :
  let full := mkSite
                (set_invoices shop
                   (<[1 := Invoice.set_invoice_number draft "INV-20250101-9999"]>
                      (<[2 := Invoice.set_invoice_number draft "INV-20250101-10000"]> ∅)))
                ∅ in
  let form := mkNewInvoiceForm POST 7 absent "" "" [(number 1, number 1)] false in
  create_invoice form noon full
  = (full, [error_raised "Error creating invoice: " (base (IntegrityError "invoice_number"))],
     render "invoice/create_invoice.html").
Proof.
  cbv zeta.
  apply (create_invoice_stuck_after_10000
           (mkNewInvoiceForm POST 7 absent "" "" [(number 1, number 1)] false) noon).
  - reflexivity.
  - exists 1, (Invoice.set_invoice_number draft "INV-20250101-9999").
    repeat split; reflexivity.
  - exists 2, (Invoice.set_invoice_number draft "INV-20250101-10000").
    repeat split; reflexivity.
  - intros n (k & inv & Hk & <- & _). cbn [site_db invoices set_invoices] in Hk.
    destruct (decide (k = 1)) as [->|H1]; [|destruct (decide (k = 2)) as [->|H2]].
    + rewrite lookup_insert_eq in Hk. injection Hk as <-.
      exists 9999. split; [lia | reflexivity].
    + rewrite lookup_insert_ne, lookup_insert_eq in Hk by done. injection Hk as <-.
      exists 10000. split; [lia | reflexivity].
    + rewrite !lookup_insert_ne, lookup_empty in Hk by done. discriminate.
Defined.

(** ** The quantities of the ledger entries *)

Lemma no_entries db db' :
  stock_history db' = stock_history db ->
  forall P : StockHistory.t -> Prop,
  exists entries,
    stock_history db' = stock_history db ++ entries /\ forall h, In h entries -> P h.
Proof.
  intros Hl P. exists []. split; [rewrite Hl; symmetry; apply app_nil_r | intros h []].
Qed.

Lemma update_stock_entries product_id form site :
  exists entries,
    stock_history (db_of (update_stock product_id form (site_db site)))
    = stock_history (site_db site) ++ entries
    /\ forall h, In h entries -> entry_as_computed (to_update_stock product_id form) site h.
Proof.
  set (db := site_db site).
  unfold update_stock, db_of.
  destruct (products db !! product_id) as [p|] eqn:Hp; [|apply no_entries; reflexivity].
  destruct (stock_method form); [apply no_entries; reflexivity|].
  destruct (Z.leb_spec (stock_quantity form) 0) as [|Hpos]; [apply no_entries; reflexivity|].
  unfold update_stock_body, atomic.
  destruct (String.eqb_spec (action form) "add") as [Hadd|_].
  { unfold_monad. cbn.
    destruct (Z.eqb_spec (stock_quantity form) 0) as [?|_]; [lia|]. cbn.
    eexists. split; [reflexivity|]. intros h [<-|[]]. cbn. auto. }
  destruct (String.eqb_spec (action form) "remove") as [Hremove|_].
  { destruct (Z.ltb_spec (Product.quantity p) (stock_quantity form));
      [apply no_entries; reflexivity|].
    unfold_monad. cbn.
    destruct (Z.eqb_spec (- stock_quantity form) 0) as [?|_]; [lia|]. cbn.
    eexists. split; [reflexivity|]. intros h [<-|[]]. cbn. repeat split; [assumption|lia]. }
  destruct (String.eqb_spec (action form) "set") as [Hset|_].
  { unfold_monad. cbn.
    destruct (Z.eqb_spec (stock_quantity form - Product.quantity p) 0) as [Hz|Hnz]; cbn.
    - apply no_entries. reflexivity.
    - eexists. split; [reflexivity|]. intros h [<-|[]]. cbn.
      repeat split; [assumption | | assumption]. exists p. auto. }
  unfold_monad. cbn. apply no_entries. reflexivity.
Qed.

Lemma finalize_items_entries num user items : forall db,
  invoice_items (fst (finalize_items num user items db)) = invoice_items db
  /\ exists entries,
       stock_history (fst (finalize_items num user items db)) = stock_history db ++ entries
       /\ forall h, In h entries ->
            StockHistory.transaction_type h = OUT
            /\ exists item, item ∈ items
                 /\ StockHistory.product h = InvoiceItem.product (snd item)
                 /\ StockHistory.quantity h = - InvoiceItem.quantity (snd item).
Proof.
  induction items as [|[i item] rest IH]; intros db.
  - split; [reflexivity|]. apply no_entries. reflexivity.
  - cbn [finalize_items]. unfold_monad.
    destruct (products db !! InvoiceItem.product item) as [p|] eqn:Hp;
      [|split; [reflexivity | apply no_entries; reflexivity]].
    destruct (Z.ltb_spec (Product.quantity p) (InvoiceItem.quantity item));
      [split; [reflexivity | apply no_entries; reflexivity]|].
    cbn [fst snd].
    match goal with
    | |- context [finalize_items num user rest ?d] =>
        destruct (IH d) as (Hitems & entries & Hl & Hall)
    end.
    split; [rewrite Hitems; reflexivity|].
    eexists (_ :: entries). split.
    + rewrite Hl. cbn. rewrite <- app_assoc. reflexivity.
    + intros h [<-|Hh].
      * cbn. split; [reflexivity|]. exists (i, item). split; [left|auto].
      * destruct (Hall h Hh) as (Hout & r0 & Hr0 & Hrest). split; [exact Hout|].
        exists r0. split; [right; exact Hr0 | exact Hrest].
Qed.

Lemma finalize_and_pay_entries k self user now db :
  invoice_items (fst (finalize_and_pay k self user now db)) = invoice_items db
  /\ exists entries,
       stock_history (fst (finalize_and_pay k self user now db)) = stock_history db ++ entries
       /\ forall h, In h entries ->
            StockHistory.transaction_type h = OUT
            /\ exists item, item ∈ invoice_items db
                 /\ StockHistory.product h = InvoiceItem.product (snd item)
                 /\ StockHistory.quantity h = - InvoiceItem.quantity (snd item).
Proof.
  destruct (finalize_and_pay k self user now db) as [db' o] eqn:Hfin. cbn [fst].
  assert (Hnone : db' = db ->
            invoice_items db' = invoice_items db
            /\ exists entries,
                 stock_history db' = stock_history db ++ entries
                 /\ forall h, In h entries ->
                      StockHistory.transaction_type h = OUT
                      /\ exists item, item ∈ invoice_items db
                           /\ StockHistory.product h = InvoiceItem.product (snd item)
                           /\ StockHistory.quantity h = - InvoiceItem.quantity (snd item))
    by (intros ->; split; [reflexivity | apply no_entries; reflexivity]).
  revert Hfin. unfold finalize_and_pay.
  destruct (Invoice.is_paid self); [unfold ret; intros [= <- _]; auto|].
  unfold atomic, bind at 1 2, get_db.
  destruct (finalize_items_entries (Invoice.invoice_number self) user (items_of k db) db)
    as (Hitems & entries & Hl & Hall).
  destruct (finalize_items _ _ _ db) as [db1 [[]|e]]; [|intros [= <- _]; auto].
  cbn [fst] in *. unfold bind, ret.
  destruct (Invoice_save_writes_invoices (Some k) (Invoice.set_paid self now) now db1)
    as [ivs Hsave].
  destruct (Invoice_save _ _ _ db1) as [db2 [saved|e]]; cbn [fst] in *;
    [|intros [= <- _]; auto].
  intros [= <- _]. subst db2. cbn [invoice_items stock_history set_invoices].
  split; [exact Hitems|].
  exists entries. split; [exact Hl|].
  intros h Hh. destruct (Hall h Hh) as (Hout & r0 & Hr0 & Hrest). split; [exact Hout|].
  exists r0. split; [|exact Hrest].
  unfold items_of in Hr0. apply list_elem_of_filter in Hr0 as [_ Hr0]. exact Hr0.
Qed.

Lemma view_invoice_entries pk form now site :
  exists entries,
    stock_history (db_of (view_invoice pk form now (site_db site)))
    = stock_history (site_db site) ++ entries
    /\ forall h, In h entries -> entry_as_computed (to_view_invoice pk form now) site h.
Proof.
  destruct (view_invoice_stock pk form now (site_db site)) as (db1 & (_ & Hend & _) & Hbranch).
  rewrite Hend.
  destruct Hbranch as [(_ & Hl & _)|[[self ->]|(_ & r & p & _ & _ & _ & Hl & _)]].
  - apply no_entries, Hl.
  - destruct (finalize_and_pay_entries pk self (Some (invoice_user form)) now (site_db site))
      as (_ & entries & Hl & Hall).
    exists entries. split; [exact Hl|]. intros h Hh. exact (Hall h Hh).
  - apply no_entries, Hl.
Qed.

Lemma create_invoice_entries form now site :
  exists entries,
    stock_history (site_db (fst (fst (create_invoice form now site))))
    = stock_history (site_db site) ++ entries
    /\ forall h, In h entries -> entry_as_computed (to_create_invoice form now) site h.
Proof.
  cbn [entry_as_computed handle].
  destruct (create_invoice_stock form now site) as (db3 & (_ & Hl & _) & [->|(k & self & ->)]).
  - apply no_entries, Hl.
  - destruct (finalize_and_pay_entries k self (Some (new_user form)) now db3)
      as (Hitems & entries & Hl' & Hall).
    exists entries. split; [rewrite Hl', Hl; reflexivity|].
    intros h Hh. rewrite Hitems. exact (Hall h Hh).
Qed.

Lemma low_stock_list_entries form site :
  exists entries,
    stock_history (fst (fst (low_stock_list form (site_db site))))
    = stock_history (site_db site) ++ entries
    /\ forall h, In h entries -> entry_as_computed (to_low_stock_list form) site h.
Proof.
  unfold low_stock_list.
  destruct (restock_method form); [apply no_entries; reflexivity|].
  destruct (has_quick_restock form); [|apply no_entries; reflexivity].
  destruct (products (site_db site) !! restock_product_id form) as [p|];
    [|apply no_entries; reflexivity].
  destruct (Z.ltb_spec 0 (restock_quantity form)); [|apply no_entries; reflexivity].
  cbn [fst stock_history]. eexists. split; [reflexivity|].
  intros h [<-|[]]. cbn. auto.
Qed.

Lemma add_product_entries form site :
  exists entries,
    stock_history (db_of (add_product form (site_db site)))
    = stock_history (site_db site) ++ entries
    /\ forall h, In h entries -> entry_as_computed (to_add_product form) site h.
Proof.
  destruct (add_product_cases form (site_db site)) as [->|(Hm & Hs & Hth)];
    [apply no_entries; reflexivity|].
  destruct (add_product_accepted form (site_db site) Hm Hs Hth) as [_ ->].
  unfold db_of. cbn [fst stock_history]. eexists. split; [reflexivity|].
  destruct (Z.eqb_spec (form_initial_quantity form) 0) as [?|Hnz]; intros h Hh; [destruct Hh|].
  destruct Hh as [<-|[]]. cbn. auto.
Qed.

Lemma edit_product_keeps_ledger product_id form db :
  stock_history (db_of (edit_product product_id form db)) = stock_history db.
Proof.
  unfold edit_product, db_of.
  destruct (products db !! product_id); [|reflexivity].
  destruct (edit_method form); [reflexivity|].
  destruct (edit_threshold form <? 0); reflexivity.
Qed.

Lemma delete_product_keeps_ledger product_id method db :
  stock_history (db_of (delete_product product_id method db)) = stock_history db.
Proof.
  unfold delete_product, db_of.
  destruct (products db !! product_id); [|reflexivity].
  destruct method; reflexivity.
Qed.

(** Every entry that a request appends to the ledger is as the view
    has computed it. *)
Lemma handle_entries r site :
  exists entries,
    stock_history (site_db (handle r site)) = stock_history (site_db site) ++ entries
    /\ forall h, In h entries -> entry_as_computed r site h.
Proof.
  pose proof (customers_keep_db r site) as Hc.
  destruct r; cbn [handle on_db site_db] in *.
  - apply update_stock_entries.
  - apply view_invoice_entries.
  - apply low_stock_list_entries.
  - apply add_product_entries.
  - apply no_entries, edit_product_keeps_ledger.
  - apply no_entries, delete_product_keeps_ledger.
  - apply create_invoice_entries.
  - apply no_entries. rewrite Hc. reflexivity.
  - apply no_entries. rewrite Hc. reflexivity.
Qed.

(** C10, as the code has it. [clean] never refuses an entry and keeps
    its product, kind, note, user and the magnitude of its quantity; it
    leaves an entry of kind OUT with the negated magnitude and an entry
    of kind IN or ADJ with the magnitude, whatever sign the caller gave.
    No view runs [clean]: every entry that a request to a view appends
    to the ledger is stored as the view has computed it.  [update_stock]
    stores IN with the positive quantity of the form, OUT with its
    negation, ADJ with the new quantity less the old one, which is not
    zero and is negative when the stock is set lower; the quick restock
    stores IN with a positive quantity; [add_product] stores IN with the
    initial quantity as it came, which is not zero and may be negative;
    a sale stores OUT with the negated quantity of the item, which is
    zero for an item of quantity zero. *)
Theorem clean_normalises_sign :
  (forall h : StockHistory.t,
     let h' := StockHistory.clean h in
     StockHistory.product h' = StockHistory.product h
     /\ StockHistory.transaction_type h' = StockHistory.transaction_type h
     /\ StockHistory.note h' = StockHistory.note h
     /\ StockHistory.created_by h' = StockHistory.created_by h
     /\ Z.abs (StockHistory.quantity h') = Z.abs (StockHistory.quantity h)
     /\ match StockHistory.transaction_type h with
        | OUT => StockHistory.quantity h' = - Z.abs (StockHistory.quantity h)
        | IN | ADJ => StockHistory.quantity h' = Z.abs (StockHistory.quantity h)
        end)
  /\ (forall r site,
        exists entries,
          stock_history (site_db (handle r site)) = stock_history (site_db site) ++ entries
          /\ forall h, In h entries -> entry_as_computed r site h).
Proof.
  split; [|exact handle_entries].
  intros [p ty q n u]. unfold StockHistory.clean. cbn.
  destruct ty; cbn.
  - destruct (Z.ltb_spec q 0); cbn; repeat split; lia.
  - destruct (Z.ltb_spec 0 q); cbn; repeat split; lia.
  - destruct (Z.ltb_spec q 0); cbn; repeat split; lia.
Qed.

(** An item of quantity zero, which [view_invoice] lets into an
    invoice, is sold with an entry of kind OUT and quantity zero; a
    product added with the initial quantity [-3] has an entry of kind IN
    and quantity [-3]. *)
Lemma zero_sale_and_negative_initial_stock_stored :
  let with_zero :=
    db_of (view_invoice 1 (mkInvoiceForm POST 7 false true false 1 0 0) noon shop) in
  let sold :=
    db_of (view_invoice 1 (mkInvoiceForm POST 7 true false false 0 0 0) noon with_zero) in
  let opened :=
    db_of (add_product
             (mkProductForm POST 7 "POOL-003" "Net" (-3) (Dec 100 (-2)) (Dec 200 (-2)) 1)
             shop) in
  In (StockHistory.mk 1 OUT 0 "Sold via INV-20250101-0001" (Some 7)) (stock_history sold)
  /\ stock_history opened = [StockHistory.mk 3 IN (-3) "Initial stock" (Some 7)].
Proof.
  cbv zeta. split; [vm_compute; tauto | vm_compute; reflexivity].
Qed.
